(** * CipherNote: key derivation, password verification and the encrypted
      note store

    A shallow embedding of [src/utils/crypto.ts] and
    [src/utils/noteStorage.ts], and of the handlers of the screens and of
    the key context that call them.

    - A JavaScript string is the [string] of its bytes in UTF-8, an
      unpaired surrogate being written as the three bytes of its code
      unit; a string without unpaired surrogate is thus exactly a
      well-formed UTF-8 text ([JSText.well_formed]).  Truthiness, equality
      and the splitting at [':'] do not depend on the encoding.
      [null]/[undefined] is [None].
    - A thrown exception is [Throw e]; an [async] function over a platform
      store [S] is a function [S -> Result A * S], so that what was written
      before a rejection stays written.
    - The platform stores (expo-secure-store, expo-file-system) carry a
      script of injected faults: every platform call consumes one entry and
      rejects when it is [true].
    - [Date.now()] and the random sources are arguments of the functions
      that call them.
    - A handler of a screen runs against the two stores, the key context
      and the state of its screen, and records the alerts it shows and the
      navigation actions it dispatches.
    - What [JSON.parse] returns is a [JSONValue]: the code annotates it as
      [StoredNoteMetadata[]], but the file may hold any JSON text.  Reading
      a property of [null] and calling an array method on a value that is
      no array throw a [TypeError].
    - The functions of crypto-js, [JSON] and the platform constants are not
      part of the repository.  They are the fields of the classes
      [CryptoJS], [JSON] and [ExpoFileSystem]; what the development assumes
      about them is stated in [CryptoJSLaws] and [JSONLaws], and module
      [Reference] gives an executable implementation that satisfies these
      laws. *)

From Stdlib Require Import ZArith List String Ascii Bool Lia Btauto Permutation Sorted.
From stdpp Require Import base option list gmap strings pretty.

Local Open Scope Z_scope.

(** ** JavaScript control: exceptions, [try]/[catch], [await] *)

Module JS.

Inductive exn : Type :=
| Error (message : string)      (* [new Error(message)] *)
| Rejected (source : string).   (* raised by the engine, a library or the platform *)

Inductive Result (A : Type) : Type :=
| Ok (a : A)
| Throw (e : exn).
Arguments Ok {A} a.
Arguments Throw {A} e.

Definition bind {A B} (r : Result A) (k : A -> Result B) : Result B :=
  match r with
  | Ok a => k a
  | Throw e => Throw e
  end.

(** [try { body } catch (e) { handler e }] *)
Definition try_catch {A} (body : Result A) (handler : exn -> Result A) : Result A :=
  match body with
  | Ok a => Ok a
  | Throw e => handler e
  end.

(** An [async] function running against the store [S]. *)
Definition Async (S A : Type) : Type := S -> Result A * S.

Definition resolve {S A} (a : A) : Async S A := fun s => (Ok a, s).
Definition reject {S A} (e : exn) : Async S A := fun s => (Throw e, s).
Definition lift {S A} (r : Result A) : Async S A := fun s => (r, s).

Definition await {S A B} (c : Async S A) (k : A -> Async S B) : Async S B :=
  fun s =>
    match c s with
    | (Ok a, s') => k a s'
    | (Throw e, s') => (Throw e, s')
    end.

(** [try { await body } catch (e) { handler e }]: the effects of [body] up
    to the rejection are kept. *)
Definition try_await {S A} (body : Async S A) (handler : exn -> Async S A) : Async S A :=
  fun s =>
    match body s with
    | (Ok a, s') => (Ok a, s')
    | (Throw e, s') => handler e s'
    end.

(** Truthiness of a string: [!s] holds exactly for the empty string. *)
Definition truthy (s : string) : bool :=
  match s with
  | EmptyString => false
  | String _ _ => true
  end.

(** [s.split(sep)] for a one-character separator. *)
Fixpoint split (sep : ascii) (s : string) : list string :=
  match s with
  | EmptyString => [EmptyString]
  | String c rest =>
      if Ascii.eqb c sep then EmptyString :: split sep rest
      else match split sep rest with
           | [] => [String c EmptyString]
           | piece :: pieces => String c piece :: pieces
           end
  end.

(** Insertion of [x] in front of the first element it does not have to
    follow; [cmp x y > 0] means that [x] sorts after [y].  What the
    comparator throws ends the sort. *)
Fixpoint sort_insert {A} (cmp : A -> A -> Result Z) (x : A) (l : list A)
    : Result (list A) :=
  match l with
  | [] => Ok [x]
  | y :: l' =>
      bind (cmp x y) (fun c =>
        if 0 <? c then bind (sort_insert cmp x l') (fun sorted => Ok (y :: sorted))
        else Ok (x :: l))
  end.

(** [l.sort(cmp)]: a stable sort (ECMAScript 2019), for a consistent
    comparator. *)
Definition Array_sort {A} (cmp : A -> A -> Result Z) (l : list A) : Result (list A) :=
  foldr (fun x sorted => bind sorted (sort_insert cmp x)) (Ok []) l.

End JS.
Import JS.

Declare Scope js_scope.
Delimit Scope js_scope with js.
Notation "'let?' x ':=' r 'in' k" := (JS.bind r (fun x => k))
  (at level 10, x name, r at level 100, k at level 200) : js_scope.
Notation "'await!' x ':=' c 'in' k" := (JS.await c (fun x => k))
  (at level 10, x name, c at level 100, k at level 200) : js_scope.
Local Open Scope js_scope.

(** ** Platform stores with injected faults *)

Module Platform.

(** A platform store: what is persisted, and the script of faults still
    to be injected. *)
Record World (D : Type) : Type := mkWorld {
  data : D;
  faults : list bool
}.
Arguments mkWorld {D} data faults.
Arguments data {D} w.
Arguments faults {D} w.

(** Takes the next entry of a fault script; an exhausted script injects no
    fault. *)
Definition next_fault (script : list bool) : bool * list bool :=
  match script with
  | [] => (false, [])
  | b :: script' => (b, script')
  end.

(** One call of a platform module: it rejects, leaving the data as they
    are, when a fault is injected, and runs on the data otherwise. *)
Definition call {D A} (source : string) (run : D -> Result A * D) : Async (World D) A :=
  fun w =>
    let '(fault, script) := next_fault (faults w) in
    if fault then (Throw (Rejected source), mkWorld (data w) script)
    else
      let '(r, d) := run (data w) in
      (r, mkWorld d script).

End Platform.
Import Platform.

(** ** expo-secure-store *)

Module SecureStore.

Definition Store : Type := World (gmap string string).

Definition getItemAsync (key : string) : Async Store (option string) :=
  call "expo-secure-store" (fun m => (Ok (m !! key), m)).

Definition setItemAsync (key value : string) : Async Store unit :=
  call "expo-secure-store" (fun m => (Ok tt, <[key := value]> m)).

Definition deleteItemAsync (key : string) : Async Store unit :=
  call "expo-secure-store" (fun m => (Ok tt, delete key m)).

End SecureStore.

(** ** JavaScript text: well-formed strings, [trim] and the decimal form of
       a number *)

Module JSText.

(** A byte between two bounds, and a continuation byte of UTF-8. *)
Definition between (lo hi : N) (c : ascii) : bool :=
  ((lo <=? N_of_ascii c) && (N_of_ascii c <=? hi))%N.

Definition continuation (c : ascii) : bool := between 128 191 c.

(** The string has no unpaired surrogate: its bytes are well-formed UTF-8
    (RFC 3629: shortest forms only, no surrogate, nothing above U+10FFFF). *)
Fixpoint well_formed (s : string) : bool :=
  match s with
  | EmptyString => true
  | String c0 rest =>
      if between 0 127 c0 then well_formed rest
      else
        match rest with
        | EmptyString => false
        | String c1 rest1 =>
            if between 194 223 c0 then continuation c1 && well_formed rest1
            else
              match rest1 with
              | EmptyString => false
              | String c2 rest2 =>
                  if between 224 239 c0 then
                    (if between 224 224 c0 then between 160 191 c1
                     else if between 237 237 c0 then between 128 159 c1
                     else continuation c1)
                    && continuation c2 && well_formed rest2
                  else
                    match rest2 with
                    | EmptyString => false
                    | String c3 rest3 =>
                        if between 240 244 c0 then
                          (if between 240 240 c0 then between 144 191 c1
                           else if between 244 244 c0 then between 128 143 c1
                           else continuation c1)
                          && continuation c2 && continuation c3 && well_formed rest3
                        else false
                    end
              end
        end
  end.

(** The white space and the line terminators of ECMAScript, each as its
    bytes: U+0009 to U+000D, U+0020, U+00A0, U+1680, U+2000 to U+200A,
    U+2028, U+2029, U+202F, U+205F, U+3000 and U+FEFF. *)
Definition whiteSpace : list (list ascii) :=
  map (map ascii_of_nat)
    [ [9]; [10]; [11]; [12]; [13]; [32]; [194; 160]; [225; 154; 128];
      [226; 128; 128]; [226; 128; 129]; [226; 128; 130]; [226; 128; 131];
      [226; 128; 132]; [226; 128; 133]; [226; 128; 134]; [226; 128; 135];
      [226; 128; 136]; [226; 128; 137]; [226; 128; 138];
      [226; 128; 168]; [226; 128; 169]; [226; 128; 175]; [226; 129; 159];
      [227; 128; 128]; [239; 187; 191] ]%nat.

(** What follows the bytes [w] at the head of [l], if [l] starts with them. *)
Fixpoint after (w l : list ascii) : option (list ascii) :=
  match w, l with
  | [], _ => Some l
  | c :: w', d :: l' => if Ascii.eqb c d then after w' l' else None
  | _ :: _, [] => None
  end.

(** What follows one white space character at the head of [l], the
    characters being written as in [table]. *)
Fixpoint afterWhiteSpace (table : list (list ascii)) (l : list ascii)
    : option (list ascii) :=
  match table with
  | [] => None
  | w :: table' =>
      match after w l with
      | Some rest => Some rest
      | None => afterWhiteSpace table' l
      end
  end.

(** Drops the white space at the head of [l]; [fuel] bounds the number of
    characters dropped. *)
Fixpoint dropWhiteSpace (table : list (list ascii)) (fuel : nat) (l : list ascii)
    : list ascii :=
  match fuel with
  | O => l
  | S fuel' =>
      match afterWhiteSpace table l with
      | Some rest => dropWhiteSpace table fuel' rest
      | None => l
      end
  end.

Definition trimStart (s : string) : string :=
  let l := list_ascii_of_string s in
  string_of_list_ascii (dropWhiteSpace whiteSpace (length l) l).

(** The white space at the end is the white space at the head of the
    reversed string, each character reversed. *)
Definition trimEnd (s : string) : string :=
  let l := rev (list_ascii_of_string s) in
  string_of_list_ascii
    (rev (dropWhiteSpace (map (@rev ascii) whiteSpace) (length l) l)).

(** [s.trim()] *)
Definition trim (s : string) : string := trimEnd (trimStart s).

(** [n.toString()] for a number that is an integer, as [Date.now()] is:
    its decimal digits, after a minus sign when it is negative. *)
Definition Number_toString (n : Z) : string := pretty n.

End JSText.

(** ** crypto-js *)

(** [CryptoJS.lib.WordArray]: 32-bit words, kept as unsigned values, and the
    number of significant bytes. *)
Record WordArray : Type := mkWordArray {
  words : list Z;
  sigBytes : Z
}.

(** [CryptoJS.lib.WordArray.create(words)]: every element counts as a full
    word. *)
Definition WordArray_create (ws : list Z) : WordArray :=
  mkWordArray ws (4 * Z.of_nat (length ws)).

(** A source of random 32-bit integers, and
    [CryptoJS.lib.WordArray.random(nBytes)] drawing from it. *)
Definition RandomInts : Type := nat -> Z.

Definition WordArray_random (rnd : RandomInts) (nBytes : Z) : WordArray :=
  mkWordArray (map (fun i => rnd i mod 2 ^ 32) (seq 0 (Z.to_nat ((nBytes + 3) / 4)))) nBytes.

Inductive BlockMode : Type := CBC.
Inductive PaddingScheme : Type := Pkcs7.

Record CipherCfg : Type := mkCfg {
  iv : WordArray;
  mode : BlockMode;
  padding : PaddingScheme
}.

Class CryptoJS : Type := {
  (** [CryptoJS.PBKDF2(password, salt, { keySize, iterations })]; throws
      when the password cannot be encoded in UTF-8 *)
  PBKDF2 : string -> WordArray -> Z -> Z -> Result WordArray;
  (** [CryptoJS.AES.encrypt(data, key, cfg).toString()]; throws when the
      data cannot be encoded in UTF-8 *)
  AES_encrypt : string -> WordArray -> CipherCfg -> Result string;
  (** [CryptoJS.AES.decrypt(ciphertext, key, cfg)] *)
  AES_decrypt : string -> WordArray -> CipherCfg -> Result WordArray;
  (** [wordArray.toString()], that is [CryptoJS.enc.Hex.stringify] *)
  Hex_stringify : WordArray -> string;
  (** [CryptoJS.enc.Hex.parse] *)
  Hex_parse : string -> WordArray;
  (** [wordArray.toString(CryptoJS.enc.Base64)] *)
  Base64_stringify : WordArray -> string;
  (** [CryptoJS.enc.Base64.parse] *)
  Base64_parse : string -> WordArray;
  (** [wordArray.toString(CryptoJS.enc.Utf8)]; throws on malformed UTF-8 *)
  Utf8_stringify : WordArray -> Result string
}.

(** A word array whose words are all significant and in range. *)
Definition canonical (w : WordArray) : Prop :=
  sigBytes w = 4 * Z.of_nat (length (words w)) /\
  Forall (fun x => 0 <= x < 2 ^ 32) (words w).

(** The character [c] does not occur in [s]. *)
Fixpoint free_of (c : ascii) (s : string) : Prop :=
  match s with
  | EmptyString => True
  | String c' s' => c' <> c /\ free_of c s'
  end.

(** The words start with the marker ['Salted__'] of the OpenSSL format:
    [CryptoJS.AES.decrypt] then takes the sixteen bytes at the head of a
    parsed ciphertext for the marker and a salt, and decrypts the rest. *)
Definition salted (ws : list Z) : bool :=
  match ws with
  | w0 :: w1 :: _ => (w0 =? 0x53616c74) && (w1 =? 0x65645f5f)
  | _ => false
  end.

(** The string form of a ciphertext decodes to bytes that start with the
    marker. *)
Definition OpenSSL_salted {L : CryptoJS} (ciphertext : string) : bool :=
  salted (words (Base64_parse ciphertext)).

(** What the development assumes about crypto-js:
    - the key derived from a well-formed password has the requested number
      of words;
    - the hexadecimal and the Base64 encodings are inverted by their
      parsers, contain no [':'] and are not empty for a non-empty array;
    - well-formed data are encrypted, and the string form of a ciphertext
      (Base64) is not empty and contains no [':'];
    - decrypting a ciphertext that does not start with the OpenSSL marker,
      under the key and the configuration that produced it, gives back the
      bytes of the plaintext, which the UTF-8 decoder turns into the
      plaintext again. *)
Class CryptoJSLaws (L : CryptoJS) : Prop := {
  PBKDF2_well_formed : forall password salt keySize iterations,
    JSText.well_formed password = true ->
    exists key, PBKDF2 password salt keySize iterations = Ok key /\
                sigBytes key = 4 * keySize;
  Hex_parse_stringify : forall w,
    canonical w -> Hex_parse (Hex_stringify w) = w;
  Hex_stringify_digits : forall w, free_of ":" (Hex_stringify w);
  Hex_stringify_nonempty : forall w,
    canonical w -> 0 < sigBytes w -> Hex_stringify w <> "";
  Base64_parse_stringify : forall w,
    canonical w -> Base64_parse (Base64_stringify w) = w;
  Base64_stringify_nonempty : forall w,
    canonical w -> 0 < sigBytes w -> Base64_stringify w <> "";
  AES_encrypt_well_formed : forall data key cfg,
    JSText.well_formed data = true ->
    exists ciphertext, AES_encrypt data key cfg = Ok ciphertext;
  AES_encrypt_format : forall data key cfg ciphertext,
    AES_encrypt data key cfg = Ok ciphertext ->
    ciphertext <> "" /\ free_of ":" ciphertext;
  AES_decrypt_encrypt : forall data key cfg ciphertext,
    AES_encrypt data key cfg = Ok ciphertext ->
    OpenSSL_salted ciphertext = false ->
    data <> "" ->
    exists w, AES_decrypt ciphertext key cfg = Ok w /\
              words w <> [] /\ 0 < sigBytes w /\ Utf8_stringify w = Ok data
}.

(** ** expo-crypto *)

Module ExpoCrypto.

Definition RandomBytes : Type := nat -> Byte.byte.

(** [ExpoCrypto.getRandomBytes(byteCount)] *)
Definition getRandomBytes (rnd : RandomBytes) (byteCount : Z) : list Byte.byte :=
  map rnd (seq 0 (Z.to_nat byteCount)).

End ExpoCrypto.

(** [Array.from(uint8Array)] *)
Definition Array_from (bytes : list Byte.byte) : list Z :=
  map (fun b => Z.of_N (Byte.to_N b)) bytes.

(** ** [src/utils/crypto.ts] *)

Module Crypto.

Section Functions.

Context {L : CryptoJS}.

Definition PBKDF2_ITERATIONS : Z := 10000.
Definition KEY_SIZE : Z := 256 / 32.
Definition SALT_SIZE : Z := 128 / 8.
Definition IV_SIZE : Z := 128 / 8.
Definition SECURE_STORE_SALT_KEY : string := "ciphernote_salt".
Definition TEST_DATA_KEY : string := "ciphernote_test_data".
Definition TEST_PLAIN_TEXT : string := "CipherNoteTest".

Definition generateSalt (rnd : RandomInts) : WordArray :=
  WordArray_random rnd SALT_SIZE.

Definition deriveKey (password : string) (salt : WordArray) : Result WordArray :=
  try_catch
    (PBKDF2 password salt KEY_SIZE PBKDF2_ITERATIONS)
    (fun error => Throw error).

(** The key is [None] when the caller passes [null]. *)
Definition encryptData (data : string) (key : option WordArray)
    (rnd : ExpoCrypto.RandomBytes) : Result string :=
  match key with
  | Some k =>
      if negb (truthy data) then Throw (Error "Encrypt data received invalid input.")
      else
        let ivUint8 := ExpoCrypto.getRandomBytes rnd IV_SIZE in
        let iv := WordArray_create (Array_from ivUint8) in
        let? encrypted := AES_encrypt data k (mkCfg iv CBC Pkcs7) in
        Ok (Hex_stringify iv +:+ ":" +:+ encrypted)
  | None => Throw (Error "Encrypt data received invalid input.")
  end.

Definition decryptData (encryptedText : string) (key : option WordArray)
    : Result (option string) :=
  try_catch
    (match key with
     | Some k =>
         if negb (truthy encryptedText) then Ok None
         else
           let parts := split ":" encryptedText in
           match parts !! 0%nat, parts !! 1%nat with
           | Some ivString, Some ciphertext =>
               if negb (truthy ivString) || negb (truthy ciphertext) then Ok None
               else
                 let iv := Hex_parse ivString in
                 let? decrypted := AES_decrypt ciphertext k (mkCfg iv CBC Pkcs7) in
                 if (length (words decrypted) =? 0)%nat || (sigBytes decrypted <=? 0)
                 then Ok None
                 else
                   let? plaintext := Utf8_stringify decrypted in
                   if negb (truthy plaintext) then Ok None
                   else Ok (Some plaintext)
           | _, _ => Ok None
           end
     | None => Ok None
     end)
    (fun error => Ok None).

Definition storeSalt (salt : WordArray) : Async SecureStore.Store unit :=
  try_await
    (SecureStore.setItemAsync SECURE_STORE_SALT_KEY (Base64_stringify salt))
    (fun error => reject (Error "Failed to store critical encryption data.")).

Definition getStoredSalt : Async SecureStore.Store (option WordArray) :=
  try_await
    (await! saltBase64 := SecureStore.getItemAsync SECURE_STORE_SALT_KEY in
     match saltBase64 with
     | Some s => if truthy s then resolve (Some (Base64_parse s)) else resolve None
     | None => resolve None
     end)
    (fun error => resolve None).

Definition hasMasterPassword : Async SecureStore.Store bool :=
  await! salt := getStoredSalt in
  resolve (match salt with Some _ => true | None => false end).

Definition setMasterPassword (password : string) (rndSalt : RandomInts)
    (rndIv : ExpoCrypto.RandomBytes) : Async SecureStore.Store WordArray :=
  if negb (truthy password) then reject (Error "Password cannot be empty.")
  else
    let salt := generateSalt rndSalt in
    await! _ := storeSalt salt in
    await! derivedKey := lift (deriveKey password salt) in
    if sigBytes derivedKey =? 0 then reject (Error "Failed to derive encryption key.")
    else
      await! _ :=
        try_await
          (await! encryptedTest := lift (encryptData TEST_PLAIN_TEXT (Some derivedKey) rndIv) in
           SecureStore.setItemAsync TEST_DATA_KEY encryptedTest)
          (fun e => reject (Error "Failed to secure internal test data for password verification.")) in
      resolve derivedKey.

Definition verifyMasterPassword (password : string)
    : Async SecureStore.Store (option WordArray) :=
  if negb (truthy password) then resolve None
  else
    await! salt := getStoredSalt in
    match salt with
    | None => resolve None
    | Some salt =>
        await! derivedKey := lift (deriveKey password salt) in
        await! STORED_TEST_DATA := SecureStore.getItemAsync TEST_DATA_KEY in
        match STORED_TEST_DATA with
        | None => resolve None
        | Some stored =>
            if negb (truthy stored) then resolve None
            else
              await! decryptedTest := lift (decryptData stored (Some derivedKey)) in
              match decryptedTest with
              | Some text =>
                  if String.eqb text TEST_PLAIN_TEXT then resolve (Some derivedKey)
                  else resolve None
              | None => resolve None
              end
        end
    end.

Definition clearMasterPassword : Async SecureStore.Store unit :=
  try_await
    (await! _ := SecureStore.deleteItemAsync SECURE_STORE_SALT_KEY in
     SecureStore.deleteItemAsync TEST_DATA_KEY)
    (fun error => reject (Error "Failed to clear master password data.")).

(** *** Notions used to state the properties *)

(** The initialisation vector that [encryptData] builds from the drawn
    bytes. *)
Definition drawn_iv (rnd : ExpoCrypto.RandomBytes) : WordArray :=
  WordArray_create (Array_from (ExpoCrypto.getRandomBytes rnd IV_SIZE)).

(** What [verifyMasterPassword] answers for the key it derived once both
    reads were answered. *)
Definition verdict (derivedKey : WordArray) (probe : option string) : option WordArray :=
  match probe with
  | Some stored =>
      match decryptData stored (Some derivedKey) with
      | Ok (Some text) => if String.eqb text TEST_PLAIN_TEXT then Some derivedKey else None
      | _ => None
      end
  | None => None
  end.

End Functions.

End Crypto.

(** ** expo-file-system *)

Module FileSystem.

(** The files with their contents, and the directories. *)
Record Disk : Type := mkDisk {
  files : gmap string string;
  directories : gset string
}.

Definition FS : Type := World Disk.

Record FileInfo : Type := mkFileInfo {
  exists_ : bool;
  isDirectory : bool
}.

Definition getInfoAsync (fileUri : string) : Async FS FileInfo :=
  call "expo-file-system" (fun d =>
    let isDir := bool_decide (fileUri ∈ directories d) in
    let isFile := bool_decide (is_Some (files d !! fileUri)) in
    (Ok (mkFileInfo (isDir || isFile) isDir), d)).

(** [makeDirectoryAsync(fileUri, { intermediates: true })] *)
Definition makeDirectoryAsync (fileUri : string) : Async FS unit :=
  call "expo-file-system" (fun d =>
    (Ok tt, mkDisk (files d) ({[fileUri]} ∪ directories d))).

(** Reading a file that does not exist rejects. *)
Definition readAsStringAsync (fileUri : string) : Async FS string :=
  call "expo-file-system" (fun d =>
    match files d !! fileUri with
    | Some contents => (Ok contents, d)
    | None => (Throw (Rejected "expo-file-system"), d)
    end).

Definition writeAsStringAsync (fileUri contents : string) : Async FS unit :=
  call "expo-file-system" (fun d =>
    (Ok tt, mkDisk (<[fileUri := contents]> (files d)) (directories d))).

(** [deleteAsync(fileUri)] without [idempotent]: deleting what does not
    exist rejects. *)
Definition deleteAsync (fileUri : string) : Async FS unit :=
  call "expo-file-system" (fun d =>
    if bool_decide (fileUri ∈ directories d) || bool_decide (is_Some (files d !! fileUri))
    then (Ok tt, mkDisk (delete fileUri (files d)) (directories d ∖ {[fileUri]}))
    else (Throw (Rejected "expo-file-system"), d)).

End FileSystem.

Class ExpoFileSystem : Type := {
  (** [FileSystem.documentDirectory] *)
  documentDirectory : string
}.

(** ** [src/utils/noteStorage.ts] *)

Module Note.
Record t : Type := mk {
  id : string;
  content : string;
  timestamp : Z
}.
End Note.

(** ** [JSON] and the values it yields *)

(** A number of a JSON text: an integer, or the literal of a number that
    is written with a fraction or an exponent. *)
Inductive Number : Type :=
| Integer (z : Z)
| Fraction (literal : string).

#[warnings="-register-all"]
Inductive JSONValue : Type :=
| JNull
| JBool (b : bool)
| JNumber (n : Number)
| JString (s : string)
| JArray (items : list JSONValue)
| JObject (fields : list (string * JSONValue)).

Module StoredNoteMetadata.
Record t : Type := mk {
  id : string;
  timestamp : Z
}.

(** The object [{ id, timestamp }]. *)
Definition toJSON (m : t) : JSONValue :=
  JObject [("id", JString (id m)); ("timestamp", JNumber (Integer (timestamp m)))].
End StoredNoteMetadata.

(** The array of the entries [metadata]. *)
Definition entries (metadata : list StoredNoteMetadata.t) : JSONValue :=
  JArray (map StoredNoteMetadata.toJSON metadata).

(** [JSON.parse], which throws on text that is no JSON, [JSON.stringify],
    and the subtraction [x - y] of the engine for two properties read from
    parsed values ([None] is [undefined]; [NaN] counts as [0], which is how
    a sort takes it). *)
Class JSON : Type := {
  JSON_parse : string -> Result JSONValue;
  JSON_stringify : JSONValue -> string;
  Number_minus : option JSONValue -> option JSONValue -> Result Z
}.

(** What the development assumes: an array of entries is read back as it
    was written, and integers are subtracted as integers. *)
Class JSONLaws (J : JSON) : Prop := {
  JSON_parse_stringify : forall metadata,
    JSON_parse (JSON_stringify (entries metadata)) = Ok (entries metadata);
  Number_minus_integers : forall x y,
    Number_minus (Some (JNumber (Integer x))) (Some (JNumber (Integer y))) = Ok (x - y)
}.

(** [value.name], for a name that no prototype defines, as [id] and
    [timestamp] are: reading a property of [null] throws, and a value that
    is no object has no such property. *)
Definition JSON_get (value : JSONValue) (name : string) : Result (option JSONValue) :=
  match value with
  | JNull => Throw (Rejected "TypeError")
  | JObject fields =>
      Ok (snd <$> List.find (fun field => String.eqb (fst field) name) fields)
  | _ => Ok None
  end.

(** [property === s] for a string [s]. *)
Definition is_string (property : option JSONValue) (s : string) : bool :=
  match property with
  | Some (JString s') => String.eqb s' s
  | _ => false
  end.

(** The elements of the receiver of [findIndex], [filter] or [sort]: a
    parsed value that is no array has no such method, and the call throws. *)
Definition Array_receiver (value : JSONValue) : Result (list JSONValue) :=
  match value with
  | JArray items => Ok items
  | _ => Throw (Rejected "TypeError")
  end.

(** [array.findIndex(p)], with [None] for [-1]. *)
Fixpoint findIndex {A} (p : A -> Result bool) (l : list A) : Result (option nat) :=
  match l with
  | [] => Ok None
  | x :: l' =>
      let? found := p x in
      if found then Ok (Some 0%nat)
      else let? i := findIndex p l' in Ok (option_map S i)
  end.

(** [array.filter(p)] *)
Fixpoint Array_filter {A} (p : A -> Result bool) (l : list A) : Result (list A) :=
  match l with
  | [] => Ok []
  | x :: l' =>
      let? keep := p x in
      let? kept := Array_filter p l' in
      Ok (if keep then x :: kept else kept)
  end.

Module NoteStorage.

Section Functions.

Context {L : CryptoJS} {E : ExpoFileSystem} {J : JSON}.

Definition NOTES_DIR : string := documentDirectory +:+ "notes/".
Definition METADATA_FILE : string := NOTES_DIR +:+ "metadata.json".

Definition ensureDirExists : Async FileSystem.FS unit :=
  await! dirInfo := FileSystem.getInfoAsync NOTES_DIR in
  if negb (FileSystem.isDirectory dirInfo)
  then FileSystem.makeDirectoryAsync NOTES_DIR
  else resolve tt.

Definition saveNote (note : Note.t) (encryptionKey : option WordArray)
    (rnd : ExpoCrypto.RandomBytes) : Async FileSystem.FS Note.t :=
  match encryptionKey with
  | None => reject (Error "Encryption key is not available. Cannot save note.")
  | Some _ =>
      await! _ := ensureDirExists in
      await! encryptedContent :=
        lift (Crypto.encryptData (Note.content note) encryptionKey rnd) in
      let filePath := NOTES_DIR +:+ Note.id note +:+ ".encrypted" in
      await! _ := FileSystem.writeAsStringAsync filePath encryptedContent in
      await! metadata :=
        try_await
          (await! rawMetadata := FileSystem.readAsStringAsync METADATA_FILE in
           lift (JSON_parse rawMetadata))
          (fun e => resolve (JArray [])) in
      await! items := lift (Array_receiver metadata) in
      await! existingIndex :=
        lift (findIndex (fun m => let? id := JSON_get m "id" in
                                  Ok (is_string id (Note.id note))) items) in
      let newMetadata :=
        StoredNoteMetadata.toJSON
          (StoredNoteMetadata.mk (Note.id note) (Note.timestamp note)) in
      let items :=
        match existingIndex with
        | Some i => <[i := newMetadata]> items
        | None => items ++ [newMetadata]
        end in
      await! _ :=
        FileSystem.writeAsStringAsync METADATA_FILE (JSON_stringify (JArray items)) in
      resolve note
  end.

Definition loadNoteContent (id : string) (encryptionKey : option WordArray)
    : Async FileSystem.FS (option string) :=
  match encryptionKey with
  | None => reject (Error "Encryption key is not available. Cannot load note content.")
  | Some _ =>
      let filePath := NOTES_DIR +:+ id +:+ ".encrypted" in
      try_await
        (await! fileInfo := FileSystem.getInfoAsync filePath in
         if negb (FileSystem.exists_ fileInfo) then resolve None
         else
           await! encryptedContent := FileSystem.readAsStringAsync filePath in
           lift (Crypto.decryptData encryptedContent encryptionKey))
        (fun error => resolve None)
  end.

(** The comparator of the listing: [(a, b) => b.timestamp - a.timestamp]. *)
Definition byTimestampDesc (a b : JSONValue) : Result Z :=
  let? timestamp_b := JSON_get b "timestamp" in
  let? timestamp_a := JSON_get a "timestamp" in
  Number_minus timestamp_b timestamp_a.

Definition getAllNoteMetadata : Async FileSystem.FS (list JSONValue) :=
  await! _ := ensureDirExists in
  try_await
    (await! rawMetadata := FileSystem.readAsStringAsync METADATA_FILE in
     await! metadata := lift (JSON_parse rawMetadata) in
     await! items := lift (Array_receiver metadata) in
     lift (Array_sort byTimestampDesc items))
    (fun e => resolve []).

Definition deleteNote (id : string) : Async FileSystem.FS unit :=
  await! _ := ensureDirExists in
  let filePath := NOTES_DIR +:+ id +:+ ".encrypted" in
  try_await
    (await! fileInfo := FileSystem.getInfoAsync filePath in
     await! _ :=
       (if FileSystem.exists_ fileInfo then FileSystem.deleteAsync filePath
        else resolve tt) in
     await! metadata :=
       try_await
         (await! rawMetadata := FileSystem.readAsStringAsync METADATA_FILE in
          lift (JSON_parse rawMetadata))
         (fun e => resolve (JArray [])) in
     await! items := lift (Array_receiver metadata) in
     await! updatedMetadata :=
       lift (Array_filter (fun m => let? id' := JSON_get m "id" in
                                    Ok (negb (is_string id' id))) items) in
     FileSystem.writeAsStringAsync METADATA_FILE (JSON_stringify (JArray updatedMetadata)))
    (fun error => reject (Error "Failed to delete note.")).

(** [now] is what [Date.now()] returns. *)
Definition generateNoteId (now : Z) : string := JSText.Number_toString now.

(** *** Notions used to state the properties *)

(** [a] may stand before [b] in the listing: it is at least as recent. *)
Definition newer_first (a b : StoredNoteMetadata.t) : Prop :=
  StoredNoteMetadata.timestamp b <= StoredNoteMetadata.timestamp a.

(** The timestamp of a parsed value, when it has one that is an integer. *)
Definition integerTimestamp (value : JSONValue) : option Z :=
  match JSON_get value "timestamp" with
  | Ok (Some (JNumber (Integer z))) => Some z
  | _ => None
  end.

(** The order of the listing for values with the timestamps [ts]: each
    value is put in front of the first one that is not more recent. *)
Fixpoint insertNewest {A} (ts : A -> Z) (x : A) (l : list A) : list A :=
  match l with
  | [] => [x]
  | y :: l' => if 0 <? ts y - ts x then y :: insertNewest ts x l' else x :: l
  end.

Definition newestFirst {A} (ts : A -> Z) (l : list A) : list A :=
  foldr (insertNewest ts) [] l.

(** The timestamp of a parsed value in the listing, [0] standing for one
    that is no integer. *)
Definition timestampOf (value : JSONValue) : Z := default 0 (integerTimestamp value).

(** What [getAllNoteMetadata] returns from a disk that answers: the sorted
    elements of the array in the metadata file, and nothing when the file
    is missing or anything in the [try] block throws. *)
Definition listed (d : FileSystem.Disk) : list JSONValue :=
  match FileSystem.files d !! METADATA_FILE with
  | Some rawMetadata =>
      match (let? metadata := JSON_parse rawMetadata in
             let? items := Array_receiver metadata in
             Array_sort byTimestampDesc items) with
      | Ok sorted => sorted
      | Throw _ => []
      end
  | None => []
  end.

(** The path of the blob of a note. *)
Definition blobPath (id : string) : string := NOTES_DIR +:+ id +:+ ".encrypted".

(** The value that [saveNote] and [deleteNote] take for the metadata: what
    the file parses to, and the empty array for a missing file and for a
    text that is no JSON. *)
Definition indexValue (d : FileSystem.Disk) : JSONValue :=
  match FileSystem.files d !! METADATA_FILE with
  | Some rawMetadata =>
      match JSON_parse rawMetadata with
      | Ok metadata => metadata
      | Throw _ => JArray []
      end
  | None => JArray []
  end.

(** The metadata file holds the entries [metadata], a missing file and a
    text that is no JSON holding none. *)
Definition indexHolds (d : FileSystem.Disk) (metadata : list StoredNoteMetadata.t) : Prop :=
  indexValue d = entries metadata.

(** The note [id] has neither a file nor a directory at its path. *)
Definition blobAbsent (id : string) (d : FileSystem.Disk) : Prop :=
  FileSystem.files d !! blobPath id = None /\ blobPath id ∉ FileSystem.directories d.

(** The block [try { metadata = JSON.parse(await read(METADATA_FILE)) }
    catch { }] of [saveNote] and [deleteNote]. *)
Definition readMetadata : Async FileSystem.FS JSONValue :=
  try_await
    (await! rawMetadata := FileSystem.readAsStringAsync METADATA_FILE in
     lift (JSON_parse rawMetadata))
    (fun e => resolve (JArray [])).

(** What [deleteNote] keeps of the parsed metadata:
    [metadata.filter(m => m.id !== id)]. *)
Definition keptItems (id : string) (metadata : JSONValue) : Result (list JSONValue) :=
  let? items := Array_receiver metadata in
  Array_filter (fun m => let? id' := JSON_get m "id" in Ok (negb (is_string id' id))) items.

(** What [saveNote] makes of the parsed metadata: the entry of the note
    replaces the first element with its id, or is added at the end. *)
Definition upsertItems (note : Note.t) (metadata : JSONValue) : Result (list JSONValue) :=
  let? items := Array_receiver metadata in
  let? existingIndex :=
    findIndex (fun m => let? id := JSON_get m "id" in
                        Ok (is_string id (Note.id note))) items in
  let newMetadata :=
    StoredNoteMetadata.toJSON
      (StoredNoteMetadata.mk (Note.id note) (Note.timestamp note)) in
  Ok match existingIndex with
     | Some i => <[i := newMetadata]> items
     | None => items ++ [newMetadata]
     end.

(** The entries that [deleteNote] keeps. *)
Definition withoutId (id : string) (metadata : list StoredNoteMetadata.t)
    : list StoredNoteMetadata.t :=
  filter (fun m => StoredNoteMetadata.id m <> id) metadata.

(** The position of the first entry with the id [id]. *)
Fixpoint indexOfId (id : string) (metadata : list StoredNoteMetadata.t) : option nat :=
  match metadata with
  | [] => None
  | m :: metadata' =>
      if String.eqb (StoredNoteMetadata.id m) id then Some 0%nat
      else option_map S (indexOfId id metadata')
  end.

(** What [saveNote] does to the entries: the entry of the note replaces
    the first entry with its id, or is added at the end. *)
Definition upsert (note : Note.t) (metadata : list StoredNoteMetadata.t)
    : list StoredNoteMetadata.t :=
  let newMetadata := StoredNoteMetadata.mk (Note.id note) (Note.timestamp note) in
  match indexOfId (Note.id note) metadata with
  | Some i => <[i := newMetadata]> metadata
  | None => metadata ++ [newMetadata]
  end.

End Functions.

End NoteStorage.
(** ** The screens and the key context

    The handlers of [src/contexts/CryptoContext.tsx],
    [src/screens/LoginScreen.tsx], [src/screens/NoteEditorScreen.tsx] and
    [src/screens/HomeScreen.tsx].  A handler runs against the device (the
    two platform stores), the key context and the state of its screen;
    the alerts it shows and the navigation actions it dispatches are
    recorded in the order in which they happen.  The values that a handler
    takes from its closure ([isAuthenticated], [encryptionKey], the route
    parameter) are its arguments. *)

Module Navigation.

Inductive Route : Type :=
| Login
| Home
| NoteEditor (noteId : option string).

Inductive Action : Type :=
| replace (route : Route)
| navigate (route : Route)
| goBack.

End Navigation.

Module UI.

(** What the user gets to see: [Alert.alert(title, message)] and the
    actions dispatched to the navigator. *)
Inductive Event : Type :=
| Alert (title message : string)
| Dispatch (action : Navigation.Action).

(** The state of [CryptoProvider]. *)
Record KeyContext : Type := mkKeyContext {
  encryptionKey : option WordArray;
  isKeySetRef : bool
}.

Record World (S : Type) : Type := mkWorld {
  secureStore : SecureStore.Store;
  fileSystem : FileSystem.FS;
  keyContext : KeyContext;
  screen : S;
  events : list Event
}.
Arguments mkWorld {S} secureStore fileSystem keyContext screen events.
Arguments secureStore {S} w.
Arguments fileSystem {S} w.
Arguments keyContext {S} w.
Arguments screen {S} w.
Arguments events {S} w.

Section Handlers.

Context {S : Type}.

(** A call into [src/utils/crypto.ts]. *)
Definition onSecureStore {A} (c : Async SecureStore.Store A) : Async (World S) A :=
  fun w =>
    let '(r, st) := c (secureStore w) in
    (r, mkWorld st (fileSystem w) (keyContext w) (screen w) (events w)).

(** A call into [src/utils/noteStorage.ts]. *)
Definition onFileSystem {A} (c : Async FileSystem.FS A) : Async (World S) A :=
  fun w =>
    let '(r, fs) := c (fileSystem w) in
    (r, mkWorld (secureStore w) fs (keyContext w) (screen w) (events w)).

Definition getScreen : Async (World S) S := fun w => (Ok (screen w), w).

(** A state setter of the screen. *)
Definition setScreen (f : S -> S) : Async (World S) unit :=
  fun w =>
    (Ok tt, mkWorld (secureStore w) (fileSystem w) (keyContext w) (f (screen w)) (events w)).

Definition emit (e : Event) : Async (World S) unit :=
  fun w =>
    (Ok tt, mkWorld (secureStore w) (fileSystem w) (keyContext w) (screen w) (events w ++ [e])).

Definition Alert_alert (title message : string) : Async (World S) unit :=
  emit (Alert title message).

Definition navigation_replace (route : Navigation.Route) : Async (World S) unit :=
  emit (Dispatch (Navigation.replace route)).

Definition navigation_goBack : Async (World S) unit :=
  emit (Dispatch Navigation.goBack).

(** An update of the state or of the ref of [CryptoProvider]. *)
Definition setKeyContext (f : KeyContext -> KeyContext) : Async (World S) unit :=
  fun w =>
    (Ok tt, mkWorld (secureStore w) (fileSystem w) (f (keyContext w)) (screen w) (events w)).

(** [try { body } finally { cleanup }] *)
Definition finally {A} (body : Async (World S) A) (cleanup : Async (World S) unit)
    : Async (World S) A :=
  fun w =>
    let '(r, w1) := body w in
    match cleanup w1 with
    | (Ok _, w2) => (r, w2)
    | (Throw e, w2) => (Throw e, w2)
    end.

End Handlers.

End UI.

(** *** [src/contexts/CryptoContext.tsx] *)

Module CryptoContext.

Import UI.

Section Functions.

Context {L : CryptoJS} {S : Type}.

(** [setEncryptionKey] of the context value: it also records in the ref
    whether a key is set. *)
Definition setEncryptionKey (key : option WordArray) : Async (World S) unit :=
  await! _ := setKeyContext (fun c => mkKeyContext key (isKeySetRef c)) in
  setKeyContext (fun c =>
    mkKeyContext (encryptionKey c) (match key with Some _ => true | None => false end)).

Definition clearAllCryptoData : Async (World S) unit :=
  try_await
    (await! _ := onSecureStore Crypto.clearMasterPassword in
     await! _ := setKeyContext (fun c => mkKeyContext None (isKeySetRef c)) in
     await! _ := setKeyContext (fun c => mkKeyContext (encryptionKey c) false) in
     Alert_alert "Data Cleared"
       "Master password and all notes have been permanently deleted from this device. You will need to set a new master password on next launch.")
    (fun error => Alert_alert "Error" "Failed to clear all data. Please try again.").

End Functions.

End CryptoContext.

(** *** [src/screens/LoginScreen.tsx] *)

Module LoginScreen.

Import UI.

Record State : Type := mkState {
  password : string;
  confirmPassword : string;
  isFirstLaunch : option bool;
  loading : bool;
  error : option string
}.

Definition setIsFirstLaunch (b : bool) (s : State) : State :=
  mkState (password s) (confirmPassword s) (Some b) (loading s) (error s).

Definition setLoading (b : bool) (s : State) : State :=
  mkState (password s) (confirmPassword s) (isFirstLaunch s) b (error s).

Definition setError (e : option string) (s : State) : State :=
  mkState (password s) (confirmPassword s) (isFirstLaunch s) (loading s) e.

Section Functions.

Context {L : CryptoJS}.

Definition checkFirstLaunch : Async (World State) unit :=
  finally
    (try_await
       (await! has := onSecureStore Crypto.hasMasterPassword in
        setScreen (setIsFirstLaunch (negb has)))
       (fun e => Alert_alert "Error" "Could not check app status. Please restart."))
    (setScreen (setLoading false)).

Definition handleSetMasterPassword (rndSalt : RandomInts) (rndIv : ExpoCrypto.RandomBytes)
    : Async (World State) unit :=
  await! s := getScreen in
  if negb (truthy (password s)) || negb (truthy (confirmPassword s))
  then setScreen (setError (Some "Please fill in both password fields."))
  else if negb (String.eqb (password s) (confirmPassword s))
  then setScreen (setError (Some "Passwords do not match."))
  else
    await! _ := setScreen (setError None) in
    await! _ := setScreen (setLoading true) in
    finally
      (try_await
         (await! derivedKey :=
            onSecureStore (Crypto.setMasterPassword (password s) rndSalt rndIv) in
          await! _ := CryptoContext.setEncryptionKey (Some derivedKey) in
          navigation_replace Navigation.Home)
         (fun e =>
            setScreen (setError (Some "Failed to set master password. Please try again."))))
      (setScreen (setLoading false)).

Definition handleLogin : Async (World State) unit :=
  await! s := getScreen in
  if negb (truthy (password s))
  then setScreen (setError (Some "Please enter your master password."))
  else
    await! _ := setScreen (setError None) in
    await! _ := setScreen (setLoading true) in
    finally
      (try_await
         (await! derivedKey := onSecureStore (Crypto.verifyMasterPassword (password s)) in
          match derivedKey with
          | Some key =>
              await! _ := CryptoContext.setEncryptionKey (Some key) in
              navigation_replace Navigation.Home
          | None => setScreen (setError (Some "Incorrect master password."))
          end)
         (fun e =>
            setScreen (setError (Some "An error occurred during login. Please try again."))))
      (setScreen (setLoading false)).

End Functions.

End LoginScreen.

(** *** [src/screens/NoteEditorScreen.tsx] *)

Module NoteEditorScreen.

Import UI.

Record State : Type := mkState {
  content : string;
  loading : bool;
  currentNoteId : option string;
  isSaving : bool
}.

Definition setContent (c : string) (s : State) : State :=
  mkState c (loading s) (currentNoteId s) (isSaving s).

Definition setLoading (b : bool) (s : State) : State :=
  mkState (content s) b (currentNoteId s) (isSaving s).

Definition setCurrentNoteId (id : option string) (s : State) : State :=
  mkState (content s) (loading s) id (isSaving s).

Definition setIsSaving (b : bool) (s : State) : State :=
  mkState (content s) (loading s) (currentNoteId s) b.

(** A string that may be missing counts when it is there and not empty. *)
Definition given (s : option string) : option string :=
  match s with
  | Some id => if truthy id then Some id else None
  | None => None
  end.

Section Functions.

Context {L : CryptoJS} {E : ExpoFileSystem} {J : JSON}.

Definition fetchOrCreateNote (noteId : option string) (isAuthenticated : bool)
    (encryptionKey : option WordArray) : Async (World State) unit :=
  match isAuthenticated, encryptionKey with
  | true, Some _ =>
      match given noteId with
      | Some id =>
          await! _ := setScreen (setLoading true) in
          finally
            (try_await
               (await! loadedContent :=
                  onFileSystem (NoteStorage.loadNoteContent id encryptionKey) in
                match loadedContent with
                | Some loaded =>
                    await! _ := setScreen (setContent loaded) in
                    setScreen (setCurrentNoteId (Some id))
                | None =>
                    await! _ :=
                      Alert_alert "Error"
                        "Note not found or could not be decrypted. It might have been deleted or corrupted." in
                    navigation_goBack
                end)
               (fun e =>
                  await! _ := Alert_alert "Error" "Failed to load note." in
                  navigation_goBack))
            (setScreen (setLoading false))
      | None =>
          await! _ := setScreen (setContent "") in
          await! _ := setScreen (setCurrentNoteId None) in
          setScreen (setLoading false)
      end
  | _, _ =>
      await! _ := Alert_alert "Error" "Authentication required to load/save notes." in
      navigation_replace Navigation.Login
  end.

(** The function that [useFocusEffect] runs when the screen loses the
    focus.  [now i] is what the call number [i] of [Date.now()] returns;
    the content is the one of [contentRef]. *)
Definition autoSave (isAuthenticated : bool) (encryptionKey : option WordArray)
    (currentNoteId : option string) (now : nat -> Z) (rnd : ExpoCrypto.RandomBytes)
    : Async (World State) unit :=
  await! s := getScreen in
  match isAuthenticated, encryptionKey with
  | true, Some _ =>
      if negb (String.eqb (JSText.trim (content s)) "")
      then
        finally
          (try_await
             (await! _ := setScreen (setIsSaving true) in
              let '(idToSave, clock) :=
                match given currentNoteId with
                | Some id => (id, 0%nat)
                | None => (NoteStorage.generateNoteId (now 0%nat), 1%nat)
                end in
              await! _ :=
                onFileSystem
                  (NoteStorage.saveNote (Note.mk idToSave (content s) (now clock))
                     encryptionKey rnd) in
              resolve tt)
             (fun e =>
                Alert_alert "Save Error"
                  "Failed to auto-save note. Please check your password and try again."))
          (setScreen (setIsSaving false))
      else resolve tt
  | _, _ => resolve tt
  end.

(** The handler of the button [Delete] of the dialog that [handleDelete]
    opens. *)
Definition handleDelete_onPress (isAuthenticated : bool) (encryptionKey : option WordArray)
    : Async (World State) unit :=
  await! s := getScreen in
  match isAuthenticated, encryptionKey, given (currentNoteId s) with
  | true, Some _, Some id =>
      finally
        (try_await
           (await! _ := setScreen (setLoading true) in
            await! _ := onFileSystem (NoteStorage.deleteNote id) in
            await! _ := Alert_alert "Deleted" "Note successfully deleted." in
            navigation_goBack)
           (fun e => Alert_alert "Error" "Failed to delete note. Please try again."))
        (setScreen (setLoading false))
  | _, _, _ =>
      Alert_alert "Error" "Cannot delete note without proper authentication or note ID."
  end.

End Functions.

End NoteEditorScreen.

(** *** [src/screens/HomeScreen.tsx] *)

Module HomeScreen.

Import UI.

Record State : Type := mkState {
  notes : list JSONValue;
  loading : bool;
  refreshing : bool
}.

Definition setNotes (l : list JSONValue) (s : State) : State :=
  mkState l (loading s) (refreshing s).

Definition setLoading (b : bool) (s : State) : State :=
  mkState (notes s) b (refreshing s).

Definition setRefreshing (b : bool) (s : State) : State :=
  mkState (notes s) (loading s) b.

Section Functions.

Context {L : CryptoJS} {E : ExpoFileSystem} {J : JSON}.

Definition loadNotes (isAuthenticated : bool) : Async (World State) unit :=
  await! _ := setScreen (setLoading true) in
  await! _ := setScreen (setRefreshing true) in
  finally
    (try_await
       (if negb isAuthenticated
        then
          await! _ := setScreen (setNotes []) in
          navigation_replace Navigation.Login
        else
          await! loadedNotes := onFileSystem NoteStorage.getAllNoteMetadata in
          setScreen (setNotes loadedNotes))
       (fun e => Alert_alert "Error" "Failed to load notes. Please restart the app."))
    (await! _ := setScreen (setLoading false) in
     setScreen (setRefreshing false)).

End Functions.

End HomeScreen.


(** * A reference implementation of the libraries

    An executable implementation of [CryptoJS], [JSON] and
    [ExpoFileSystem]: AES (FIPS 197) in CBC mode with PKCS#7 padding, the
    ciphertext in Base64 and the initialisation vector in hexadecimal, as
    crypto-js computes them, and the JSON texts of ECMAScript.  The key
    derivation is a stand-in, a deterministic mixing function of the
    requested length; so is the subtraction of what is no integer, which
    counts as [NaN].  The program's properties are proved for every library
    that satisfies the laws; this one shows that the laws can be met and
    lets the program run on concrete inputs. *)

Module AES.

Definition Column : Type := ascii * ascii * ascii * ascii.
Definition Block : Type := Column * Column * Column * Column.

Definition xor_byte (a b : ascii) : ascii :=
  let 'Ascii a0 a1 a2 a3 a4 a5 a6 a7 := a in
  let 'Ascii b0 b1 b2 b3 b4 b5 b6 b7 := b in
  Ascii (xorb a0 b0) (xorb a1 b1) (xorb a2 b2) (xorb a3 b3)
        (xorb a4 b4) (xorb a5 b5) (xorb a6 b6) (xorb a7 b7).

Definition xor_column (x y : Column) : Column :=
  let '(x0, x1, x2, x3) := x in
  let '(y0, y1, y2, y3) := y in
  (xor_byte x0 y0, xor_byte x1 y1, xor_byte x2 y2, xor_byte x3 y3).

Definition xor_block (x y : Block) : Block :=
  let '(x0, x1, x2, x3) := x in
  let '(y0, y1, y2, y3) := y in
  (xor_column x0 y0, xor_column x1 y1, xor_column x2 y2, xor_column x3 y3).

Definition map_column (f : ascii -> ascii) (x : Column) : Column :=
  let '(x0, x1, x2, x3) := x in (f x0, f x1, f x2, f x3).

Definition map_block (f : Column -> Column) (x : Block) : Block :=
  let '(x0, x1, x2, x3) := x in (f x0, f x1, f x2, f x3).

(** Multiplication by [x] in GF(2^8) modulo [x^8 + x^4 + x^3 + x + 1]. *)
Definition xtime (a : ascii) : ascii :=
  let 'Ascii a0 a1 a2 a3 a4 a5 a6 a7 := a in
  Ascii a7 (xorb a0 a7) a1 (xorb a2 a7) (xorb a3 a7) a4 a5 a6.

Definition mul3 (a : ascii) : ascii := xor_byte (xtime a) a.
Definition mul9 (a : ascii) : ascii := xor_byte (xtime (xtime (xtime a))) a.
Definition mul11 (a : ascii) : ascii :=
  xor_byte (xtime (xtime (xtime a))) (xor_byte (xtime a) a).
Definition mul13 (a : ascii) : ascii :=
  xor_byte (xtime (xtime (xtime a))) (xor_byte (xtime (xtime a)) a).
Definition mul14 (a : ascii) : ascii :=
  xor_byte (xtime (xtime (xtime a))) (xor_byte (xtime (xtime a)) (xtime a)).

Definition sbox_table : list N :=
  [99; 124; 119; 123; 242; 107; 111; 197;  48;   1; 103;  43; 254; 215; 171; 118;
   202; 130; 201; 125; 250;  89;  71; 240; 173; 212; 162; 175; 156; 164; 114; 192;
   183; 253; 147;  38;  54;  63; 247; 204;  52; 165; 229; 241; 113; 216;  49;  21;
     4; 199;  35; 195;  24; 150;   5; 154;   7;  18; 128; 226; 235;  39; 178; 117;
     9; 131;  44;  26;  27; 110;  90; 160;  82;  59; 214; 179;  41; 227;  47; 132;
    83; 209;   0; 237;  32; 252; 177;  91; 106; 203; 190;  57;  74;  76;  88; 207;
   208; 239; 170; 251;  67;  77;  51; 133;  69; 249;   2; 127;  80;  60; 159; 168;
    81; 163;  64; 143; 146; 157;  56; 245; 188; 182; 218;  33;  16; 255; 243; 210;
   205;  12;  19; 236;  95; 151;  68;  23; 196; 167; 126;  61; 100;  93;  25; 115;
    96; 129;  79; 220;  34;  42; 144; 136;  70; 238; 184;  20; 222;  94;  11; 219;
   224;  50;  58;  10;  73;   6;  36;  92; 194; 211; 172;  98; 145; 149; 228; 121;
   231; 200;  55; 109; 141; 213;  78; 169; 108;  86; 244; 234; 101; 122; 174;   8;
   186; 120;  37;  46;  28; 166; 180; 198; 232; 221; 116;  31;  75; 189; 139; 138;
   112;  62; 181; 102;  72;   3; 246;  14;  97;  53;  87; 185; 134; 193;  29; 158;
   225; 248; 152;  17; 105; 217; 142; 148; 155;  30; 135; 233; 206;  85;  40; 223;
   140; 161; 137;  13; 191; 230;  66; 104;  65; 153;  45;  15; 176;  84; 187;  22]%N.

Definition inv_sbox_table : list N :=
  [82;   9; 106; 213;  48;  54; 165;  56; 191;  64; 163; 158; 129; 243; 215; 251;
   124; 227;  57; 130; 155;  47; 255; 135;  52; 142;  67;  68; 196; 222; 233; 203;
    84; 123; 148;  50; 166; 194;  35;  61; 238;  76; 149;  11;  66; 250; 195;  78;
     8;  46; 161; 102;  40; 217;  36; 178; 118;  91; 162;  73; 109; 139; 209;  37;
   114; 248; 246; 100; 134; 104; 152;  22; 212; 164;  92; 204;  93; 101; 182; 146;
   108; 112;  72;  80; 253; 237; 185; 218;  94;  21;  70;  87; 167; 141; 157; 132;
   144; 216; 171;   0; 140; 188; 211;  10; 247; 228;  88;   5; 184; 179;  69;   6;
   208;  44;  30; 143; 202;  63;  15;   2; 193; 175; 189;   3;   1;  19; 138; 107;
    58; 145;  17;  65;  79; 103; 220; 234; 151; 242; 207; 206; 240; 180; 230; 115;
   150; 172; 116;  34; 231; 173;  53; 133; 226; 249;  55; 232;  28; 117; 223; 110;
    71; 241;  26; 113;  29;  41; 197; 137; 111; 183;  98;  14; 170;  24; 190;  27;
   252;  86;  62;  75; 198; 210; 121;  32; 154; 219; 192; 254; 120; 205;  90; 244;
    31; 221; 168;  51; 136;   7; 199;  49; 177;  18;  16;  89;  39; 128; 236;  95;
    96;  81; 127; 169;  25; 181;  74;  13;  45; 229; 122; 159; 147; 201; 156; 239;
   160; 224;  59;  77; 174;  42; 245; 176; 200; 235; 187;  60; 131;  83; 153;  97;
    23;  43;   4; 126; 186; 119; 214;  38; 225; 105;  20;  99;  85;  33;  12; 125]%N.

Definition lookup (table : list N) (a : ascii) : ascii :=
  ascii_of_N (nth (N.to_nat (N_of_ascii a)) table 0%N).

Definition sbox : ascii -> ascii := lookup sbox_table.
Definition inv_sbox : ascii -> ascii := lookup inv_sbox_table.

Definition sub_bytes : Block -> Block := map_block (map_column sbox).
Definition inv_sub_bytes : Block -> Block := map_block (map_column inv_sbox).

(** The state is held by columns; row [r] moves [r] columns to the left. *)
Definition shift_rows (s : Block) : Block :=
  let '((a0, a1, a2, a3), (b0, b1, b2, b3), (c0, c1, c2, c3), (d0, d1, d2, d3)) := s in
  ((a0, b1, c2, d3), (b0, c1, d2, a3), (c0, d1, a2, b3), (d0, a1, b2, c3)).

Definition inv_shift_rows (s : Block) : Block :=
  let '((a0, a1, a2, a3), (b0, b1, b2, b3), (c0, c1, c2, c3), (d0, d1, d2, d3)) := s in
  ((a0, d1, c2, b3), (b0, a1, d2, c3), (c0, b1, a2, d3), (d0, c1, b2, a3)).

Definition mix_column (x : Column) : Column :=
  let '(a0, a1, a2, a3) := x in
  (xor_byte (xtime a0) (xor_byte (mul3 a1) (xor_byte a2 a3)),
   xor_byte a0 (xor_byte (xtime a1) (xor_byte (mul3 a2) a3)),
   xor_byte a0 (xor_byte a1 (xor_byte (xtime a2) (mul3 a3))),
   xor_byte (mul3 a0) (xor_byte a1 (xor_byte a2 (xtime a3)))).

Definition inv_mix_column (x : Column) : Column :=
  let '(a0, a1, a2, a3) := x in
  (xor_byte (mul14 a0) (xor_byte (mul11 a1) (xor_byte (mul13 a2) (mul9 a3))),
   xor_byte (mul9 a0) (xor_byte (mul14 a1) (xor_byte (mul11 a2) (mul13 a3))),
   xor_byte (mul13 a0) (xor_byte (mul9 a1) (xor_byte (mul14 a2) (mul11 a3))),
   xor_byte (mul11 a0) (xor_byte (mul13 a1) (xor_byte (mul9 a2) (mul14 a3)))).

Definition mix_columns : Block -> Block := map_block mix_column.
Definition inv_mix_columns : Block -> Block := map_block inv_mix_column.

(** *** Key expansion *)

Definition zero_column : Column := (zero, zero, zero, zero).

Definition rot_word (x : Column) : Column :=
  let '(x0, x1, x2, x3) := x in (x1, x2, x3, x0).

Definition rcon (j : nat) : Column :=
  (Nat.iter (j - 1) xtime (ascii_of_nat 1), zero, zero, zero).

(** Extends the [Nk] key words [ws], word [i] being the next one. *)
Fixpoint expand (fuel Nk i : nat) (ws : list Column) : list Column :=
  match fuel with
  | O => ws
  | S fuel' =>
      let temp := nth (i - 1) ws zero_column in
      let temp :=
        if (i mod Nk =? 0)%nat
        then xor_column (map_column sbox (rot_word temp)) (rcon (i / Nk))
        else if (6 <? Nk)%nat && (i mod Nk =? 4)%nat
             then map_column sbox temp
             else temp in
      expand fuel' Nk (S i) (ws ++ [xor_column (nth (i - Nk) ws zero_column) temp])
  end.

Fixpoint blocks_of_columns (ws : list Column) : list Block :=
  match ws with
  | w0 :: w1 :: w2 :: w3 :: rest => (w0, w1, w2, w3) :: blocks_of_columns rest
  | _ => []
  end.

(** The round keys of a key of [Nk] words: [Nk + 7] of them. *)
Definition round_keys (key : list Column) : list Block :=
  let Nk := length key in
  blocks_of_columns (expand (4 * (Nk + 7) - Nk) Nk Nk key).

(** *** The cipher *)

Inductive Step : Type :=
| AddRoundKey (rk : Block)
| SubBytes
| ShiftRows
| MixColumns.

Definition apply_step (s : Block) (step : Step) : Block :=
  match step with
  | AddRoundKey rk => xor_block s rk
  | SubBytes => sub_bytes s
  | ShiftRows => shift_rows s
  | MixColumns => mix_columns s
  end.

Definition undo_step (s : Block) (step : Step) : Block :=
  match step with
  | AddRoundKey rk => xor_block s rk
  | SubBytes => inv_sub_bytes s
  | ShiftRows => inv_shift_rows s
  | MixColumns => inv_mix_columns s
  end.

Fixpoint rounds (rks : list Block) : list Step :=
  match rks with
  | [] => []
  | [rk] => [SubBytes; ShiftRows; AddRoundKey rk]
  | rk :: rest => [SubBytes; ShiftRows; MixColumns; AddRoundKey rk] ++ rounds rest
  end.

Definition steps (rks : list Block) : list Step :=
  match rks with
  | [] => []
  | rk :: rest => AddRoundKey rk :: rounds rest
  end.

Definition encryptBlock (key : list Column) (s : Block) : Block :=
  fold_left apply_step (steps (round_keys key)) s.

Definition decryptBlock (key : list Column) (s : Block) : Block :=
  fold_left undo_step (rev (steps (round_keys key))) s.

(** *** The inputs of the examples of FIPS 197, appendix C *)

Definition column_of_nats (a b c d : nat) : Column :=
  (ascii_of_nat a, ascii_of_nat b, ascii_of_nat c, ascii_of_nat d).

Definition counting_key (Nk : nat) : list Column :=
  map (fun i => column_of_nats (4 * i) (4 * i + 1) (4 * i + 2) (4 * i + 3)) (seq 0 Nk).

Definition fips_plaintext : Block :=
  (column_of_nats 0 17 34 51, column_of_nats 68 85 102 119,
   column_of_nats 136 153 170 187, column_of_nats 204 221 238 255).

End AES.

Module Reference.

(** *** Bytes and words *)

Definition byte_of_Z (z : Z) : ascii := ascii_of_N (Z.to_N (z mod 256)).
Definition Z_of_byte (a : ascii) : Z := Z.of_N (N_of_ascii a).

(** Big-endian, as crypto-js packs bytes into words. *)
Definition word_of_bytes (a b c d : ascii) : Z :=
  ((Z_of_byte a * 256 + Z_of_byte b) * 256 + Z_of_byte c) * 256 + Z_of_byte d.

Definition bytes_of_word (x : Z) : list ascii :=
  [byte_of_Z (x / 2 ^ 24); byte_of_Z (x / 2 ^ 16); byte_of_Z (x / 2 ^ 8); byte_of_Z x].

Definition column_of_word (x : Z) : AES.Column :=
  (byte_of_Z (x / 2 ^ 24), byte_of_Z (x / 2 ^ 16), byte_of_Z (x / 2 ^ 8), byte_of_Z x).

Fixpoint words_of_bytes (l : list ascii) : list Z :=
  match l with
  | [] => []
  | [a] => [word_of_bytes a zero zero zero]
  | [a; b] => [word_of_bytes a b zero zero]
  | [a; b; c] => [word_of_bytes a b c zero]
  | a :: b :: c :: d :: rest => word_of_bytes a b c d :: words_of_bytes rest
  end.

(** The significant bytes of a word array. *)
Definition WordArray_bytes (w : WordArray) : list ascii :=
  take (Z.to_nat (sigBytes w)) (flat_map bytes_of_word (words w)).

Definition WordArray_of_bytes (l : list ascii) : WordArray :=
  mkWordArray (words_of_bytes l) (Z.of_nat (length l)).

(** *** Hexadecimal *)

Definition hex_digit (n : N) : ascii :=
  nth (N.to_nat n) (list_ascii_of_string "0123456789abcdef") "0"%char.

Definition hex_value (c : ascii) : N :=
  let n := N_of_ascii c in
  if ((48 <=? n) && (n <=? 57))%N then (n - 48)%N
  else if ((97 <=? n) && (n <=? 102))%N then (n - 87)%N
  else if ((65 <=? n) && (n <=? 70))%N then (n - 55)%N
  else 0%N.

Fixpoint hex_encode (l : list ascii) : string :=
  match l with
  | [] => ""
  | a :: l' =>
      String (hex_digit (N_of_ascii a / 16))
        (String (hex_digit (N_of_ascii a mod 16)) (hex_encode l'))
  end.

Definition is_hex (c : ascii) : bool :=
  let n := N_of_ascii c in
  ((48 <=? n) && (n <=? 57) || (97 <=? n) && (n <=? 102) || (65 <=? n) && (n <=? 70))%N.

(** [parseInt(pair, 16)] for a pair of characters, [NaN] counting as [0]
    as it does in a shift: the digits at the head of the pair are read. *)
Definition hex_pair (hi : ascii) (lo : option ascii) : N :=
  if is_hex hi then
    match lo with
    | Some lo => if is_hex lo then hex_value hi * 16 + hex_value lo else hex_value hi
    | None => hex_value hi
    end
  else 0%N.

Fixpoint hex_decode (s : string) : list ascii :=
  match s with
  | String hi (String lo rest) => ascii_of_N (hex_pair hi (Some lo)) :: hex_decode rest
  | String hi EmptyString => [ascii_of_N (hex_pair hi None)]
  | EmptyString => []
  end.

(** *** Base64 *)

Definition base64_alphabet : list ascii :=
  list_ascii_of_string "ABCDEFGHIJKLMNOPQRSTUVWXYZabcdefghijklmnopqrstuvwxyz0123456789+/".

Definition base64_char (v : Z) : ascii :=
  nth (Z.to_nat (v mod 64)) base64_alphabet "A"%char.

Definition base64_value (c : ascii) : Z :=
  let n := Z_of_byte c in
  if (65 <=? n) && (n <=? 90) then n - 65
  else if (97 <=? n) && (n <=? 122) then n - 71
  else if (48 <=? n) && (n <=? 57) then n + 4
  else if n =? 43 then 62
  else if n =? 47 then 63
  else 0.

Definition base64_group (a b c : ascii) : Z :=
  (Z_of_byte a * 256 + Z_of_byte b) * 256 + Z_of_byte c.

Fixpoint base64_encode (l : list ascii) : string :=
  match l with
  | [] => ""
  | [a] =>
      let n := base64_group a zero zero in
      String (base64_char (n / 2 ^ 18)) (String (base64_char (n / 2 ^ 12)) "==")
  | [a; b] =>
      let n := base64_group a b zero in
      String (base64_char (n / 2 ^ 18)) (String (base64_char (n / 2 ^ 12))
        (String (base64_char (n / 2 ^ 6)) "="))
  | a :: b :: c :: rest =>
      let n := base64_group a b c in
      String (base64_char (n / 2 ^ 18)) (String (base64_char (n / 2 ^ 12))
        (String (base64_char (n / 2 ^ 6)) (String (base64_char n) (base64_encode rest))))
  end.

(** The values of the characters in front of the first ['=']; a character
    outside the alphabet counts as [0]. *)
Fixpoint base64_values (s : string) : list Z :=
  match s with
  | EmptyString => []
  | String c rest =>
      if Ascii.eqb c "=" then [] else base64_value c :: base64_values rest
  end.

(** Every character but the first of a group of four completes a byte. *)
Fixpoint base64_bytes (values : list Z) : list ascii :=
  match values with
  | v1 :: v2 :: v3 :: v4 :: rest =>
      let n := ((v1 * 64 + v2) * 64 + v3) * 64 + v4 in
      byte_of_Z (n / 2 ^ 16) :: byte_of_Z (n / 2 ^ 8) :: byte_of_Z n :: base64_bytes rest
  | [v1; v2; v3] =>
      let n := ((v1 * 64 + v2) * 64 + v3) * 64 in
      [byte_of_Z (n / 2 ^ 16); byte_of_Z (n / 2 ^ 8)]
  | [v1; v2] =>
      let n := ((v1 * 64 + v2) * 64) * 64 in
      [byte_of_Z (n / 2 ^ 16)]
  | _ => []
  end.

Definition base64_decode (s : string) : list ascii :=
  base64_bytes (base64_values s).

(** *** PKCS#7 padding and the CBC mode *)

Definition pkcs7_pad (l : list ascii) : list ascii :=
  let n := (16 - length l mod 16)%nat in
  l ++ repeat (ascii_of_nat n) n.

Definition bytes_of_block (s : AES.Block) : list ascii :=
  let '((a0, a1, a2, a3), (b0, b1, b2, b3), (c0, c1, c2, c3), (d0, d1, d2, d3)) := s in
  [a0; a1; a2; a3; b0; b1; b2; b3; c0; c1; c2; c3; d0; d1; d2; d3].

(** Cuts bytes into blocks; an incomplete last block is dropped. *)
Fixpoint chunk (l : list ascii) : list AES.Block :=
  match l with
  | a0 :: a1 :: a2 :: a3 :: b0 :: b1 :: b2 :: b3 :: c0 :: c1 :: c2 :: c3
    :: d0 :: d1 :: d2 :: d3 :: rest =>
      ((a0, a1, a2, a3), (b0, b1, b2, b3), (c0, c1, c2, c3), (d0, d1, d2, d3))
      :: chunk rest
  | _ => []
  end.

Definition unchunk (blocks : list AES.Block) : list ascii :=
  flat_map bytes_of_block blocks.

Section Mode.

Variables encryptBlock decryptBlock : AES.Block -> AES.Block.

Fixpoint cbc_encrypt (prev : AES.Block) (plain : list AES.Block) : list AES.Block :=
  match plain with
  | [] => []
  | p :: plain' =>
      let c := encryptBlock (AES.xor_block p prev) in
      c :: cbc_encrypt c plain'
  end.

Fixpoint cbc_decrypt (prev : AES.Block) (cipher : list AES.Block) : list AES.Block :=
  match cipher with
  | [] => []
  | c :: cipher' => AES.xor_block (decryptBlock c) prev :: cbc_decrypt c cipher'
  end.

End Mode.

(** The key words, and the block that the mode takes from [cfg.iv]: its
    first four words, absent ones read as zero. *)
Definition key_columns (key : WordArray) : list AES.Column :=
  map column_of_word (words key).

Definition iv_block (iv : WordArray) : AES.Block :=
  (column_of_word (nth 0 (words iv) 0), column_of_word (nth 1 (words iv) 0),
   column_of_word (nth 2 (words iv) 0), column_of_word (nth 3 (words iv) 0)).

(** The data are encrypted as their bytes in UTF-8, which an unpaired
    surrogate does not have. *)
Definition aes_encrypt (data : string) (key : WordArray) (cfg : CipherCfg)
    : Result string :=
  if JSText.well_formed data then
    Ok (base64_encode
          (unchunk
             (cbc_encrypt (AES.encryptBlock (key_columns key)) (iv_block (iv cfg))
                (chunk (pkcs7_pad (list_ascii_of_string data))))))
  else Throw (Rejected "URIError").

(** The sixteen bytes at the head of a ciphertext that starts with the
    OpenSSL marker are left out.  The padding is removed the way crypto-js
    does it: the last byte is taken as the number of padding bytes,
    unchecked. *)
Definition aes_decrypt (ciphertext : string) (key : WordArray) (cfg : CipherCfg)
    : Result WordArray :=
  let parsed := base64_decode ciphertext in
  let cipher := if salted (words_of_bytes parsed) then skipn 16 parsed else parsed in
  let plain :=
    unchunk
      (cbc_decrypt (AES.decryptBlock (key_columns key)) (iv_block (iv cfg))
         (chunk cipher)) in
  let nPaddingBytes := Z_of_byte (List.last plain zero) in
  Ok (mkWordArray (words_of_bytes plain) (Z.of_nat (length plain) - nPaddingBytes)).

(** The bytes are decoded as UTF-8. *)
Definition utf8_stringify (w : WordArray) : Result string :=
  let text := string_of_list_ascii (WordArray_bytes w) in
  if JSText.well_formed text then Ok text
  else Throw (Error "Malformed UTF-8 data").

(** *** Key derivation stand-in *)

Definition mix (h b : Z) : Z := (h * 16777619 + b + 1) mod 2 ^ 32.

(** Mixes the password, the salt and the iteration count into [keySize]
    words; nothing is iterated. *)
Definition pbkdf2 (password : string) (salt : WordArray) (keySize iterations : Z)
    : Result WordArray :=
  if JSText.well_formed password then
    let material :=
      map Z_of_byte (list_ascii_of_string password) ++ map Z_of_byte (WordArray_bytes salt) in
    let word (i : nat) :=
      mix (fold_left mix material (Z.of_nat i)) (iterations + Z.of_nat i) in
    Ok (mkWordArray (map word (seq 1 (Z.to_nat keySize))) (4 * keySize))
  else Throw (Rejected "URIError").

Definition lib : CryptoJS :=
  Build_CryptoJS
    pbkdf2
    aes_encrypt
    aes_decrypt
    (fun w => hex_encode (WordArray_bytes w))
    (fun s => WordArray_of_bytes (hex_decode s))
    (fun w => base64_encode (WordArray_bytes w))
    (fun s => WordArray_of_bytes (base64_decode s))
    utf8_stringify.

(** *** JSON texts *)

Definition quote : ascii := "034"%char.
Definition backslash : ascii := "092"%char.

(** The characters of a string between its quotes: the quote, the
    backslash and the control characters are escaped, the latter as
    [\u00XX] when they have no short form; a lone surrogate is written as
    it is. *)
Fixpoint escape (s : string) : string :=
  match s with
  | EmptyString => ""
  | String c rest =>
      let escaped := escape rest in
      if Ascii.eqb c quote then String backslash (String quote escaped)
      else if Ascii.eqb c backslash then String backslash (String backslash escaped)
      else if Ascii.eqb c "008" then String backslash (String "b" escaped)
      else if Ascii.eqb c "012" then String backslash (String "f" escaped)
      else if Ascii.eqb c "010" then String backslash (String "n" escaped)
      else if Ascii.eqb c "013" then String backslash (String "r" escaped)
      else if Ascii.eqb c "009" then String backslash (String "t" escaped)
      else if JSText.between 0 31 c then
        String backslash (String "u" (String "0" (String "0"
          (String (hex_digit (N_of_ascii c / 16))
             (String (hex_digit (N_of_ascii c mod 16)) escaped)))))
      else String c escaped
  end.

Definition quoted (s : string) : string :=
  String quote (escape s +:+ String quote "").

Fixpoint json_stringify (value : JSONValue) : string :=
  match value with
  | JNull => "null"
  | JBool true => "true"
  | JBool false => "false"
  | JNumber (Integer z) => pretty z
  | JNumber (Fraction literal) => literal
  | JString s => quoted s
  | JArray items => "[" +:+ String.concat "," (map json_stringify items) +:+ "]"
  | JObject fields =>
      "{" +:+ String.concat ","
                (map (fun field => quoted (fst field) +:+ ":" +:+ json_stringify (snd field))
                     fields) +:+ "}"
  end.

(** The white space of JSON. *)
Definition is_space (c : ascii) : bool :=
  Ascii.eqb c " " || Ascii.eqb c "009" || Ascii.eqb c "010" || Ascii.eqb c "013".

Fixpoint skip_space (s : string) : string :=
  match s with
  | String c rest => if is_space c then skip_space rest else s
  | EmptyString => ""
  end.

Definition is_digit (c : ascii) : bool := JSText.between 48 57 c.

(** The digits at the head of [s], and what follows them. *)
Fixpoint digits (s : string) : string * string :=
  match s with
  | String c rest =>
      if is_digit c then let '(ds, rest') := digits rest in (String c ds, rest')
      else ("", s)
  | EmptyString => ("", "")
  end.

Fixpoint digits_value (acc : N) (ds : string) : N :=
  match ds with
  | String c rest => digits_value (acc * 10 + (N_of_ascii c - 48)) rest
  | EmptyString => acc
  end.


(** The number at the head of [s]: [-? int frac? exp?], the integer part
    without a leading zero. *)
Definition parse_number (s : string) : option (Number * string) :=
  let '(negative, s1) :=
    match s with
    | String c rest => if Ascii.eqb c "-" then (true, rest) else (false, s)
    | EmptyString => (false, s)
    end in
  let '(int, s2) := digits s1 in
  let n := digits_value 0 int in
  if negb (String.eqb (pretty n) int) then None
  else
    let '(fraction, s3) :=
      match s2 with
      | String c rest =>
          if Ascii.eqb c "." then
            let '(ds, rest') := digits rest in (Some ds, rest')
          else (None, s2)
      | EmptyString => (None, s2)
      end in
    let '(exponent, s4) :=
      match s3 with
      | String c rest =>
          if Ascii.eqb c "e" || Ascii.eqb c "E" then
            let '(sign, rest1) :=
              match rest with
              | String c' rest' =>
                  if Ascii.eqb c' "+" || Ascii.eqb c' "-" then (String c' "", rest')
                  else ("", rest)
              | EmptyString => ("", rest)
              end in
            let '(ds, rest2) := digits rest1 in
            (Some (String c (sign +:+ ds), ds), rest2)
          else (None, s3)
      | EmptyString => (None, s3)
      end in
    let sign := if negative then "-" else "" in
    match fraction, exponent with
    | None, None => Some (Integer (if negative then - Z.of_N n else Z.of_N n), s4)
    | Some "", _ => None
    | _, Some (_, "") => None
    | _, _ =>
        Some (Fraction
                (sign +:+ int
                 +:+ match fraction with Some ds => "." +:+ ds | None => "" end
                 +:+ match exponent with Some (e, _) => e | None => "" end), s4)
    end.

(** The code unit written with four hexadecimal digits. *)
Definition code_unit (h1 h2 h3 h4 : ascii) : option N :=
  if is_hex h1 && is_hex h2 && is_hex h3 && is_hex h4
  then Some (((hex_value h1 * 16 + hex_value h2) * 16 + hex_value h3) * 16 + hex_value h4)%N
  else None.

(** The bytes of a code point, a lone surrogate taking three bytes as any
    other code unit above U+07FF. *)
Definition utf8_bytes (n : N) : string :=
  (if n <? 128 then String (ascii_of_N n) ""
   else if n <? 2048 then
     String (ascii_of_N (192 + n / 64)) (String (ascii_of_N (128 + n mod 64)) "")
   else if n <? 65536 then
     String (ascii_of_N (224 + n / 4096))
       (String (ascii_of_N (128 + n / 64 mod 64)) (String (ascii_of_N (128 + n mod 64)) ""))
   else
     String (ascii_of_N (240 + n / 262144))
       (String (ascii_of_N (128 + n / 4096 mod 64))
          (String (ascii_of_N (128 + n / 64 mod 64))
             (String (ascii_of_N (128 + n mod 64)) ""))))%N.

(** The characters of a string after its opening quote, and what follows
    the closing quote. *)
Fixpoint parse_chars (s : string) : option (string * string) :=
  match s with
  | EmptyString => None
  | String c rest =>
      if Ascii.eqb c quote then Some ("", rest)
      else if Ascii.eqb c backslash then
        match rest with
        | String e rest1 =>
            let plain (c' : ascii) :=
              match parse_chars rest1 with
              | Some (text, rest') => Some (String c' text, rest')
              | None => None
              end in
            if Ascii.eqb e quote then plain quote
            else if Ascii.eqb e backslash then plain backslash
            else if Ascii.eqb e "/" then plain "/"%char
            else if Ascii.eqb e "b" then plain "008"%char
            else if Ascii.eqb e "f" then plain "012"%char
            else if Ascii.eqb e "n" then plain "010"%char
            else if Ascii.eqb e "r" then plain "013"%char
            else if Ascii.eqb e "t" then plain "009"%char
            else if Ascii.eqb e "u" then
              match rest1 with
              | String h1 (String h2 (String h3 (String h4 rest2))) =>
                  match code_unit h1 h2 h3 h4 with
                  | Some high =>
                      let single :=
                        match parse_chars rest2 with
                        | Some (text, rest') => Some (utf8_bytes high +:+ text, rest')
                        | None => None
                        end in
                      if ((55296 <=? high) && (high <=? 56319))%N then
                        match rest2 with
                        | String b (String u (String l1 (String l2 (String l3 (String l4 rest3))))) =>
                            match
                              (if Ascii.eqb b backslash && Ascii.eqb u "u"
                               then code_unit l1 l2 l3 l4 else None)
                            with
                            | Some low =>
                                if ((56320 <=? low) && (low <=? 57343))%N then
                                  match parse_chars rest3 with
                                  | Some (text, rest') =>
                                      Some (utf8_bytes (65536 + (high - 55296) * 1024
                                                        + (low - 56320)) +:+ text, rest')
                                  | None => None
                                  end
                                else single
                            | None => single
                            end
                        | _ => single
                        end
                      else single
                  | None => None
                  end
              | _ => None
              end
            else None
        | EmptyString => None
        end
      else if JSText.between 0 31 c then None
      else
        match parse_chars rest with
        | Some (text, rest') => Some (String c text, rest')
        | None => None
        end
  end.

(** What follows the word [w] at the head of [s]. *)
Fixpoint after_word (w s : string) : option string :=
  match w, s with
  | EmptyString, _ => Some s
  | String c w', String d s' => if Ascii.eqb c d then after_word w' s' else None
  | String _ _, EmptyString => None
  end.

(** A key that is an array index: such keys come first in an object, in
    ascending order. *)
Definition array_index (key : string) : option N :=
  let n := digits_value 0 key in
  if String.eqb (pretty n) key && (n <? 4294967295)%N then Some n else None.

(** Sets the property [key] of an object under construction: a key that
    is there keeps its place, a new index is put among the indices, and
    any other new key goes to the end. *)
Fixpoint set_field (key : string) (value : JSONValue) (fields : list (string * JSONValue))
    : list (string * JSONValue) :=
  match fields with
  | [] => [(key, value)]
  | (key', value') :: fields' =>
      if String.eqb key' key then (key, value) :: fields'
      else
        match array_index key, array_index key' with
        | Some n, Some n' =>
            if (n <? n')%N
            then (key, value) :: filter (fun field => fst field <> key) fields
            else (key', value') :: set_field key value fields'
        | Some _, None => (key, value) :: filter (fun field => fst field <> key) fields
        | None, _ => (key', value') :: set_field key value fields'
        end
  end.

(** The value at the head of [s], and what follows it; [fuel] bounds the
    number of nested calls. *)
Fixpoint parse_value (fuel : nat) (s : string) : option (JSONValue * string) :=
  match fuel with
  | O => None
  | S fuel' =>
      match skip_space s with
      | EmptyString => None
      | String c rest =>
          if Ascii.eqb c "[" then
            match skip_space rest with
            | String c' rest' =>
                if Ascii.eqb c' "]" then Some (JArray [], rest')
                else
                  match parse_elements fuel' rest with
                  | Some (items, rest'') => Some (JArray items, rest'')
                  | None => None
                  end
            | EmptyString => None
            end
          else if Ascii.eqb c "{" then
            match skip_space rest with
            | String c' rest' =>
                if Ascii.eqb c' "}" then Some (JObject [], rest')
                else
                  match parse_members fuel' [] rest with
                  | Some (fields, rest'') => Some (JObject fields, rest'')
                  | None => None
                  end
            | EmptyString => None
            end
          else if Ascii.eqb c quote then
            match parse_chars rest with
            | Some (text, rest') => Some (JString text, rest')
            | None => None
            end
          else if Ascii.eqb c "-" || is_digit c then
            match parse_number (String c rest) with
            | Some (n, rest') => Some (JNumber n, rest')
            | None => None
            end
          else
            match after_word "null" (String c rest), after_word "true" (String c rest),
                  after_word "false" (String c rest) with
            | Some rest', _, _ => Some (JNull, rest')
            | _, Some rest', _ => Some (JBool true, rest')
            | _, _, Some rest' => Some (JBool false, rest')
            | _, _, _ => None
            end
      end
  end

(** The elements of an array up to its closing bracket. *)
with parse_elements (fuel : nat) (s : string) : option (list JSONValue * string) :=
  match fuel with
  | O => None
  | S fuel' =>
      match parse_value fuel' s with
      | Some (item, rest) =>
          match skip_space rest with
          | String c rest' =>
              if Ascii.eqb c "," then
                match parse_elements fuel' rest' with
                | Some (items, rest'') => Some (item :: items, rest'')
                | None => None
                end
              else if Ascii.eqb c "]" then Some ([item], rest')
              else None
          | EmptyString => None
          end
      | None => None
      end
  end

(** The members of an object up to its closing brace, added to [fields]. *)
with parse_members (fuel : nat) (fields : list (string * JSONValue)) (s : string)
    : option (list (string * JSONValue) * string) :=
  match fuel with
  | O => None
  | S fuel' =>
      match skip_space s with
      | String c rest =>
          if Ascii.eqb c quote then
            match parse_chars rest with
            | Some (key, rest1) =>
                match skip_space rest1 with
                | String c' rest2 =>
                    if Ascii.eqb c' ":" then
                      match parse_value fuel' rest2 with
                      | Some (value, rest3) =>
                          let fields' := set_field key value fields in
                          match skip_space rest3 with
                          | String c'' rest4 =>
                              if Ascii.eqb c'' "," then parse_members fuel' fields' rest4
                              else if Ascii.eqb c'' "}" then Some (fields', rest4)
                              else None
                          | EmptyString => None
                          end
                      | None => None
                      end
                    else None
                | EmptyString => None
                end
            | None => None
            end
          else None
      | EmptyString => None
      end
  end.

(** Every character of [s] is a digit. *)
Fixpoint all_digits (s : string) : bool :=
  match s with
  | EmptyString => true
  | String c rest => is_digit c && all_digits rest
  end.

(** The text of the entries between the brackets. *)
Definition elements (metadata : list StoredNoteMetadata.t) : string :=
  String.concat "," (map json_stringify (map StoredNoteMetadata.toJSON metadata)).

Definition json_parse (text : string) : Result JSONValue :=
  match parse_value (S (String.length text)) text with
  | Some (value, rest) =>
      match skip_space rest with
      | EmptyString => Ok value
      | String _ _ => Throw (Rejected "SyntaxError")
      end
  | None => Throw (Rejected "SyntaxError")
  end.

(** The number that a property counts as in a subtraction, for [null], the
    booleans and the integers. *)
Definition to_integer (property : option JSONValue) : option Z :=
  match property with
  | Some JNull => Some 0
  | Some (JBool b) => Some (if b then 1 else 0)
  | Some (JNumber (Integer z)) => Some z
  | _ => None
  end.

Definition number_minus (x y : option JSONValue) : Result Z :=
  match to_integer x, to_integer y with
  | Some x', Some y' => Ok (x' - y')
  | _, _ => Ok 0
  end.

Definition json : JSON := Build_JSON json_parse json_stringify number_minus.

Definition fileSystem : ExpoFileSystem := {|
  documentDirectory := "file:///data/user/0/ciphernote/files/"
|}.

End Reference.

(** * Inputs of the runs *)

Module Inputs.

Import Crypto NoteStorage.

#[local] Existing Instance Reference.lib.
#[local] Existing Instance Reference.json.
#[local] Existing Instance Reference.fileSystem.

(** The bytes [seed], [seed + 17], [seed + 34], ... *)
Definition nonce (seed : nat) : ExpoCrypto.RandomBytes :=
  fun i =>
    match Byte.of_nat ((17 * i + seed) mod 256) with
    | Some b => b
    | None => Byte.x00
    end.

Definition saltSource : RandomInts := fun i => Z.of_nat i * 123456789 + 42.

(** The key of a password under the salt drawn from [saltSource]. *)
Definition keyOf (password : string) : WordArray :=
  match PBKDF2 password (generateSalt saltSource) KEY_SIZE PBKDF2_ITERATIONS with
  | Ok key => key
  | Throw _ => WordArray_create []
  end.

Definition sessionKey : WordArray := keyOf "Secret1".

Definition message : string := "Meet me at the old bridge at noon.".

Definition messageBlob : string :=
  "000000030000001400000025000000360000004700000058000000690000007a0000008b0000009c000000ad000000be000000cf000000e0000000f100000002:p4ZnWPT1NGW5nRJWgB3/SpCYdRWBLCVdFWpzlV/mJXPUnOq3UnlflTfiXpUR4kjT".

(** A key given by its words, a second one, and the blob of ["Hello"]
    under the first one. *)
Definition countingKey : WordArray := WordArray_create [1; 2; 3; 4; 5; 6; 7; 8].

Definition otherKey : WordArray := WordArray_create [1184; 2; 3; 4; 5; 6; 7; 8].

Definition helloBlob : string :=
  "000000030000001400000025000000360000004700000058000000690000007a0000008b0000009c000000ad000000be000000cf000000e0000000f100000002:yd4pNGEEbHgEnlScvvE8Rw==".

(** A plaintext whose ciphertext under [countingKey] and [nonce 3] starts
    with the bytes of ['Salted__']. *)
Definition saltedPlaintext : string := "?/m31#@X-vEKyqwb".

Definition saltedBlob : string :=
  "000000030000001400000025000000360000004700000058000000690000007a0000008b0000009c000000ad000000be000000cf000000e0000000f100000002:U2FsdGVkX18AAAAAAdQiLAgiDByUagIrD+jKDvP81rw=".

(** The string that holds the unpaired surrogate U+D800 only. *)
Definition unpairedSurrogate : string := String "237" (String "160" (String "128" "")).

Definition emptyStore : SecureStore.Store := mkWorld ∅ [].

(** The secure store after [setMasterPassword "Secret1"]. *)
Definition storeAfterSet : SecureStore.Store :=
  snd (setMasterPassword "Secret1" saltSource (nonce 3) emptyStore).

(** The secure store after a [setMasterPassword] whose probe write
    failed. *)
Definition storeAfterFailedProbeWrite : SecureStore.Store :=
  snd (setMasterPassword "Secret1" saltSource (nonce 3) (mkWorld ∅ [false; true])).

Definition entry (id : string) (timestamp : Z) : StoredNoteMetadata.t :=
  StoredNoteMetadata.mk id timestamp.

(** The entries of the index of [disk], in the order of the file. *)
Definition diskEntries : list StoredNoteMetadata.t :=
  [entry "n1" 1000; entry "n3" 3000; entry "n2" 2000].

(** A note directory with three notes, listed in the order in which they
    were last saved. *)
Definition disk : FileSystem.FS :=
  mkWorld
    (FileSystem.mkDisk
       (<[METADATA_FILE :=
            JSON_stringify (entries diskEntries)]>
          (<[NOTES_DIR +:+ "n1.encrypted" := messageBlob]>
             (<[NOTES_DIR +:+ "n2.encrypted" := messageBlob]>
                (<[NOTES_DIR +:+ "n3.encrypted" := messageBlob]> ∅))))
       {[NOTES_DIR]})
    [].

(** The same directory with a metadata file that is no JSON. *)
Definition diskWithBrokenIndex : FileSystem.FS :=
  mkWorld
    (FileSystem.mkDisk
       (<[METADATA_FILE := "[{"]>
          (<[NOTES_DIR +:+ "n1.encrypted" := messageBlob]> ∅))
       {[NOTES_DIR]})
    [].

(** The same directory with a metadata file that holds the JSON text
    [null]. *)
Definition diskWithNullIndex : FileSystem.FS :=
  mkWorld
    (FileSystem.mkDisk
       (<[METADATA_FILE := "null"]>
          (<[NOTES_DIR +:+ "n1.encrypted" := messageBlob]> ∅))
       {[NOTES_DIR]})
    [].

(** The secure store after [setMasterPassword "Secret1"], with a script of
    faults for the calls to come. *)
Definition storeWithFaults (script : list bool) : SecureStore.Store :=
  mkWorld (data storeAfterSet) script.

(** The note directory with a script of faults for the calls to come. *)
Definition diskWithFaults (script : list bool) : FileSystem.FS :=
  mkWorld (data disk) script.

(** A device without notes. *)
Definition emptyDisk : FileSystem.FS := mkWorld (FileSystem.mkDisk ∅ ∅) [].

Definition hello : Note.t := Note.mk "n4" "Hello" 4000.

(** The clock of a run that starts at [start]. *)
Definition clock (start : Z) : nat -> Z := fun i => start + Z.of_nat i.

(** The login screen with its two fields filled in. *)
Definition loginScreen (password confirmPassword : string) (store : SecureStore.Store)
    : UI.World LoginScreen.State :=
  UI.mkWorld store disk (UI.mkKeyContext None false)
    (LoginScreen.mkState password confirmPassword (Some false) false None) [].

(** The editor of the note [id] holding [content]. *)
Definition editor (id : option string) (content : string) (fs : FileSystem.FS)
    : UI.World NoteEditorScreen.State :=
  UI.mkWorld storeAfterSet fs (UI.mkKeyContext (Some sessionKey) true)
    (NoteEditorScreen.mkState content false id false) [].

(** The home screen of a session. *)
Definition home : UI.World HomeScreen.State :=
  UI.mkWorld storeAfterSet disk (UI.mkKeyContext (Some sessionKey) true)
    (HomeScreen.mkState [] true false) [].

End Inputs.

(** * Properties of the control operators and of platform calls *)

Module PlatformSpec.

(** ** [await] and [try]/[catch] *)

Lemma await_Ok_inv {S A B} (c : Async S A) (k : A -> Async S B) (s s' : S) (b : B) :
  await c k s = (Ok b, s') ->
  exists a s1, c s = (Ok a, s1) /\ k a s1 = (Ok b, s').
Proof.
  unfold await. destruct (c s) as [[a|e] s1]; [eauto|discriminate].
Qed.

Lemma try_await_reject_Ok_inv {S A} (body : Async S A) (e' : exn) (s s' : S) (a : A) :
  try_await body (fun _ => reject e') s = (Ok a, s') -> body s = (Ok a, s').
Proof.
  unfold try_await, reject. destruct (body s) as [[a0|e] s1]; [congruence|discriminate].
Qed.

Lemma call_inv {D A} (source : string) (run : D -> Result A * D) (w w' : World D)
    (r : Result A) :
  call source run w = (r, w') ->
  faults w' = snd (next_fault (faults w)) /\
  ((r = Throw (Rejected source) /\ data w' = data w) \/ (r, data w') = run (data w)).
Proof.
  unfold call. destruct (next_fault (faults w)) as [[|] script]; cbn [snd].
  - intros H. injection H as <- <-. split; [reflexivity|left; split; reflexivity].
  - destruct (run (data w)) as [r0 d]. intros H. injection H as <- <-.
    split; [reflexivity|right; reflexivity].
Qed.

Lemma call_healthy {D A} (source : string) (run : D -> Result A * D) (w : World D) :
  faults w = [] ->
  call source run w = (fst (run (data w)), mkWorld (snd (run (data w))) []).
Proof.
  intros Hf. unfold call. rewrite Hf. simpl. destruct (run (data w)); reflexivity.
Qed.

Lemma call_fault {D A} (source : string) (run : D -> Result A * D) (w : World D)
    (script : list bool) :
  faults w = true :: script ->
  call source run w = (Throw (Rejected source), mkWorld (data w) script).
Proof. intros Hf. unfold call. rewrite Hf. reflexivity. Qed.

Lemma call_no_fault {D A} (source : string) (run : D -> Result A * D) (w : World D)
    (script : list bool) :
  faults w = false :: script ->
  call source run w = (fst (run (data w)), mkWorld (snd (run (data w))) script).
Proof.
  intros Hf. unfold call. rewrite Hf. simpl. destruct (run (data w)); reflexivity.
Qed.

Lemma World_eta {D} (w : World D) : mkWorld (data w) (faults w) = w.
Proof. destruct w; reflexivity. Qed.

End PlatformSpec.

(** * Properties of [src/utils/crypto.ts] *)

Module CryptoSpec.

Import Crypto PlatformSpec.

(** ** Strings *)

Lemma truthy_true (s : string) : truthy s = true <-> s <> "".
Proof.
  destruct s; simpl; split; intros H; try congruence; try discriminate.
Qed.

Lemma truthy_false (s : string) : truthy s = false <-> s = "".
Proof.
  destruct s; simpl; split; intros H; try congruence; try discriminate.
Qed.

Lemma split_free (sep : ascii) (s : string) :
  free_of sep s -> split sep s = [s].
Proof.
  induction s as [|c s IH]; simpl; [reflexivity|].
  intros [Hc Hs]. apply Ascii.eqb_neq in Hc. rewrite Hc, (IH Hs). reflexivity.
Qed.

Lemma split_app (sep : ascii) (a b : string) :
  free_of sep a -> split sep (a +:+ String sep b) = a :: split sep b.
Proof.
  induction a as [|c a IH]; simpl.
  - intros _. rewrite Ascii.eqb_refl. reflexivity.
  - intros [Hc Ha]. apply Ascii.eqb_neq in Hc. rewrite Hc, (IH Ha). reflexivity.
Qed.

Lemma append_nonempty_l (a b : string) : a <> "" -> a +:+ b <> "".
Proof. destruct a; simpl; intros H; [contradiction|discriminate]. Qed.

(** Two strings that agree up to and after their first separator have the
    same prefix. *)
Lemma append_sep_inj (sep : ascii) (a a' b b' : string) :
  free_of sep a -> free_of sep a' ->
  a +:+ String sep b = a' +:+ String sep b' -> a = a'.
Proof.
  intros Ha Ha' Heq.
  assert (Hs : split sep (a +:+ String sep b) = split sep (a' +:+ String sep b'))
    by (rewrite Heq; reflexivity).
  rewrite !split_app in Hs by assumption. congruence.
Qed.

(** ** Initialisation vectors and salts *)

Lemma Array_from_inj (bs bs' : list Byte.byte) :
  Array_from bs = Array_from bs' -> bs = bs'.
Proof.
  revert bs'. induction bs as [|b bs IH]; intros [|b' bs']; simpl; try discriminate.
  - reflexivity.
  - intros H. injection H as Hb Hbs. f_equal; [|apply IH; exact Hbs].
    apply N2Z.inj in Hb.
    assert (Hs : Some b = Some b') by (rewrite <- !Byte.of_to_N, Hb; reflexivity).
    congruence.
Qed.

Lemma WordArray_create_canonical (bs : list Byte.byte) :
  canonical (WordArray_create (Array_from bs)).
Proof.
  split; [reflexivity|]. simpl. unfold Array_from.
  apply List.Forall_forall. intros x Hx. apply in_map_iff in Hx as [b [<- _]].
  pose proof (Byte.to_N_bounded b). lia.
Qed.

Lemma generateSalt_canonical (rnd : RandomInts) :
  canonical (generateSalt rnd) /\ sigBytes (generateSalt rnd) = 16.
Proof.
  split; [split|]; try reflexivity.
  unfold generateSalt, WordArray_random. cbn [words].
  apply List.Forall_forall. intros x Hx. apply in_map_iff in Hx as [i [<- _]].
  apply Z.mod_pos_bound. lia.
Qed.

Lemma getRandomBytes_IV_SIZE (rnd : ExpoCrypto.RandomBytes) :
  length (ExpoCrypto.getRandomBytes rnd IV_SIZE) = 16%nat.
Proof. unfold ExpoCrypto.getRandomBytes. rewrite length_map, length_seq. reflexivity. Qed.

Section Facts.

Context {L : CryptoJS}.

Lemma drawn_iv_sigBytes (rnd : ExpoCrypto.RandomBytes) : sigBytes (drawn_iv rnd) = 64.
Proof.
  unfold drawn_iv, WordArray_create, Array_from. cbn [sigBytes].
  rewrite length_map, getRandomBytes_IV_SIZE. reflexivity.
Qed.

Lemma encryptData_empty (key : option WordArray) (rnd : ExpoCrypto.RandomBytes) :
  encryptData "" key rnd = Throw (Error "Encrypt data received invalid input.").
Proof. destruct key; reflexivity. Qed.

Lemma encryptData_nonempty (data : string) (k : WordArray) (rnd : ExpoCrypto.RandomBytes) :
  data <> "" ->
  encryptData data (Some k) rnd =
    let? encrypted := AES_encrypt data k (mkCfg (drawn_iv rnd) CBC Pkcs7) in
    Ok (Hex_stringify (drawn_iv rnd) +:+ ":" +:+ encrypted).
Proof.
  intros Hd. apply truthy_true in Hd. unfold encryptData. rewrite Hd. reflexivity.
Qed.

(** What a blob returned by [encryptData] is. *)
Lemma encryptData_Ok_inv (data : string) (key : option WordArray)
    (rnd : ExpoCrypto.RandomBytes) (blob : string) :
  encryptData data key rnd = Ok blob ->
  data <> "" /\
  exists k ciphertext,
    key = Some k /\
    AES_encrypt data k (mkCfg (drawn_iv rnd) CBC Pkcs7) = Ok ciphertext /\
    blob = Hex_stringify (drawn_iv rnd) +:+ ":" +:+ ciphertext.
Proof.
  intros Henc.
  destruct data as [|c data]; [rewrite encryptData_empty in Henc; discriminate|].
  split; [discriminate|]. destruct key as [k|]; [|discriminate].
  rewrite encryptData_nonempty in Henc by discriminate.
  destruct (AES_encrypt _ k _) as [ciphertext|e] eqn:Haes; [|discriminate].
  injection Henc as <-. exists k, ciphertext. repeat split; try reflexivity. exact Haes.
Qed.

Lemma decryptData_never_throws (encryptedText : string) (key : option WordArray) :
  exists r, decryptData encryptedText key = Ok r.
Proof.
  unfold decryptData.
  match goal with |- context [try_catch ?b _] => destruct b as [r|e] end; simpl; eauto.
Qed.

(** What a non-null result of [decryptData] is. *)
Lemma decryptData_Some (encryptedText : string) (key : option WordArray) (plaintext : string) :
  decryptData encryptedText key = Ok (Some plaintext) <->
  plaintext <> "" /\
  exists k ivString ciphertext rest decrypted,
    key = Some k /\
    split ":" encryptedText = ivString :: ciphertext :: rest /\
    ivString <> "" /\ ciphertext <> "" /\
    AES_decrypt ciphertext k (mkCfg (Hex_parse ivString) CBC Pkcs7) = Ok decrypted /\
    words decrypted <> [] /\ 0 < sigBytes decrypted /\
    Utf8_stringify decrypted = Ok plaintext.
Proof.
  split.
  - unfold decryptData. destruct key as [k|]; simpl; [|discriminate].
    destruct (truthy encryptedText); simpl; [|discriminate].
    destruct (split ":" encryptedText) as [|ivString [|ciphertext rest]] eqn:Hsplit;
      simpl; try discriminate.
    destruct (truthy ivString) eqn:Hiv; simpl; [|discriminate].
    destruct (truthy ciphertext) eqn:Hct; simpl; [|discriminate].
    destruct (AES_decrypt ciphertext k _) as [decrypted|e] eqn:Hdec; simpl; [|discriminate].
    destruct (length (words decrypted) =? 0)%nat eqn:Hlen; simpl; [discriminate|].
    destruct (sigBytes decrypted <=? 0) eqn:Hsig; simpl; [discriminate|].
    destruct (Utf8_stringify decrypted) as [text|e] eqn:Hutf; simpl; [|discriminate].
    destruct (truthy text) eqn:Htext; simpl; [|discriminate].
    intros H. injection H as <-.
    split; [apply truthy_true; exact Htext|].
    exists k, ivString, ciphertext, rest, decrypted.
    repeat split; try assumption; try reflexivity.
    + apply truthy_true; exact Hiv.
    + apply truthy_true; exact Hct.
    + apply Nat.eqb_neq in Hlen. destruct (words decrypted); simpl in *; congruence.
    + apply Z.leb_gt in Hsig. exact Hsig.
  - intros (Hp & k & ivString & ciphertext & rest & decrypted & -> & Hsplit & Hiv & Hct
            & Hdec & Hwords & Hsig & Hutf).
    unfold decryptData. simpl.
    assert (Htext : truthy encryptedText = true).
    { destruct encryptedText; [simpl in Hsplit; congruence|reflexivity]. }
    rewrite Htext, Hsplit. simpl.
    apply truthy_true in Hiv, Hct, Hp. rewrite Hiv, Hct. simpl. rewrite Hdec. simpl.
    assert (Hlen : (length (words decrypted) =? 0)%nat = false).
    { apply Nat.eqb_neq. destruct (words decrypted); simpl; congruence. }
    rewrite Hlen. apply Z.leb_gt in Hsig. rewrite Hsig. simpl.
    rewrite Hutf. simpl. rewrite Hp. reflexivity.
Qed.

Lemma decryptData_no_key (encryptedText : string) :
  decryptData encryptedText None = Ok None.
Proof. reflexivity. Qed.

Lemma decryptData_no_delimiter (encryptedText : string) (key : option WordArray) :
  free_of ":" encryptedText -> decryptData encryptedText key = Ok None.
Proof.
  intros Hfree. unfold decryptData. destruct key as [k|]; [|reflexivity].
  rewrite (split_free _ _ Hfree). simpl.
  destruct (truthy encryptedText); reflexivity.
Qed.

Lemma decryptData_empty_part (ivString rest : string) (key : option WordArray) :
  free_of ":" ivString ->
  ivString = "" \/ rest = "" \/ (exists rest', rest = String ":" rest') ->
  decryptData (ivString +:+ String ":" rest) key = Ok None.
Proof.
  intros Hfree Hempty. unfold decryptData. destruct key as [k|]; [|reflexivity].
  rewrite (split_app _ _ _ Hfree).
  destruct (truthy (ivString +:+ String ":" rest)); [|reflexivity].
  destruct Hempty as [-> | [-> | [rest' ->]]]; simpl.
  - destruct (split ":" rest); reflexivity.
  - destruct (truthy ivString); reflexivity.
  - destruct (truthy ivString); reflexivity.
Qed.

(** ** The master password *)

Lemma store_keys_distinct : SECURE_STORE_SALT_KEY <> TEST_DATA_KEY.
Proof. discriminate. Qed.

Lemma deriveKey_PBKDF2 (password : string) (salt : WordArray) :
  deriveKey password salt = PBKDF2 password salt KEY_SIZE PBKDF2_ITERATIONS.
Proof.
  unfold deriveKey, try_catch. destruct (PBKDF2 password salt _ _); reflexivity.
Qed.

Lemma getStoredSalt_healthy (st : SecureStore.Store) :
  faults st = [] ->
  getStoredSalt st =
    (Ok (match data st !! SECURE_STORE_SALT_KEY with
         | Some s => if truthy s then Some (Base64_parse s) else None
         | None => None
         end), st).
Proof.
  intros Hf. unfold getStoredSalt, try_await, await, SecureStore.getItemAsync.
  rewrite (call_healthy _ _ _ Hf). cbn [fst snd].
  rewrite <- Hf, World_eta.
  destruct (data st !! SECURE_STORE_SALT_KEY) as [s|]; [destruct (truthy s)|]; reflexivity.
Qed.

Lemma getStoredSalt_never_rejects (st : SecureStore.Store) :
  exists salt st', getStoredSalt st = (Ok salt, st').
Proof.
  unfold getStoredSalt, try_await, await, SecureStore.getItemAsync, call.
  destruct (next_fault (faults st)) as [[|] script]; cbn; [eauto|].
  destruct (data st !! SECURE_STORE_SALT_KEY) as [s|]; [destruct (truthy s)|]; cbn; eauto.
Qed.

Lemma hasMasterPassword_healthy (st : SecureStore.Store) :
  faults st = [] ->
  hasMasterPassword st =
    (Ok (match data st !! SECURE_STORE_SALT_KEY with
         | Some s => truthy s
         | None => false
         end), st).
Proof.
  intros Hf. unfold hasMasterPassword, await. rewrite (getStoredSalt_healthy _ Hf).
  destruct (data st !! SECURE_STORE_SALT_KEY) as [s|]; [destruct (truthy s)|]; reflexivity.
Qed.

Lemma setMasterPassword_empty (rndSalt : RandomInts) (rndIv : ExpoCrypto.RandomBytes)
    (st : SecureStore.Store) :
  setMasterPassword "" rndSalt rndIv st = (Throw (Error "Password cannot be empty."), st).
Proof. reflexivity. Qed.

Lemma setMasterPassword_salt_write_fault (password : string) (rndSalt : RandomInts)
    (rndIv : ExpoCrypto.RandomBytes) (st : SecureStore.Store) (script : list bool) :
  password <> "" ->
  faults st = true :: script ->
  setMasterPassword password rndSalt rndIv st =
    (Throw (Error "Failed to store critical encryption data."), mkWorld (data st) script).
Proof.
  intros Hp Hf. apply truthy_true in Hp.
  unfold setMasterPassword. rewrite Hp. cbn [negb].
  unfold await, storeSalt, try_await, SecureStore.setItemAsync.
  rewrite (call_fault _ _ _ _ Hf). reflexivity.
Qed.

(** [setMasterPassword] on a non-empty password, by the outcome of its two
    writes and of the two calls into the library. *)
Lemma setMasterPassword_nonempty (password : string) (rndSalt : RandomInts)
    (rndIv : ExpoCrypto.RandomBytes) (st : SecureStore.Store) :
  password <> "" ->
  let salt := generateSalt rndSalt in
  let withSalt := <[SECURE_STORE_SALT_KEY := Base64_stringify salt]> (data st) in
  setMasterPassword password rndSalt rndIv st =
    (let '(saltFault, script1) := next_fault (faults st) in
     if saltFault
     then (Throw (Error "Failed to store critical encryption data."),
           mkWorld (data st) script1)
     else
       match PBKDF2 password salt KEY_SIZE PBKDF2_ITERATIONS with
       | Throw e => (Throw e, mkWorld withSalt script1)
       | Ok key =>
           if sigBytes key =? 0
           then (Throw (Error "Failed to derive encryption key."), mkWorld withSalt script1)
           else
             match encryptData TEST_PLAIN_TEXT (Some key) rndIv with
             | Throw e =>
                 (Throw (Error "Failed to secure internal test data for password verification."),
                  mkWorld withSalt script1)
             | Ok probe =>
                 let '(probeFault, script2) := next_fault script1 in
                 if probeFault
                 then (Throw (Error "Failed to secure internal test data for password verification."),
                       mkWorld withSalt script2)
                 else (Ok key, mkWorld (<[TEST_DATA_KEY := probe]> withSalt) script2)
             end
       end).
Proof.
  intros Hp salt withSalt. apply truthy_true in Hp.
  unfold setMasterPassword. rewrite Hp. cbn [negb].
  unfold await at 1. unfold storeSalt, try_await, SecureStore.setItemAsync, call.
  destruct (next_fault (faults st)) as [[|] script1]; [reflexivity|].
  cbn [data faults]. unfold await at 1. unfold lift at 1. rewrite deriveKey_PBKDF2.
  fold salt. destruct (PBKDF2 password salt _ _) as [key|e]; [|reflexivity].
  destruct (sigBytes key =? 0); [reflexivity|].
  unfold await, try_await, lift.
  destruct (encryptData TEST_PLAIN_TEXT (Some key) rndIv) as [probe|e]; [|reflexivity].
  unfold SecureStore.setItemAsync, call. cbn [data faults].
  destruct (next_fault script1) as [[|] script2]; reflexivity.
Qed.

Lemma setMasterPassword_Ok_inv (password : string) (rndSalt : RandomInts)
    (rndIv : ExpoCrypto.RandomBytes) (st st' : SecureStore.Store) (key : WordArray) :
  setMasterPassword password rndSalt rndIv st = (Ok key, st') ->
  password <> "" /\
  PBKDF2 password (generateSalt rndSalt) KEY_SIZE PBKDF2_ITERATIONS = Ok key /\
  exists probe,
    encryptData TEST_PLAIN_TEXT (Some key) rndIv = Ok probe /\
    data st' =
      <[TEST_DATA_KEY := probe]>
        (<[SECURE_STORE_SALT_KEY := Base64_stringify (generateSalt rndSalt)]> (data st)).
Proof.
  intros Hset.
  destruct password as [|c password]; [rewrite setMasterPassword_empty in Hset; discriminate|].
  split; [discriminate|].
  rewrite setMasterPassword_nonempty in Hset by discriminate.
  destruct (next_fault (faults st)) as [[|] script1]; [discriminate|].
  destruct (PBKDF2 _ _ _ _) as [key'|e]; [|discriminate].
  destruct (sigBytes key' =? 0); [discriminate|].
  destruct (encryptData TEST_PLAIN_TEXT (Some key') rndIv) as [probe|e] eqn:Hprobe;
    [|discriminate].
  destruct (next_fault script1) as [[|] script2]; [discriminate|].
  injection Hset as <- <-. split; [reflexivity|]. exists probe. split; [exact Hprobe|reflexivity].
Qed.

Lemma verifyMasterPassword_empty (st : SecureStore.Store) :
  verifyMasterPassword "" st = (Ok None, st).
Proof. reflexivity. Qed.

(** [verifyMasterPassword] on a store that answers its reads. *)
Lemma verifyMasterPassword_healthy (password : string) (st : SecureStore.Store) :
  password <> "" -> faults st = [] ->
  verifyMasterPassword password st =
    (match data st !! SECURE_STORE_SALT_KEY with
     | Some s =>
         if truthy s then
           match PBKDF2 password (Base64_parse s) KEY_SIZE PBKDF2_ITERATIONS with
           | Ok derivedKey => Ok (verdict derivedKey (data st !! TEST_DATA_KEY))
           | Throw e => Throw e
           end
         else Ok None
     | None => Ok None
     end, st).
Proof.
  intros Hp Hf. apply truthy_true in Hp.
  unfold verifyMasterPassword. rewrite Hp. cbn [negb].
  unfold await at 1. rewrite (getStoredSalt_healthy _ Hf).
  destruct (data st !! SECURE_STORE_SALT_KEY) as [s|]; [|reflexivity].
  destruct (truthy s); [|reflexivity].
  unfold await at 1. unfold lift at 1. rewrite deriveKey_PBKDF2.
  destruct (PBKDF2 password (Base64_parse s) KEY_SIZE PBKDF2_ITERATIONS) as [derivedKey|e]; [|reflexivity].
  unfold await, lift, SecureStore.getItemAsync.
  rewrite (call_healthy _ _ _ Hf). cbn [fst snd]. rewrite <- Hf, World_eta.
  unfold verdict.
  destruct (data st !! TEST_DATA_KEY) as [stored|]; [|reflexivity].
  destruct (truthy stored) eqn:Hstored; cbn [negb].
  - destruct (decryptData_never_throws stored (Some derivedKey)) as [r Hr].
    rewrite Hr. destruct r as [text|]; [|reflexivity].
    unfold resolve. destruct (String.eqb text TEST_PLAIN_TEXT); reflexivity.
  - apply truthy_false in Hstored. subst stored. reflexivity.
Qed.

(** ** The claims about the cipher and the password verifier *)

(** C9.  Encrypting the empty plaintext throws the invalid-input error
    ['Encrypt data received invalid input.'] for every key and every drawn
    nonce: no blob is returned. *)
Theorem encryptData_empty_plaintext_throws
    (key : option WordArray) (rnd : ExpoCrypto.RandomBytes) :
  encryptData "" key rnd = Throw (Error "Encrypt data received invalid input.").
Proof. apply encryptData_empty. Qed.

(** C2 (amended).  [decryptData] never throws, and it returns a text
    exactly in one case: the key is there, the first two parts of the
    blob, split at [':'], are both there and not empty, the library
    decrypts the second part under the key and the nonce parsed from the
    first part to a word array with words and a positive number of
    significant bytes, and these bytes decode to a text that is not
    empty; the result is that text.  In every other case it returns
    [null].  Neither the length of the nonce nor the key is checked beyond
    that. *)
Theorem decryptData_null_or_library_plaintext
    (encryptedText : string) (key : option WordArray) :
  exists r,
    decryptData encryptedText key = Ok r /\
    forall plaintext,
      r = Some plaintext <->
      plaintext <> "" /\
      exists k ivString ciphertext rest decrypted,
        key = Some k /\
        split ":" encryptedText = ivString :: ciphertext :: rest /\
        ivString <> "" /\ ciphertext <> "" /\
        AES_decrypt ciphertext k (mkCfg (Hex_parse ivString) CBC Pkcs7) = Ok decrypted /\
        words decrypted <> [] /\ 0 < sigBytes decrypted /\
        Utf8_stringify decrypted = Ok plaintext.
Proof.
  destruct (decryptData_never_throws encryptedText key) as [r Hr].
  exists r. split; [exact Hr|]. intros plaintext.
  rewrite <- decryptData_Some, Hr. split; congruence.
Qed.

(** C6 (amended).  [deriveKey] validates nothing: for every password, the
    empty one included, and every salt of any length it is
    [CryptoJS.PBKDF2(password, salt)] with a key size of 8 words and 10000
    iterations, returning what it returns and throwing what it throws, so
    equal inputs give equal keys. *)
Theorem deriveKey_is_PBKDF2 (password : string) (salt : WordArray) :
  deriveKey password salt = PBKDF2 password salt 8 10000.
Proof. apply deriveKey_PBKDF2. Qed.

Context {HL : CryptoJSLaws L}.

Lemma decryptData_blob (data : string) (k : WordArray) (iv : WordArray) (ciphertext : string) :
  data <> "" -> canonical iv -> 0 < sigBytes iv ->
  AES_encrypt data k (mkCfg iv CBC Pkcs7) = Ok ciphertext ->
  OpenSSL_salted ciphertext = false ->
  decryptData (Hex_stringify iv +:+ ":" +:+ ciphertext) (Some k) = Ok (Some data).
Proof.
  intros Hd Hcan Hsig Haes Hsalted.
  pose proof (Hex_stringify_digits iv) as Hfree.
  pose proof (Hex_stringify_nonempty iv Hcan Hsig) as Hne.
  destruct (AES_encrypt_format data k (mkCfg iv CBC Pkcs7) ciphertext Haes) as [Hct Hctfree].
  destruct (AES_decrypt_encrypt data k (mkCfg iv CBC Pkcs7) ciphertext Haes Hsalted Hd)
    as (w & Hdec & Hwords & Hwsig & Hutf).
  apply decryptData_Some. split; [exact Hd|].
  exists k, (Hex_stringify iv), ciphertext, [], w.
  change (":" +:+ ciphertext) with (String ":" ciphertext).
  rewrite (split_app _ _ _ Hfree), (split_free _ _ Hctfree).
  rewrite (Hex_parse_stringify iv Hcan). repeat split; assumption.
Qed.

(** The blob of well-formed data that are not empty, and its decryption. *)
Lemma encrypt_then_decrypt (data : string) (k : WordArray) (rnd : ExpoCrypto.RandomBytes) :
  data <> "" -> JSText.well_formed data = true ->
  exists blob ciphertext,
    encryptData data (Some k) rnd = Ok blob /\
    AES_encrypt data k (mkCfg (drawn_iv rnd) CBC Pkcs7) = Ok ciphertext /\
    blob = Hex_stringify (drawn_iv rnd) +:+ ":" +:+ ciphertext /\
    blob <> "" /\
    (OpenSSL_salted ciphertext = false -> decryptData blob (Some k) = Ok (Some data)).
Proof.
  intros Hd Hwf.
  destruct (AES_encrypt_well_formed data k (mkCfg (drawn_iv rnd) CBC Pkcs7) Hwf)
    as [ciphertext Haes].
  exists (Hex_stringify (drawn_iv rnd) +:+ ":" +:+ ciphertext), ciphertext.
  split; [rewrite (encryptData_nonempty _ _ _ Hd), Haes; reflexivity|].
  split; [exact Haes|]. split; [reflexivity|]. split.
  - apply append_nonempty_l, Hex_stringify_nonempty;
      [apply WordArray_create_canonical|rewrite drawn_iv_sigBytes; lia].
  - intros Hsalted.
    apply (decryptData_blob data k (drawn_iv rnd) ciphertext); try assumption.
    + apply WordArray_create_canonical.
    + rewrite drawn_iv_sigBytes. lia.
Qed.

Lemma Hex_stringify_inj (w w' : WordArray) :
  canonical w -> canonical w' -> Hex_stringify w = Hex_stringify w' -> w = w'.
Proof.
  intros Hw Hw' Heq.
  rewrite <- (Hex_parse_stringify w Hw), <- (Hex_parse_stringify w' Hw'), Heq.
  reflexivity.
Qed.

Lemma distinct_nonces_distinct_blobs (data : string) (k : WordArray)
    (rnd1 rnd2 : ExpoCrypto.RandomBytes) (blob1 blob2 : string) :
  ExpoCrypto.getRandomBytes rnd1 IV_SIZE <> ExpoCrypto.getRandomBytes rnd2 IV_SIZE ->
  encryptData data (Some k) rnd1 = Ok blob1 ->
  encryptData data (Some k) rnd2 = Ok blob2 ->
  blob1 <> blob2.
Proof.
  intros Hrnd H1 H2 Heq. subst blob2.
  apply encryptData_Ok_inv in H1 as (_ & k1 & ct1 & _ & _ & H1).
  apply encryptData_Ok_inv in H2 as (_ & k2 & ct2 & _ & _ & H2).
  rewrite H1 in H2.
  apply (append_sep_inj ":") in H2; try apply Hex_stringify_digits.
  apply Hex_stringify_inj in H2; try apply WordArray_create_canonical.
  apply Hrnd. apply Array_from_inj. unfold drawn_iv, WordArray_create in H2. congruence.
Qed.

Lemma TEST_PLAIN_TEXT_well_formed : JSText.well_formed TEST_PLAIN_TEXT = true.
Proof. reflexivity. Qed.

(** The key that a well-formed password derives. *)
Lemma PBKDF2_key (password : string) (salt : WordArray) :
  JSText.well_formed password = true ->
  exists key, PBKDF2 password salt KEY_SIZE PBKDF2_ITERATIONS = Ok key /\
              (sigBytes key =? 0) = false.
Proof.
  intros Hwf.
  destruct (PBKDF2_well_formed password salt KEY_SIZE PBKDF2_ITERATIONS Hwf)
    as (key & Hkey & Hsig).
  exists key. split; [exact Hkey|]. apply Z.eqb_neq. rewrite Hsig. discriminate.
Qed.

Lemma setMasterPassword_probe_write_fault (password : string) (rndSalt : RandomInts)
    (rndIv : ExpoCrypto.RandomBytes) (st : SecureStore.Store) (script : list bool) :
  password <> "" -> JSText.well_formed password = true ->
  faults st = false :: true :: script ->
  setMasterPassword password rndSalt rndIv st =
    (Throw (Error "Failed to secure internal test data for password verification."),
     mkWorld (<[SECURE_STORE_SALT_KEY := Base64_stringify (generateSalt rndSalt)]> (data st))
             script).
Proof.
  intros Hp Hwf Hf. rewrite (setMasterPassword_nonempty _ _ _ _ Hp), Hf. cbn [next_fault].
  destruct (PBKDF2_key password (generateSalt rndSalt) Hwf) as (key & -> & ->).
  destruct (encrypt_then_decrypt TEST_PLAIN_TEXT key rndIv ltac:(discriminate)
              TEST_PLAIN_TEXT_well_formed) as (probe & _ & -> & _).
  reflexivity.
Qed.

(** [setMasterPassword] with a well-formed password on a store that takes
    both writes. *)
Lemma setMasterPassword_healthy (password : string) (rndSalt : RandomInts)
    (rndIv : ExpoCrypto.RandomBytes) (st : SecureStore.Store) (script1 script2 : list bool) :
  password <> "" -> JSText.well_formed password = true ->
  next_fault (faults st) = (false, script1) ->
  next_fault script1 = (false, script2) ->
  exists key probe,
    PBKDF2 password (generateSalt rndSalt) KEY_SIZE PBKDF2_ITERATIONS = Ok key /\
    encryptData TEST_PLAIN_TEXT (Some key) rndIv = Ok probe /\
    setMasterPassword password rndSalt rndIv st =
      (Ok key,
       mkWorld
         (<[TEST_DATA_KEY := probe]>
            (<[SECURE_STORE_SALT_KEY := Base64_stringify (generateSalt rndSalt)]> (data st)))
         script2).
Proof.
  intros Hp Hwf Hfault1 Hfault2.
  destruct (PBKDF2_key password (generateSalt rndSalt) Hwf) as (key & Hkey & Hsig).
  destruct (encrypt_then_decrypt TEST_PLAIN_TEXT key rndIv ltac:(discriminate)
              TEST_PLAIN_TEXT_well_formed) as (probe & _ & Hprobe & _).
  exists key, probe. split; [exact Hkey|]. split; [exact Hprobe|].
  rewrite (setMasterPassword_nonempty _ _ _ _ Hp), Hkey, Hsig, Hprobe, Hfault1, Hfault2.
  reflexivity.
Qed.

(** The probe of a key decrypts under it to the known plaintext, unless
    its ciphertext starts with the OpenSSL marker. *)
Lemma probe_decrypts (key : WordArray) (rndIv : ExpoCrypto.RandomBytes)
    (probe ciphertext : string) :
  encryptData TEST_PLAIN_TEXT (Some key) rndIv = Ok probe ->
  AES_encrypt TEST_PLAIN_TEXT key (mkCfg (drawn_iv rndIv) CBC Pkcs7) = Ok ciphertext ->
  OpenSSL_salted ciphertext = false ->
  probe <> "" /\ decryptData probe (Some key) = Ok (Some TEST_PLAIN_TEXT).
Proof.
  intros Hprobe Haes Hsalted.
  destruct (encrypt_then_decrypt TEST_PLAIN_TEXT key rndIv ltac:(discriminate)
              TEST_PLAIN_TEXT_well_formed) as (blob & ct & Henc & Hct & _ & Hne & Hdec).
  rewrite Hprobe in Henc. injection Henc as <-.
  rewrite Haes in Hct. injection Hct as <-.
  split; [exact Hne|]. apply Hdec, Hsalted.
Qed.

(** After a successful [setMasterPassword], [verifyMasterPassword] on the
    persisted salt and probe returns the same key. *)
Lemma verify_after_set (password : string) (rndSalt : RandomInts)
    (rndIv : ExpoCrypto.RandomBytes) (st st' later : SecureStore.Store) (key : WordArray)
    (ciphertext : string) :
  setMasterPassword password rndSalt rndIv st = (Ok key, st') ->
  AES_encrypt TEST_PLAIN_TEXT key (mkCfg (drawn_iv rndIv) CBC Pkcs7) = Ok ciphertext ->
  OpenSSL_salted ciphertext = false ->
  data later = data st' -> faults later = [] ->
  verifyMasterPassword password later = (Ok (Some key), later).
Proof.
  intros Hset Haes Hsalted Hdata Hf.
  destruct (setMasterPassword_Ok_inv _ _ _ _ _ _ Hset) as (Hp & Hkey & probe & Hprobe & Hst').
  rewrite (verifyMasterPassword_healthy _ _ Hp Hf), Hdata, Hst'.
  rewrite lookup_insert_ne by (symmetry; apply store_keys_distinct).
  rewrite !lookup_insert_eq.
  destruct (generateSalt_canonical rndSalt) as [Hcan Hsig].
  assert (Hsalt : truthy (Base64_stringify (generateSalt rndSalt)) = true).
  { apply truthy_true, Base64_stringify_nonempty; [exact Hcan|lia]. }
  destruct (probe_decrypts key rndIv probe ciphertext Hprobe Haes Hsalted) as [Hne Hdec].
  rewrite Hsalt, (Base64_parse_stringify _ Hcan), Hkey.
  unfold verdict. rewrite Hdec. reflexivity.
Qed.

(** A password whose derived key does not decrypt the probe to the known
    plaintext is answered with [null]. *)
Lemma verify_wrong_password (password : string) (st : SecureStore.Store) :
  faults st = [] ->
  (forall s, data st !! SECURE_STORE_SALT_KEY = Some s -> s <> "" ->
     exists key,
       PBKDF2 password (Base64_parse s) KEY_SIZE PBKDF2_ITERATIONS = Ok key /\
       forall stored,
         data st !! TEST_DATA_KEY = Some stored ->
         decryptData stored (Some key) <> Ok (Some TEST_PLAIN_TEXT)) ->
  verifyMasterPassword password st = (Ok None, st).
Proof.
  intros Hf Hwrong.
  destruct password as [|c password]; [reflexivity|].
  rewrite verifyMasterPassword_healthy by (discriminate || assumption).
  destruct (data st !! SECURE_STORE_SALT_KEY) as [s|] eqn:Hs; [|reflexivity].
  destruct (truthy s) eqn:Htruthy; [|reflexivity].
  destruct (Hwrong s eq_refl ltac:(apply truthy_true; exact Htruthy)) as (key & -> & Hkey).
  unfold verdict.
  destruct (data st !! TEST_DATA_KEY) as [stored|] eqn:Ht; [|reflexivity].
  specialize (Hkey stored eq_refl).
  destruct (decryptData stored _) as [[text|]|e]; try reflexivity.
  destruct (String.eqb_spec text TEST_PLAIN_TEXT) as [->|Hne]; [|reflexivity].
  exfalso. apply Hkey. reflexivity.
Qed.

(** With a salt and no probe, no password is answered with a key: a
    password that the library derives a key from is answered with [null],
    and what the derivation throws is thrown. *)
Lemma verify_without_probe (password : string) (st : SecureStore.Store) :
  faults st = [] -> data st !! TEST_DATA_KEY = None ->
  exists r, verifyMasterPassword password st = (r, st) /\
            (r = Ok None \/
             exists s e, data st !! SECURE_STORE_SALT_KEY = Some s /\
                         PBKDF2 password (Base64_parse s) KEY_SIZE PBKDF2_ITERATIONS = Throw e /\
                         r = Throw e).
Proof.
  intros Hf Hnone.
  destruct password as [|c password]; [eexists; split; [reflexivity|left; reflexivity]|].
  rewrite verifyMasterPassword_healthy by (discriminate || assumption).
  eexists. split; [reflexivity|].
  destruct (data st !! SECURE_STORE_SALT_KEY) as [s|] eqn:Hs; [|left; reflexivity].
  destruct (truthy s); [|left; reflexivity].
  destruct (PBKDF2 _ (Base64_parse s) _ _) as [key|e] eqn:Hkey.
  - left. rewrite Hnone. reflexivity.
  - right. exists s, e. repeat split; assumption.
Qed.

(** C1 (amended).  For every plaintext [P] that is not empty and has no
    unpaired surrogate, every key [K] and every drawn nonce, [encryptData]
    returns a blob, the nonce in hexadecimal before the ciphertext of the
    library; and unless that ciphertext starts with the OpenSSL marker
    ['Salted__'], [decryptData] of the blob under [K] returns exactly
    [P]. *)
Theorem decrypt_encrypt_roundtrip
    (data : string) (k : WordArray) (rnd : ExpoCrypto.RandomBytes) :
  data <> "" -> JSText.well_formed data = true ->
  exists blob ciphertext,
    encryptData data (Some k) rnd = Ok blob /\
    AES_encrypt data k (mkCfg (drawn_iv rnd) CBC Pkcs7) = Ok ciphertext /\
    blob = Hex_stringify (drawn_iv rnd) +:+ ":" +:+ ciphertext /\
    (OpenSSL_salted ciphertext = false -> decryptData blob (Some k) = Ok (Some data)).
Proof.
  intros Hd Hwf.
  destruct (encrypt_then_decrypt data k rnd Hd Hwf) as (blob & ct & Henc & Hct & Hblob & _ & Hdec).
  exists blob, ct. repeat split; assumption.
Qed.

(** C5 (amended).  For every plaintext [P] that is not empty and has no
    unpaired surrogate and every key [K], two [encryptData] calls that
    draw distinct nonces return different blobs, and each of the two
    decrypts under [K] to [P] unless its ciphertext starts with the
    OpenSSL marker ['Salted__']. *)
Theorem distinct_nonces_distinct_blobs_same_plaintext
    (data : string) (k : WordArray) (rnd1 rnd2 : ExpoCrypto.RandomBytes) :
  data <> "" -> JSText.well_formed data = true ->
  ExpoCrypto.getRandomBytes rnd1 IV_SIZE <> ExpoCrypto.getRandomBytes rnd2 IV_SIZE ->
  exists blob1 blob2 ciphertext1 ciphertext2,
    encryptData data (Some k) rnd1 = Ok blob1 /\
    encryptData data (Some k) rnd2 = Ok blob2 /\
    blob1 <> blob2 /\
    AES_encrypt data k (mkCfg (drawn_iv rnd1) CBC Pkcs7) = Ok ciphertext1 /\
    AES_encrypt data k (mkCfg (drawn_iv rnd2) CBC Pkcs7) = Ok ciphertext2 /\
    (OpenSSL_salted ciphertext1 = false -> decryptData blob1 (Some k) = Ok (Some data)) /\
    (OpenSSL_salted ciphertext2 = false -> decryptData blob2 (Some k) = Ok (Some data)).
Proof.
  intros Hd Hwf Hrnd.
  destruct (encrypt_then_decrypt data k rnd1 Hd Hwf) as (blob1 & ct1 & Henc1 & Hct1 & _ & _ & Hdec1).
  destruct (encrypt_then_decrypt data k rnd2 Hd Hwf) as (blob2 & ct2 & Henc2 & Hct2 & _ & _ & Hdec2).
  exists blob1, blob2, ct1, ct2. repeat split; try assumption.
  eapply distinct_nonces_distinct_blobs; eassumption.
Qed.

(** C3 (amended).  [setMasterPassword] is not atomic.  When the salt write
    fails it throws ['Failed to store critical encryption data.'] and the
    store is left as it was.  When the salt write succeeds and the probe
    write fails it throws ['Failed to secure internal test data for
    password verification.'] and the salt stays persisted: nothing is
    rolled back, and the probe slot is left as it was.  So it is when the
    salt write succeeds and the library throws on a password that it
    cannot encode: what the library throws is thrown, the salt stays
    persisted and the probe write is not attempted. *)
Theorem setMasterPassword_write_failure
    (password : string) (rndSalt : RandomInts) (rndIv : ExpoCrypto.RandomBytes)
    (st : SecureStore.Store) (script : list bool) :
  password <> "" ->
  (faults st = true :: script ->
   setMasterPassword password rndSalt rndIv st =
     (Throw (Error "Failed to store critical encryption data."),
      mkWorld (data st) script)) /\
  (JSText.well_formed password = true ->
   faults st = false :: true :: script ->
   setMasterPassword password rndSalt rndIv st =
     (Throw (Error "Failed to secure internal test data for password verification."),
      mkWorld (<[SECURE_STORE_SALT_KEY := Base64_stringify (generateSalt rndSalt)]> (data st))
              script)) /\
  (forall e,
     PBKDF2 password (generateSalt rndSalt) KEY_SIZE PBKDF2_ITERATIONS = Throw e ->
     faults st = false :: script ->
     setMasterPassword password rndSalt rndIv st =
       (Throw e,
        mkWorld (<[SECURE_STORE_SALT_KEY := Base64_stringify (generateSalt rndSalt)]> (data st))
                script)).
Proof.
  intros Hp. split; [|split].
  - intros Hf. apply setMasterPassword_salt_write_fault; assumption.
  - intros Hwf Hf. apply setMasterPassword_probe_write_fault; assumption.
  - intros e He Hf. rewrite (setMasterPassword_nonempty _ _ _ _ Hp), Hf, He. reflexivity.
Qed.


(** ** The two states of the password verifier *)

(** Without a persisted salt no password has been set. *)
Lemma hasMasterPassword_unset (st : SecureStore.Store) :
  faults st = [] -> data st !! SECURE_STORE_SALT_KEY = None ->
  hasMasterPassword st = (Ok false, st).
Proof.
  intros Hf Hnone. rewrite (hasMasterPassword_healthy _ Hf), Hnone. reflexivity.
Qed.

(** After a successful [setMasterPassword] a password has been set. *)
Lemma hasMasterPassword_after_set (password : string) (rndSalt : RandomInts)
    (rndIv : ExpoCrypto.RandomBytes) (st st' later : SecureStore.Store) (key : WordArray) :
  setMasterPassword password rndSalt rndIv st = (Ok key, st') ->
  data later = data st' -> faults later = [] ->
  hasMasterPassword later = (Ok true, later).
Proof.
  intros Hset Hdata Hf.
  destruct (setMasterPassword_Ok_inv _ _ _ _ _ _ Hset) as (_ & _ & probe & _ & Hst').
  rewrite (hasMasterPassword_healthy _ Hf), Hdata, Hst'.
  rewrite lookup_insert_ne by (symmetry; apply store_keys_distinct).
  rewrite lookup_insert_eq.
  destruct (generateSalt_canonical rndSalt) as [Hcan Hsig].
  assert (Hsalt : truthy (Base64_stringify (generateSalt rndSalt)) = true).
  { apply truthy_true, Base64_stringify_nonempty; [exact Hcan|lia]. }
  rewrite Hsalt. reflexivity.
Qed.

(** [clearMasterPassword] erases the salt and the probe, after which no
    password is set and every password is turned away. *)
Lemma clearMasterPassword_unsets (password : string) (st : SecureStore.Store) :
  faults st = [] ->
  exists st',
    clearMasterPassword st = (Ok tt, st') /\
    data st' = delete TEST_DATA_KEY (delete SECURE_STORE_SALT_KEY (data st)) /\
    hasMasterPassword st' = (Ok false, st') /\
    verifyMasterPassword password st' = (Ok None, st').
Proof.
  intros Hf. unfold clearMasterPassword, try_await, await, SecureStore.deleteItemAsync.
  rewrite (call_healthy _ _ _ Hf). cbn [fst snd].
  rewrite call_healthy by reflexivity. cbn [fst snd data].
  eexists. split; [reflexivity|]. split; [reflexivity|].
  assert (Hnone : delete TEST_DATA_KEY (delete SECURE_STORE_SALT_KEY (data st))
                    !! SECURE_STORE_SALT_KEY = None).
  { rewrite lookup_delete_ne by (apply not_eq_sym, store_keys_distinct).
    apply lookup_delete_eq. }
  split.
  - apply hasMasterPassword_unset; [reflexivity|exact Hnone].
  - apply verify_wrong_password; [reflexivity|]. intros s Hs. cbn [data] in Hs. congruence.
Qed.

End Facts.

End CryptoSpec.
(** * Further properties of [src/utils/crypto.ts] *)

Module CryptoProperties.

Import Crypto PlatformSpec CryptoSpec.

Section Facts.

Context {L : CryptoJS}.

(** ** The cipher *)

(** X1.  [decryptData] reads the first two [':']-separated parts of its
    input only: whatever follows a second [':'] is ignored, so a blob
    with such a tail decrypts like the blob without it. *)
Theorem decryptData_ignores_a_third_part
    (ivString ciphertext tail : string) (key : option WordArray) :
  free_of ":" ivString -> free_of ":" ciphertext ->
  decryptData (ivString +:+ ":" +:+ ciphertext +:+ ":" +:+ tail) key =
  decryptData (ivString +:+ ":" +:+ ciphertext) key.
Proof.
  intros Hiv Hct. unfold decryptData. destruct key as [k|]; [|reflexivity].
  repeat progress change (":" +:+ ?x) with (String ":" x).
  rewrite !(split_app _ _ _ Hiv), (split_app _ _ _ Hct), (split_free _ _ Hct).
  destruct ivString as [|c ivString]; [reflexivity|].
  reflexivity.
Qed.

(** ** The password verifier *)

(** [getStoredSalt] under any script of faults: a failed read is answered
    with [null]. *)
Lemma getStoredSalt_any (st : SecureStore.Store) :
  getStoredSalt st =
    (Ok (if fst (next_fault (faults st)) then None
         else match data st !! SECURE_STORE_SALT_KEY with
              | Some s => if truthy s then Some (Base64_parse s) else None
              | None => None
              end),
     mkWorld (data st) (snd (next_fault (faults st)))).
Proof.
  unfold getStoredSalt, try_await, await, SecureStore.getItemAsync, call.
  destruct (next_fault (faults st)) as [[|] script1]; cbn; [reflexivity|].
  destruct (data st !! SECURE_STORE_SALT_KEY) as [s|]; [destruct (truthy s)|]; reflexivity.
Qed.

(** [hasMasterPassword] under any script of faults. *)
Lemma hasMasterPassword_any (st : SecureStore.Store) :
  hasMasterPassword st =
    (Ok (if fst (next_fault (faults st)) then false
         else match data st !! SECURE_STORE_SALT_KEY with
              | Some s => truthy s
              | None => false
              end),
     mkWorld (data st) (snd (next_fault (faults st)))).
Proof.
  unfold hasMasterPassword, await. rewrite getStoredSalt_any. unfold resolve.
  destruct (fst (next_fault (faults st))); [reflexivity|].
  destruct (data st !! SECURE_STORE_SALT_KEY) as [s|]; [destruct (truthy s)|]; reflexivity.
Qed.

(** X2.  [hasMasterPassword] never rejects and never writes.  It answers
    [true] only when the salt slot holds a non-empty string; when the read
    of the secure store fails it answers [false], as if no password had
    been set. *)
Theorem hasMasterPassword_never_rejects (st : SecureStore.Store) :
  exists b st',
    hasMasterPassword st = (Ok b, st') /\
    data st' = data st /\
    (b = true -> exists s, data st !! SECURE_STORE_SALT_KEY = Some s /\ s <> "") /\
    (forall script, faults st = true :: script -> b = false) /\
    (forall s, fst (next_fault (faults st)) = false ->
       data st !! SECURE_STORE_SALT_KEY = Some s -> s <> "" -> b = true).
Proof.
  rewrite hasMasterPassword_any.
  eexists _, _. split; [reflexivity|]. split; [reflexivity|].
  destruct (next_fault (faults st)) as [[|] script1] eqn:Hnext; cbn [fst].
  - split; [discriminate|]. split; [reflexivity|]. discriminate.
  - destruct (data st !! SECURE_STORE_SALT_KEY) as [s|] eqn:Hs.
    + destruct (truthy s) eqn:Ht.
      * split; [intros _; exists s; split; [reflexivity|apply truthy_true; exact Ht]|].
        split; [|reflexivity].
        intros script Hf. rewrite Hf in Hnext. discriminate.
      * split; [discriminate|]. split; [reflexivity|].
        intros s' _ Hs' Hne. injection Hs' as <-.
        apply truthy_true in Hne. congruence.
    + split; [discriminate|]. split; [reflexivity|]. discriminate.
Qed.

(** [verifyMasterPassword] under any script of faults: the read of the
    salt is guarded, the derivation of the key and the read of the probe
    are not. *)
Lemma verifyMasterPassword_any (password : string) (st : SecureStore.Store) :
  password <> "" ->
  verifyMasterPassword password st =
    (let '(saltFault, script1) := next_fault (faults st) in
     match data st !! SECURE_STORE_SALT_KEY with
     | Some s =>
         if saltFault || negb (truthy s) then (Ok None, mkWorld (data st) script1)
         else
           match PBKDF2 password (Base64_parse s) KEY_SIZE PBKDF2_ITERATIONS with
           | Throw e => (Throw e, mkWorld (data st) script1)
           | Ok derivedKey =>
               let '(probeFault, script2) := next_fault script1 in
               if probeFault
               then (Throw (Rejected "expo-secure-store"), mkWorld (data st) script2)
               else (Ok (verdict derivedKey (data st !! TEST_DATA_KEY)),
                     mkWorld (data st) script2)
           end
     | None => (Ok None, mkWorld (data st) script1)
     end).
Proof.
  intros Hp. apply truthy_true in Hp.
  unfold verifyMasterPassword. rewrite Hp. cbn [negb].
  unfold await at 1. rewrite getStoredSalt_any.
  destruct (next_fault (faults st)) as [[|] script1]; cbn [fst snd orb].
  { destruct (data st !! SECURE_STORE_SALT_KEY); reflexivity. }
  destruct (data st !! SECURE_STORE_SALT_KEY) as [s|]; [|reflexivity].
  destruct (truthy s); cbn [negb]; [|reflexivity].
  unfold await at 1. unfold lift at 1. rewrite deriveKey_PBKDF2.
  destruct (PBKDF2 password (Base64_parse s) KEY_SIZE PBKDF2_ITERATIONS) as [derivedKey|e]; [|reflexivity].
  unfold await, lift, SecureStore.getItemAsync, call.
  cbn [faults data].
  destruct (next_fault script1) as [[|] script2]; [reflexivity|].
  unfold verdict.
  destruct (data st !! TEST_DATA_KEY) as [stored|]; [|reflexivity].
  destruct (truthy stored) eqn:Hstored; cbn [negb].
  - destruct (decryptData_never_throws stored (Some derivedKey)) as [r Hr].
    rewrite Hr. destruct r as [text|]; [|reflexivity].
    unfold resolve. destruct (String.eqb text TEST_PLAIN_TEXT); reflexivity.
  - apply truthy_false in Hstored. subst stored.
    rewrite (decryptData_no_delimiter "") by exact I. reflexivity.
Qed.

(** [verifyMasterPassword] only reads. *)
Lemma verifyMasterPassword_data
    (password : string) (st st' : SecureStore.Store) (r : Result (option WordArray)) :
  verifyMasterPassword password st = (r, st') -> data st' = data st.
Proof.
  destruct password as [|c password].
  { rewrite verifyMasterPassword_empty. intros H. injection H as _ <-. reflexivity. }
  rewrite verifyMasterPassword_any by discriminate.
  destruct (next_fault (faults st)) as [saltFault script1].
  destruct (data st !! SECURE_STORE_SALT_KEY) as [s|];
    [|intros H; injection H as _ <-; reflexivity].
  destruct (saltFault || negb (truthy s)); [intros H; injection H as _ <-; reflexivity|].
  destruct (PBKDF2 _ _ _ _); [|intros H; injection H as _ <-; reflexivity].
  destruct (next_fault script1) as [[|] script2]; intros H; injection H as _ <-; reflexivity.
Qed.

(** X3.  [verifyMasterPassword] never writes to the secure store, and it
    returns a key only when the password is not empty, the salt and the
    probe are stored, the key is the one derived from the password and the
    stored salt, and that key decrypts the stored probe to the known
    plaintext. *)
Theorem verifyMasterPassword_returns_only_a_verified_key
    (password : string) (st st' : SecureStore.Store) (r : Result (option WordArray)) :
  verifyMasterPassword password st = (r, st') ->
  data st' = data st /\
  (forall key, r = Ok (Some key) ->
     password <> "" /\
     exists s stored,
       data st !! SECURE_STORE_SALT_KEY = Some s /\ s <> "" /\
       data st !! TEST_DATA_KEY = Some stored /\
       PBKDF2 password (Base64_parse s) KEY_SIZE PBKDF2_ITERATIONS = Ok key /\
       decryptData stored (Some key) = Ok (Some TEST_PLAIN_TEXT)).
Proof.
  destruct password as [|c password].
  { rewrite verifyMasterPassword_empty. intros H. injection H as <- <-.
    split; [reflexivity|]. discriminate. }
  rewrite verifyMasterPassword_any by discriminate.
  destruct (next_fault (faults st)) as [saltFault script1].
  destruct (data st !! SECURE_STORE_SALT_KEY) as [s|] eqn:Hs.
  2: { intros H. injection H as <- <-. split; [reflexivity|]. discriminate. }
  destruct saltFault; cbn [orb].
  { intros H. injection H as <- <-. split; [reflexivity|]. discriminate. }
  destruct (truthy s) eqn:Hts; cbn [negb].
  2: { intros H. injection H as <- <-. split; [reflexivity|]. discriminate. }
  destruct (PBKDF2 _ (Base64_parse s) _ _) as [derivedKey|e] eqn:Hderived.
  2: { intros H. injection H as <- <-. split; [reflexivity|]. discriminate. }
  destruct (next_fault script1) as [[|] script2].
  { intros H. injection H as <- <-. split; [reflexivity|]. discriminate. }
  intros H. injection H as <- <-. split; [reflexivity|].
  intros key Hkey. split; [discriminate|].
  unfold verdict in Hkey.
  destruct (data st !! TEST_DATA_KEY) as [stored|] eqn:Hprobe; [|discriminate].
  destruct (decryptData stored _) as [[text|]|e] eqn:Hdec; try discriminate.
  destruct (String.eqb_spec text TEST_PLAIN_TEXT) as [->|Hne]; [|discriminate].
  injection Hkey as <-.
  exists s, stored. split; [reflexivity|]. split; [apply truthy_true; exact Hts|].
  split; [reflexivity|]. split; [exact Hderived|]. exact Hdec.
Qed.

(** X4.  The two reads of [verifyMasterPassword] fail differently.  When
    the read of the salt fails the answer is [null]; when the salt was
    read and the read of the probe fails, [verifyMasterPassword] rejects
    with the rejection of the secure store.  Between the two reads the key
    is derived: what the library throws there is thrown before the probe
    is read. *)
Theorem verifyMasterPassword_read_failures
    (password s : string) (st : SecureStore.Store) (script : list bool) :
  password <> "" ->
  data st !! SECURE_STORE_SALT_KEY = Some s -> s <> "" ->
  (faults st = true :: script ->
   verifyMasterPassword password st = (Ok None, mkWorld (data st) script)) /\
  (faults st = false :: true :: script ->
   verifyMasterPassword password st =
     match PBKDF2 password (Base64_parse s) KEY_SIZE PBKDF2_ITERATIONS with
     | Ok _ => (Throw (Rejected "expo-secure-store"), mkWorld (data st) script)
     | Throw e => (Throw e, mkWorld (data st) (true :: script))
     end).
Proof.
  intros Hp Hs Hne. apply truthy_true in Hne.
  split; intros Hf; rewrite (verifyMasterPassword_any _ _ Hp), Hf, Hs; cbn.
  - reflexivity.
  - rewrite Hne. cbn. destruct (PBKDF2 _ _ _ _); reflexivity.
Qed.

(** X5.  [clearMasterPassword] is not atomic.  When the first
    deletion fails it throws ['Failed to clear master password data.'] and
    the store is left as it was; when the second one fails it throws the
    same error with the salt erased and everything else, the probe
    included, left in place. *)
Theorem clearMasterPassword_delete_failure (st : SecureStore.Store) (script : list bool) :
  (faults st = true :: script ->
   clearMasterPassword st =
     (Throw (Error "Failed to clear master password data."), mkWorld (data st) script)) /\
  (faults st = false :: true :: script ->
   clearMasterPassword st =
     (Throw (Error "Failed to clear master password data."),
      mkWorld (delete SECURE_STORE_SALT_KEY (data st)) script)).
Proof.
  split; intros Hf;
    unfold clearMasterPassword, try_await, await, SecureStore.deleteItemAsync, call;
    rewrite Hf; reflexivity.
Qed.

(** X6.  On a store that answers its calls [clearMasterPassword] erases
    the salt and the probe and nothing else; afterwards
    [hasMasterPassword] answers [false] and [verifyMasterPassword] turns
    every password away. *)
Theorem clearMasterPassword_erases_the_password (st : SecureStore.Store) :
  faults st = [] ->
  exists st',
    clearMasterPassword st = (Ok tt, st') /\
    data st' !! SECURE_STORE_SALT_KEY = None /\
    data st' !! TEST_DATA_KEY = None /\
    (forall key, key <> SECURE_STORE_SALT_KEY -> key <> TEST_DATA_KEY ->
       data st' !! key = data st !! key) /\
    hasMasterPassword st' = (Ok false, st') /\
    (forall password, verifyMasterPassword password st' = (Ok None, st')).
Proof.
  intros Hf.
  destruct (clearMasterPassword_unsets "" st Hf) as (st' & Hclear & Hdata & Hhas & _).
  assert (Hf' : faults st' = []).
  { revert Hclear.
    unfold clearMasterPassword, try_await, await, SecureStore.deleteItemAsync.
    rewrite (call_healthy _ _ _ Hf). cbn [fst snd].
    rewrite call_healthy by reflexivity. cbn [fst snd].
    intros H. injection H as <-. reflexivity. }
  exists st'. split; [exact Hclear|]. rewrite Hdata.
  split; [rewrite lookup_delete_ne by (apply not_eq_sym, store_keys_distinct);
          apply lookup_delete_eq|].
  split; [apply lookup_delete_eq|].
  split; [intros key H1 H2; rewrite !lookup_delete_ne by congruence; reflexivity|].
  split; [exact Hhas|].
  intros password. apply verify_wrong_password; [exact Hf'|].
  intros s Hs. rewrite Hdata in Hs.
  rewrite lookup_delete_ne in Hs by (apply not_eq_sym, store_keys_distinct).
  rewrite lookup_delete_eq in Hs. discriminate.
Qed.

Context {HL : CryptoJSLaws L}.

(** The salt that [generateSalt] draws has a non-empty Base64 form. *)
Lemma generateSalt_Base64_truthy (rnd : RandomInts) :
  truthy (Base64_stringify (generateSalt rnd)) = true.
Proof.
  destruct (generateSalt_canonical rnd) as [Hcan Hsig].
  apply truthy_true, Base64_stringify_nonempty; [exact Hcan|lia].
Qed.

(** X7.  A blob that [encryptData] returns has exactly two parts around
    one [':'], both non-empty.  The first part is the hexadecimal form of
    the nonce, and the nonce is an array of sixteen words, one for each
    drawn byte, of 64 significant bytes.  Such a blob is returned for all
    data that are not empty and have no unpaired surrogate. *)
Theorem encryptData_blob_layout
    (data : string) (key : option WordArray) (rnd : ExpoCrypto.RandomBytes) :
  (forall blob,
     encryptData data key rnd = Ok blob ->
     exists ivString ciphertext,
       blob = ivString +:+ ":" +:+ ciphertext /\
       split ":" blob = [ivString; ciphertext] /\
       ivString <> "" /\ ciphertext <> "" /\
       Hex_parse ivString =
         WordArray_create (Array_from (ExpoCrypto.getRandomBytes rnd IV_SIZE)) /\
       length (words (Hex_parse ivString)) = 16%nat /\
       sigBytes (Hex_parse ivString) = 64 /\
       Forall (fun w => 0 <= w < 256) (words (Hex_parse ivString))) /\
  (data <> "" -> JSText.well_formed data = true -> key <> None ->
   exists blob, encryptData data key rnd = Ok blob).
Proof.
  split.
  - intros blob Henc.
    apply encryptData_Ok_inv in Henc as (Hd & k & ciphertext & -> & Haes & ->).
    exists (Hex_stringify (drawn_iv rnd)), ciphertext.
    destruct (AES_encrypt_format data k (mkCfg (drawn_iv rnd) CBC Pkcs7) ciphertext Haes)
      as [Hct Hfree].
    split; [reflexivity|].
    split.
    { change (":" +:+ ?x) with (String ":" x).
      rewrite split_app by apply Hex_stringify_digits.
      rewrite (split_free _ _ Hfree). reflexivity. }
    split.
    { apply Hex_stringify_nonempty;
        [apply WordArray_create_canonical|rewrite drawn_iv_sigBytes; lia]. }
    split; [exact Hct|].
    rewrite Hex_parse_stringify by apply WordArray_create_canonical.
    split; [reflexivity|].
    split; [unfold drawn_iv, WordArray_create, Array_from; cbn [words];
            rewrite length_map; apply getRandomBytes_IV_SIZE|].
    split; [apply drawn_iv_sigBytes|].
    unfold drawn_iv, WordArray_create, Array_from. cbn [words].
    apply List.Forall_forall. intros x Hx. apply in_map_iff in Hx as [b [<- _]].
    pose proof (Byte.to_N_bounded b). lia.
  - intros Hd Hwf Hkey. destruct key as [k|]; [|congruence].
    destruct (encrypt_then_decrypt data k rnd Hd Hwf) as (blob & _ & Henc & _).
    exists blob. exact Henc.
Qed.

(** X8.  The salt survives its way through the secure store: after
    [storeSalt] of a drawn salt, [getStoredSalt] returns that salt. *)
Theorem getStoredSalt_after_storeSalt (rnd : RandomInts) (st : SecureStore.Store) :
  faults st = [] ->
  exists st',
    storeSalt (generateSalt rnd) st = (Ok tt, st') /\
    getStoredSalt st' = (Ok (Some (generateSalt rnd)), st').
Proof.
  intros Hf. unfold storeSalt, try_await, SecureStore.setItemAsync.
  rewrite (call_healthy _ _ _ Hf). cbn [fst snd].
  eexists. split; [reflexivity|].
  rewrite getStoredSalt_healthy by reflexivity. cbn [data].
  rewrite lookup_insert_eq, generateSalt_Base64_truthy.
  rewrite Base64_parse_stringify by apply generateSalt_canonical.
  reflexivity.
Qed.

(** X9.  On a store that answers its calls [setMasterPassword] succeeds
    for every password that is not empty and has no unpaired surrogate,
    whatever the store held: it does not look for a password set earlier.
    It returns the key that the library derives from the password and the
    fresh salt, a key of 32 bytes, writes the salt and the probe, which is
    the blob of the known plaintext under that key, and leaves every other
    entry alone; afterwards [hasMasterPassword] answers [true]. *)
Theorem setMasterPassword_replaces_any_stored_password
    (password : string) (rndSalt : RandomInts) (rndIv : ExpoCrypto.RandomBytes)
    (st : SecureStore.Store) :
  password <> "" -> JSText.well_formed password = true -> faults st = [] ->
  exists key probe st',
    setMasterPassword password rndSalt rndIv st = (Ok key, st') /\
    PBKDF2 password (generateSalt rndSalt) KEY_SIZE PBKDF2_ITERATIONS = Ok key /\
    sigBytes key = 32 /\
    encryptData TEST_PLAIN_TEXT (Some key) rndIv = Ok probe /\
    data st' !! SECURE_STORE_SALT_KEY = Some (Base64_stringify (generateSalt rndSalt)) /\
    data st' !! TEST_DATA_KEY = Some probe /\
    (forall slot, slot <> SECURE_STORE_SALT_KEY -> slot <> TEST_DATA_KEY ->
       data st' !! slot = data st !! slot) /\
    hasMasterPassword st' = (Ok true, st').
Proof.
  intros Hp Hwf Hf.
  destruct (setMasterPassword_healthy password rndSalt rndIv st [] [] Hp Hwf)
    as (key & probe & Hkey & Hprobe & Hset); [rewrite Hf; reflexivity|reflexivity|].
  eexists key, probe, _. split; [exact Hset|]. split; [exact Hkey|].
  split.
  { destruct (PBKDF2_well_formed password (generateSalt rndSalt) KEY_SIZE PBKDF2_ITERATIONS Hwf)
      as (key' & Hkey' & Hsig). rewrite Hkey in Hkey'. injection Hkey' as <-.
    rewrite Hsig. reflexivity. }
  split; [exact Hprobe|].
  cbn [data].
  split; [rewrite lookup_insert_ne by (apply not_eq_sym, store_keys_distinct);
          apply lookup_insert_eq|].
  split; [apply lookup_insert_eq|].
  split; [intros slot H1 H2; rewrite !lookup_insert_ne by congruence; reflexivity|].
  rewrite hasMasterPassword_healthy by reflexivity. cbn [data].
  rewrite lookup_insert_ne by (apply not_eq_sym, store_keys_distinct).
  rewrite lookup_insert_eq, generateSalt_Base64_truthy. reflexivity.
Qed.

(** X10.  A [setMasterPassword] that fails after its salt write locks the
    user out.  With a store that takes the salt write and fails the next
    one, [setMasterPassword] throws for every password that is not empty
    and leaves the salt; when no probe was stored before,
    [hasMasterPassword] answers [true] afterwards and
    [verifyMasterPassword] returns a key for no password, the one just
    chosen included: it answers [null] for every password without
    unpaired surrogate, and for any other one it answers [null] or throws
    what the library throws on a password that it cannot encode. *)
Theorem failed_probe_write_locks_out
    (password : string) (rndSalt : RandomInts) (rndIv : ExpoCrypto.RandomBytes)
    (st : SecureStore.Store) :
  password <> "" -> faults st = [false; true] ->
  data st !! TEST_DATA_KEY = None ->
  exists e st',
    setMasterPassword password rndSalt rndIv st = (Throw e, st') /\
    (JSText.well_formed password = true ->
     e = Error "Failed to secure internal test data for password verification." /\
     faults st' = []) /\
    forall later, data later = data st' -> faults later = [] ->
      hasMasterPassword later = (Ok true, later) /\
      (forall password',
         exists r, verifyMasterPassword password' later = (r, later) /\
                   (r = Ok None \/ exists e', r = Throw e') /\
                   (JSText.well_formed password' = true -> r = Ok None)).
Proof.
  intros Hp Hf Hnone.
  assert (Hset : exists e st',
            setMasterPassword password rndSalt rndIv st = (Throw e, st') /\
            data st' =
              <[SECURE_STORE_SALT_KEY := Base64_stringify (generateSalt rndSalt)]> (data st)).
  { rewrite (setMasterPassword_nonempty _ _ _ _ Hp), Hf. cbn [next_fault].
    destruct (PBKDF2 _ _ _ _) as [key|e]; [|eexists _, _; split; reflexivity].
    destruct (sigBytes key =? 0); [eexists _, _; split; reflexivity|].
    destruct (encryptData _ _ _); eexists _, _; split; reflexivity. }
  destruct Hset as (e & st' & Hset & Hdata).
  exists e, st'. split; [exact Hset|]. split.
  { intros Hwf.
    rewrite (setMasterPassword_probe_write_fault _ _ _ _ [] Hp Hwf Hf) in Hset.
    injection Hset as <- <-. split; reflexivity. }
  intros later Hlater Hfl. split.
  - rewrite hasMasterPassword_healthy by exact Hfl. rewrite Hlater, Hdata.
    rewrite lookup_insert_eq, generateSalt_Base64_truthy. reflexivity.
  - intros password'.
    destruct (verify_without_probe password' later Hfl) as (r & Hr & Hcases).
    { rewrite Hlater, Hdata, lookup_insert_ne by apply store_keys_distinct. exact Hnone. }
    exists r. split; [exact Hr|].
    destruct Hcases as [->|(s & e' & _ & Hthrow & ->)].
    + split; [left; reflexivity|reflexivity].
    + split; [right; eauto|]. intros Hwf.
      destruct (PBKDF2_well_formed password' (Base64_parse s) KEY_SIZE PBKDF2_ITERATIONS Hwf)
        as (key & Hkey & _).
      congruence.
Qed.

End Facts.

End CryptoProperties.
(** * Properties of [src/utils/noteStorage.ts] *)

Module NoteStorageSpec.

Import NoteStorage PlatformSpec.

(** ** The listing order *)

Section Order.

Context {A : Type} (ts : A -> Z).

Lemma insertNewest_Permutation (x : A) (l : list A) :
  Permutation (x :: l) (insertNewest ts x l).
Proof.
  induction l as [|y l IH]; simpl; [reflexivity|].
  destruct (0 <? ts y - ts x); [|reflexivity].
  rewrite perm_swap. apply perm_skip. exact IH.
Qed.

Lemma newestFirst_Permutation (l : list A) : Permutation l (newestFirst ts l).
Proof.
  induction l as [|x l IH]; simpl; [reflexivity|].
  rewrite <- insertNewest_Permutation. apply perm_skip. exact IH.
Qed.

Lemma insertNewest_sorted (x : A) (l : list A) :
  StronglySorted (fun a b => ts b <= ts a) l ->
  StronglySorted (fun a b => ts b <= ts a) (insertNewest ts x l).
Proof.
  induction 1 as [|y l Hsorted IH Hall]; simpl.
  - repeat constructor.
  - destruct (Z.ltb_spec 0 (ts y - ts x)) as [Hlt|Hge].
    + constructor; [exact IH|].
      rewrite <- insertNewest_Permutation. constructor; [lia|exact Hall].
    + constructor; [constructor; assumption|].
      constructor; [lia|].
      eapply List.Forall_impl; [|exact Hall]. cbv beta. intros z Hz. lia.
Qed.

Lemma newestFirst_sorted (l : list A) :
  StronglySorted (fun a b => ts b <= ts a) (newestFirst ts l).
Proof.
  induction l as [|x l IH]; simpl; [constructor|].
  apply insertNewest_sorted. exact IH.
Qed.

(** For a sorted input the order is kept, so equal timestamps keep their
    order. *)
Lemma newestFirst_of_sorted (l : list A) :
  StronglySorted (fun a b => ts b <= ts a) l -> newestFirst ts l = l.
Proof.
  unfold newestFirst.
  induction 1 as [|x l Hsorted IH Hall]; simpl; [reflexivity|].
  rewrite IH.
  destruct l as [|y l]; simpl; [reflexivity|].
  apply List.Forall_inv in Hall.
  destruct (Z.ltb_spec 0 (ts y - ts x)); [lia|reflexivity].
Qed.

(** The sort of the engine with a comparator that subtracts the
    timestamps. *)
Lemma sort_insert_newest (cmp : A -> A -> Result Z) (x : A) (l : list A) :
  (forall y, In y l -> cmp x y = Ok (ts y - ts x)) ->
  sort_insert cmp x l = Ok (insertNewest ts x l).
Proof.
  induction l as [|y l IH]; intros Hcmp; simpl; [reflexivity|].
  rewrite (Hcmp y) by (left; reflexivity). simpl.
  destruct (0 <? ts y - ts x); [|reflexivity].
  rewrite IH by (intros z Hz; apply Hcmp; right; exact Hz). reflexivity.
Qed.

Lemma Array_sort_newest (cmp : A -> A -> Result Z) (l : list A) :
  (forall x y, In x l -> In y l -> cmp x y = Ok (ts y - ts x)) ->
  Array_sort cmp l = Ok (newestFirst ts l).
Proof.
  unfold Array_sort. induction l as [|x l IH]; intros Hcmp; simpl; [reflexivity|].
  rewrite IH by (intros a b Ha Hb; apply Hcmp; right; assumption). simpl.
  apply sort_insert_newest. intros y Hy. apply Hcmp; [left; reflexivity|right].
  eapply Permutation_in; [symmetry; apply newestFirst_Permutation|exact Hy].
Qed.

End Order.

Lemma insertNewest_map {A B} (f : A -> B) (tsA : A -> Z) (tsB : B -> Z) (x : A) (l : list A) :
  (forall a, tsB (f a) = tsA a) ->
  insertNewest tsB (f x) (map f l) = map f (insertNewest tsA x l).
Proof.
  intros Hts. induction l as [|y l IH]; simpl; [reflexivity|].
  rewrite !Hts. destruct (0 <? tsA y - tsA x); [|reflexivity].
  rewrite IH. reflexivity.
Qed.

Lemma newestFirst_map {A B} (f : A -> B) (tsA : A -> Z) (tsB : B -> Z) (l : list A) :
  (forall a, tsB (f a) = tsA a) ->
  newestFirst tsB (map f l) = map f (newestFirst tsA l).
Proof.
  intros Hts. induction l as [|x l IH]; simpl; [reflexivity|].
  rewrite IH. apply insertNewest_map. exact Hts.
Qed.

(** ** The entries as parsed values *)

Lemma toJSON_inj (m m' : StoredNoteMetadata.t) :
  StoredNoteMetadata.toJSON m = StoredNoteMetadata.toJSON m' -> m = m'.
Proof. destruct m, m'. unfold StoredNoteMetadata.toJSON. simpl. congruence. Qed.

Lemma entries_inj (l l' : list StoredNoteMetadata.t) : entries l = entries l' -> l = l'.
Proof.
  unfold entries. intros H. injection H as H. revert l' H.
  induction l as [|m l IH]; intros [|m' l'] H; try discriminate; [reflexivity|].
  pose proof (f_equal (hd JNull) H) as Hm. pose proof (f_equal (@tl _) H) as Hl.
  cbn [map hd tl] in Hm, Hl. apply toJSON_inj in Hm. f_equal; [exact Hm|apply IH; exact Hl].
Qed.

Lemma timestampOf_toJSON (m : StoredNoteMetadata.t) :
  timestampOf (StoredNoteMetadata.toJSON m) = StoredNoteMetadata.timestamp m.
Proof. reflexivity. Qed.

Lemma findIndex_entries (id : string) (l : list StoredNoteMetadata.t) :
  findIndex (fun m => let? id' := JSON_get m "id" in Ok (is_string id' id))
            (map StoredNoteMetadata.toJSON l)
  = Ok (indexOfId id l).
Proof.
  induction l as [|m l IH]; [reflexivity|].
  cbn [map findIndex indexOfId]. rewrite IH.
  change (JSON_get (StoredNoteMetadata.toJSON m) "id")
    with (Ok (A := option JSONValue) (Some (JString (StoredNoteMetadata.id m)))).
  cbn [JS.bind is_string].
  destruct (String.eqb (StoredNoteMetadata.id m) id); reflexivity.
Qed.

Lemma upsertItems_entries (note : Note.t) (l : list StoredNoteMetadata.t) :
  upsertItems note (entries l) = Ok (map StoredNoteMetadata.toJSON (upsert note l)).
Proof.
  unfold upsertItems, upsert, entries. cbn [Array_receiver JS.bind].
  rewrite findIndex_entries. cbn [JS.bind]. f_equal.
  destruct (indexOfId (Note.id note) l) as [i|].
  - symmetry. apply list_fmap_insert.
  - rewrite map_app. reflexivity.
Qed.

Lemma keptItems_entries (id : string) (l : list StoredNoteMetadata.t) :
  keptItems id (entries l) = Ok (map StoredNoteMetadata.toJSON (withoutId id l)).
Proof.
  unfold keptItems, withoutId, entries. cbn [Array_receiver JS.bind].
  induction l as [|m l IH]; [reflexivity|].
  cbn [map Array_filter]. rewrite IH.
  change (JSON_get (StoredNoteMetadata.toJSON m) "id")
    with (Ok (A := option JSONValue) (Some (JString (StoredNoteMetadata.id m)))).
  cbn [JS.bind is_string].
  destruct (String.eqb_spec (StoredNoteMetadata.id m) id) as [Heq|Hne]; cbn [negb].
  - rewrite filter_cons_False by (intros H; apply H; exact Heq). reflexivity.
  - rewrite filter_cons_True by exact Hne. reflexivity.
Qed.

Lemma keptItems_no_array (id : string) (metadata : JSONValue) :
  (forall items, metadata <> JArray items) ->
  keptItems id metadata = Throw (Rejected "TypeError").
Proof. intros Hno. destruct metadata; try reflexivity. exfalso. eapply Hno. reflexivity. Qed.

Lemma upsertItems_no_array (note : Note.t) (metadata : JSONValue) :
  (forall items, metadata <> JArray items) ->
  upsertItems note metadata = Throw (Rejected "TypeError").
Proof. intros Hno. destruct metadata; try reflexivity. exfalso. eapply Hno. reflexivity. Qed.

Section Facts.

Context {L : CryptoJS} {E : ExpoFileSystem} {J : JSON}.

(** ** Paths *)

Lemma blobPath_not_metadata (id : string) : blobPath id <> METADATA_FILE.
Proof.
  unfold blobPath, METADATA_FILE. intros H. apply String.app_inj in H.
  repeat (destruct id as [|? id]; cbn in H; [discriminate|];
          first [discriminate | injection H as _ H]).
Qed.

(** ** [ensureDirExists] *)

Lemma ensureDirExists_healthy (fs : FileSystem.FS) :
  faults fs = [] ->
  exists dirs,
    ensureDirExists fs = (Ok tt, mkWorld (FileSystem.mkDisk (FileSystem.files (data fs)) dirs) [])
    /\ dirs = {[NOTES_DIR]} ∪ FileSystem.directories (data fs).
Proof.
  intros Hf. unfold ensureDirExists, await, FileSystem.getInfoAsync.
  rewrite (call_healthy _ _ _ Hf). cbn [fst snd FileSystem.isDirectory].
  destruct (bool_decide (NOTES_DIR ∈ FileSystem.directories (data fs))) eqn:Hdir; cbn [negb].
  - exists (FileSystem.directories (data fs)). unfold resolve.
    split; [destruct fs as [[fl dirs] script]; cbn in Hf; rewrite Hf; reflexivity|].
    apply bool_decide_eq_true_1 in Hdir. apply set_eq. intros x.
    rewrite elem_of_union, elem_of_singleton. split; [auto|intros [->|H]; assumption].
  - unfold FileSystem.makeDirectoryAsync. rewrite call_healthy by reflexivity.
    eexists. split; reflexivity.
Qed.

Lemma ensureDirExists_files (fs fs' : FileSystem.FS) (r : Result unit) :
  ensureDirExists fs = (r, fs') ->
  FileSystem.files (data fs') = FileSystem.files (data fs).
Proof.
  unfold ensureDirExists, await, FileSystem.getInfoAsync, FileSystem.makeDirectoryAsync, call.
  destruct (next_fault (faults fs)) as [[|] script]; cbn.
  - intros H. injection H as <- <-. reflexivity.
  - destruct (bool_decide (NOTES_DIR ∈ FileSystem.directories (data fs))); cbn.
    + intros H. injection H as <- <-. reflexivity.
    + destruct (next_fault script) as [[|] script']; intros H; injection H as <- <-; reflexivity.
Qed.

(** ** Reading the metadata file *)

Lemma readMetadata_healthy (fs : FileSystem.FS) :
  faults fs = [] -> readMetadata fs = (Ok (indexValue (data fs)), fs).
Proof.
  intros Hf. unfold readMetadata, try_await, await, FileSystem.readAsStringAsync, indexValue.
  rewrite (call_healthy _ _ _ Hf).
  destruct (FileSystem.files (data fs) !! METADATA_FILE) as [raw|]; cbn [fst snd].
  - unfold lift. rewrite <- Hf, World_eta. destruct (JSON_parse raw); reflexivity.
  - unfold resolve. rewrite <- Hf, World_eta. reflexivity.
Qed.

Lemma readMetadata_inv (fs fs' : FileSystem.FS) (r : Result JSONValue) :
  readMetadata fs = (r, fs') ->
  data fs' = data fs /\ (r = Ok (JArray []) \/ r = Ok (indexValue (data fs))).
Proof.
  unfold readMetadata, try_await, await, FileSystem.readAsStringAsync, call, indexValue.
  destruct (next_fault (faults fs)) as [[|] script]; cbn.
  - intros H. injection H as <- <-. auto.
  - destruct (FileSystem.files (data fs) !! METADATA_FILE) as [raw|]; cbn.
    + destruct (JSON_parse raw); cbn; intros H; injection H as <- <-; auto.
    + intros H. injection H as <- <-. auto.
Qed.

(** The metadata file is left alone by what is done to other files. *)
Lemma indexValue_files (d d' : FileSystem.Disk) :
  FileSystem.files d' !! METADATA_FILE = FileSystem.files d !! METADATA_FILE ->
  indexValue d' = indexValue d.
Proof. unfold indexValue. intros ->. reflexivity. Qed.

(** ** [getAllNoteMetadata] *)

Lemma getAllNoteMetadata_healthy (fs : FileSystem.FS) :
  faults fs = [] ->
  exists fs',
    getAllNoteMetadata fs = (Ok (listed (data fs)), fs') /\
    FileSystem.files (data fs') = FileSystem.files (data fs) /\
    faults fs' = [].
Proof.
  intros Hf. destruct (ensureDirExists_healthy fs Hf) as (dirs & Hdir & Hdirs).
  unfold getAllNoteMetadata. unfold await at 1. rewrite Hdir.
  unfold try_await, await, FileSystem.readAsStringAsync, listed.
  rewrite call_healthy by reflexivity. cbn [data FileSystem.files fst snd].
  eexists. split; [|split].
  - destruct (FileSystem.files (data fs) !! METADATA_FILE) as [raw|]; cbn [fst snd].
    + unfold lift. destruct (JSON_parse raw) as [metadata|e]; cbn [JS.bind]; [|reflexivity].
      destruct (Array_receiver metadata) as [items|e]; cbn [JS.bind]; [|reflexivity].
      destruct (Array_sort byTimestampDesc items); reflexivity.
    + reflexivity.
  - reflexivity.
  - reflexivity.
Qed.

Lemma getAllNoteMetadata_inv (fs fs' : FileSystem.FS) (l : list JSONValue) :
  getAllNoteMetadata fs = (Ok l, fs') ->
  FileSystem.files (data fs') = FileSystem.files (data fs) /\
  (l = [] \/ l = listed (data fs)).
Proof.
  unfold getAllNoteMetadata. intros H.
  apply await_Ok_inv in H as (u & fs1 & Hdir & H).
  apply ensureDirExists_files in Hdir.
  unfold listed. rewrite <- Hdir.
  revert H. unfold try_await, await, FileSystem.readAsStringAsync, call, lift, resolve.
  destruct (next_fault (faults fs1)) as [[|] script]; cbn.
  - intros H. injection H as <- <-. auto.
  - destruct (FileSystem.files (data fs1) !! METADATA_FILE) as [raw|]; cbn.
    + destruct (JSON_parse raw) as [metadata|e]; cbn;
        [|intros H; injection H as <- <-; auto].
      destruct (Array_receiver metadata) as [items|e]; cbn;
        [|intros H; injection H as <- <-; auto].
      destruct (Array_sort byTimestampDesc items); cbn; intros H; injection H as <- <-; auto.
    + intros H. injection H as <- <-. auto.
Qed.

(** ** [loadNoteContent] *)

Lemma loadNoteContent_absent (id : string) (k : WordArray) (fs : FileSystem.FS) :
  blobAbsent id (data fs) ->
  exists fs', loadNoteContent id (Some k) fs = (Ok None, fs').
Proof.
  intros [Hfile Hdir]. unfold loadNoteContent, try_await, await, FileSystem.getInfoAsync, call.
  fold (blobPath id).
  destruct (next_fault (faults fs)) as [[|] script]; cbn; [eauto|].
  rewrite Hfile. rewrite (bool_decide_eq_false_2 _ Hdir).
  rewrite bool_decide_eq_false_2 by (intros [? ?]; discriminate).
  cbn. eauto.
Qed.

(** ** [deleteNote] *)

Lemma withoutId_idempotent (id : string) (metadata : list StoredNoteMetadata.t) :
  withoutId id (withoutId id metadata) = withoutId id metadata.
Proof.
  unfold withoutId. induction metadata as [|m metadata IH]; [reflexivity|].
  rewrite filter_cons. destruct (decide (StoredNoteMetadata.id m <> id)) as [Hm|Hm].
  - rewrite filter_cons_True by exact Hm. rewrite IH. reflexivity.
  - exact IH.
Qed.

(** [deleteNote] once the directory is there: the blob, then the
    metadata. *)
Lemma deleteNote_inv (id : string) (fs fs' : FileSystem.FS) :
  deleteNote id fs = (Ok tt, fs') ->
  blobAbsent id (data fs') /\
  exists metadata updated,
    (metadata = JArray [] \/ metadata = indexValue (data fs)) /\
    keptItems id metadata = Ok updated /\
    FileSystem.files (data fs') =
      <[METADATA_FILE := JSON_stringify (JArray updated)]>
        (delete (blobPath id) (FileSystem.files (data fs))).
Proof.
  unfold deleteNote. fold (blobPath id). fold readMetadata. intros H.
  apply await_Ok_inv in H as (u & fs1 & Hdir & H).
  apply ensureDirExists_files in Hdir.
  apply try_await_reject_Ok_inv in H.
  apply await_Ok_inv in H as (info & fs2 & Hinfo & H).
  apply await_Ok_inv in H as (u' & fs3 & Hdel & H).
  apply await_Ok_inv in H as (metadata & fs4 & Hread & H).
  apply await_Ok_inv in H as (items & fs5 & Hitems & H).
  apply await_Ok_inv in H as (updated & fs6 & Hupdated & Hwrite).
  unfold lift in Hitems, Hupdated.
  injection Hitems as Hitems <-. injection Hupdated as Hupdated <-.
  apply call_inv in Hinfo as [_ [[Hthrow _]|Hinfo]]; [discriminate|].
  injection Hinfo as -> Hfs2.
  apply readMetadata_inv in Hread as [Hfs4 Hmeta].
  apply call_inv in Hwrite as [_ [[Hthrow _]|Hwrite]]; [discriminate|].
  injection Hwrite as Hfs'. rewrite Hfs4 in Hfs'.
  assert (Hfs3 : blobAbsent id (data fs3) /\
                 FileSystem.files (data fs3) = delete (blobPath id) (FileSystem.files (data fs))).
  { cbn [FileSystem.exists_] in Hdel. rewrite <- Hdir.
    destruct (bool_decide (blobPath id ∈ FileSystem.directories (data fs1))
              || bool_decide (is_Some (FileSystem.files (data fs1) !! blobPath id))) eqn:Hex.
    - apply call_inv in Hdel as [_ [[Hthrow _]|Hdel]]; [discriminate|].
      rewrite Hfs2, Hex in Hdel. injection Hdel as _ Hfs3. rewrite Hfs3. cbn.
      split; [split|reflexivity].
      + apply lookup_delete_eq.
      + intros Hin. apply elem_of_difference in Hin as [_ Hn]. apply Hn, elem_of_singleton. reflexivity.
    - unfold resolve in Hdel. injection Hdel as _ <-. rewrite Hfs2.
      apply orb_false_elim in Hex as [Hd Hf].
      apply bool_decide_eq_false_1 in Hd. apply bool_decide_eq_false_1 in Hf.
      assert (Hnone : FileSystem.files (data fs1) !! blobPath id = None).
      { destruct (FileSystem.files (data fs1) !! blobPath id) eqn:Hl; [|reflexivity].
        exfalso. apply Hf. eauto. }
      split; [split; assumption|]. symmetry. apply delete_id. exact Hnone. }
  destruct Hfs3 as [[Habs1 Habs2] Hfiles].
  assert (Hidx : indexValue (data fs3) = indexValue (data fs)).
  { apply indexValue_files. rewrite Hfiles.
    apply lookup_delete_ne, blobPath_not_metadata. }
  split.
  - rewrite Hfs'. split; cbn.
    + rewrite lookup_insert_ne by (apply not_eq_sym, blobPath_not_metadata). exact Habs1.
    + exact Habs2.
  - exists metadata, updated. split; [|split].
    + destruct Hmeta as [Hm|Hm]; injection Hm as ->; [left; reflexivity|right; exact Hidx].
    + unfold keptItems. rewrite Hitems. exact Hupdated.
    + rewrite Hfs'. cbn. rewrite Hfiles. reflexivity.
Qed.

(** [deleteNote] on a file system that answers its calls: the blob goes,
    and the metadata file is rewritten unless the parsed metadata make
    [filter] throw. *)
Lemma deleteNote_healthy (id : string) (fs : FileSystem.FS) :
  faults fs = [] ->
  exists fs',
    deleteNote id fs =
      (match keptItems id (indexValue (data fs)) with
       | Ok _ => Ok tt
       | Throw _ => Throw (Error "Failed to delete note.")
       end, fs') /\
    faults fs' = [] /\ blobAbsent id (data fs') /\
    FileSystem.files (data fs') =
      match keptItems id (indexValue (data fs)) with
      | Ok updated =>
          <[METADATA_FILE := JSON_stringify (JArray updated)]>
            (delete (blobPath id) (FileSystem.files (data fs)))
      | Throw _ => delete (blobPath id) (FileSystem.files (data fs))
      end.
Proof.
  intros Hf. destruct (ensureDirExists_healthy fs Hf) as (dirs & Hdir & Hdirs).
  unfold deleteNote. fold (blobPath id). fold readMetadata.
  unfold await at 1. rewrite Hdir.
  unfold try_await, await at 1, FileSystem.getInfoAsync.
  rewrite call_healthy by reflexivity. cbn [fst snd data FileSystem.exists_].
  set (d := FileSystem.mkDisk (FileSystem.files (data fs)) dirs).
  assert (Hstep : exists dirs',
    (blobPath id ∉ dirs') /\
    (if bool_decide (blobPath id ∈ FileSystem.directories d)
        || bool_decide (is_Some (FileSystem.files d !! blobPath id))
     then FileSystem.deleteAsync (blobPath id) else resolve tt) (mkWorld d []) =
    (Ok tt, mkWorld (FileSystem.mkDisk (delete (blobPath id) (FileSystem.files (data fs))) dirs') [])).
  { destruct (bool_decide (blobPath id ∈ FileSystem.directories d)
              || bool_decide (is_Some (FileSystem.files d !! blobPath id))) eqn:Hex.
    - unfold FileSystem.deleteAsync. rewrite call_healthy by reflexivity.
      cbn [data]. rewrite Hex. cbn. eexists. split; [|reflexivity].
      intros Hin. apply elem_of_difference in Hin as [_ Hn].
      apply Hn, elem_of_singleton. reflexivity.
    - apply orb_false_elim in Hex as [Hdir' Hfile].
      apply bool_decide_eq_false_1 in Hdir'. apply bool_decide_eq_false_1 in Hfile.
      exists dirs. split; [exact Hdir'|].
      unfold resolve. cbn in Hfile. rewrite delete_id; [reflexivity|].
      destruct (FileSystem.files (data fs) !! blobPath id) eqn:Hl; [|reflexivity].
      exfalso. apply Hfile. eauto. }
  destruct Hstep as (dirs' & Hdirs' & Hstep). unfold await at 1. rewrite Hstep.
  unfold await at 1. rewrite readMetadata_healthy by reflexivity.
  cbn [data].
  assert (Hidx : indexValue (FileSystem.mkDisk (delete (blobPath id) (FileSystem.files (data fs))) dirs')
                 = indexValue (data fs)).
  { apply indexValue_files. cbn. apply lookup_delete_ne, blobPath_not_metadata. }
  rewrite Hidx. unfold keptItems.
  unfold await at 1. unfold lift at 1.
  destruct (Array_receiver (indexValue (data fs))) as [items|e]; cbn [JS.bind].
  2: { eexists. split; [reflexivity|]. split; [reflexivity|]. split; [|reflexivity].
       split; [apply lookup_delete_eq|exact Hdirs']. }
  unfold await at 1. unfold lift at 1.
  destruct (Array_filter _ items) as [updated|e].
  2: { eexists. split; [reflexivity|]. split; [reflexivity|]. split; [|reflexivity].
       split; [apply lookup_delete_eq|exact Hdirs']. }
  unfold FileSystem.writeAsStringAsync. rewrite call_healthy by reflexivity.
  cbn [fst snd data FileSystem.files FileSystem.directories].
  eexists. split; [reflexivity|]. split; [reflexivity|]. split; [|reflexivity].
  split; cbn; [|exact Hdirs'].
  rewrite lookup_insert_ne by (apply not_eq_sym, blobPath_not_metadata).
  apply lookup_delete_eq.
Qed.

(** ** [saveNote] *)

(** [saveNote] on a file system that answers its calls: the blob is
    written, and the metadata file is rewritten unless the parsed metadata
    make [findIndex] throw. *)
Lemma saveNote_healthy (note : Note.t) (k : WordArray) (rnd : ExpoCrypto.RandomBytes)
    (fs : FileSystem.FS) (blob : string) :
  faults fs = [] ->
  Crypto.encryptData (Note.content note) (Some k) rnd = Ok blob ->
  exists fs',
    saveNote note (Some k) rnd fs =
      (match upsertItems note (indexValue (data fs)) with
       | Ok _ => Ok note
       | Throw e => Throw e
       end, fs') /\
    faults fs' = [] /\
    FileSystem.directories (data fs') = {[NOTES_DIR]} ∪ FileSystem.directories (data fs) /\
    FileSystem.files (data fs') =
      match upsertItems note (indexValue (data fs)) with
      | Ok items =>
          <[METADATA_FILE := JSON_stringify (JArray items)]>
            (<[blobPath (Note.id note) := blob]> (FileSystem.files (data fs)))
      | Throw _ => <[blobPath (Note.id note) := blob]> (FileSystem.files (data fs))
      end.
Proof.
  intros Hf Henc. destruct (ensureDirExists_healthy fs Hf) as (dirs & Hdir & Hdirs).
  unfold saveNote. fold (blobPath (Note.id note)). fold readMetadata.
  unfold await at 1. rewrite Hdir.
  unfold await at 1. unfold lift at 1. rewrite Henc.
  unfold await at 1. unfold FileSystem.writeAsStringAsync at 1.
  rewrite call_healthy by reflexivity. cbn [fst snd data FileSystem.files FileSystem.directories].
  unfold await at 1. rewrite readMetadata_healthy by reflexivity.
  cbn [data].
  assert (Hidx : indexValue
                   (FileSystem.mkDisk
                      (<[blobPath (Note.id note) := blob]> (FileSystem.files (data fs))) dirs)
                 = indexValue (data fs)).
  { apply indexValue_files. cbn. apply lookup_insert_ne, blobPath_not_metadata. }
  rewrite Hidx. unfold upsertItems.
  unfold await at 1. unfold lift at 1.
  destruct (Array_receiver (indexValue (data fs))) as [items|e]; cbn [JS.bind].
  2: { eexists. split; [reflexivity|]. split; [reflexivity|]. split; [exact Hdirs|reflexivity]. }
  unfold await at 1. unfold lift at 1.
  destruct (findIndex _ items) as [existingIndex|e]; cbn [JS.bind].
  2: { eexists. split; [reflexivity|]. split; [reflexivity|]. split; [exact Hdirs|reflexivity]. }
  unfold await, FileSystem.writeAsStringAsync. rewrite call_healthy by reflexivity.
  cbn [fst snd data FileSystem.files FileSystem.directories].
  eexists. split; [reflexivity|]. split; [reflexivity|]. split; [exact Hdirs|reflexivity].
Qed.

(** ** The claims about the note repository *)

(** C10 (the code departs from it).  [deleteNote] does not always rewrite
    the metadata file.  When the file holds a JSON text that is no array,
    as [null] is, [JSON.parse] returns a value without [filter]; with a
    file system that answers its calls [deleteNote] then throws ['Failed
    to delete note.'] after it has removed the blob of the note, and the
    metadata file is left as it was. *)
Theorem deleteNote_fails_on_an_index_that_is_no_array
    (id rawMetadata : string) (metadata : JSONValue) (fs : FileSystem.FS) :
  faults fs = [] ->
  FileSystem.files (data fs) !! METADATA_FILE = Some rawMetadata ->
  JSON_parse rawMetadata = Ok metadata ->
  (forall items, metadata <> JArray items) ->
  exists fs',
    deleteNote id fs = (Throw (Error "Failed to delete note."), fs') /\
    FileSystem.files (data fs') !! METADATA_FILE = Some rawMetadata /\
    FileSystem.files (data fs') !! (NOTES_DIR +:+ id +:+ ".encrypted") = None /\
    (forall path,
       path <> NOTES_DIR +:+ id +:+ ".encrypted" ->
       FileSystem.files (data fs') !! path = FileSystem.files (data fs) !! path).
Proof.
  intros Hf Hraw Hparse Hno.
  destruct (deleteNote_healthy id fs Hf) as (fs' & Hdel & _ & _ & Hfiles).
  assert (Hidx : indexValue (data fs) = metadata).
  { unfold indexValue. rewrite Hraw, Hparse. reflexivity. }
  rewrite Hidx, (keptItems_no_array id metadata Hno) in Hdel, Hfiles.
  exists fs'. split; [exact Hdel|]. rewrite Hfiles. fold (blobPath id). split; [|split].
  - rewrite lookup_delete_ne by apply blobPath_not_metadata. exact Hraw.
  - apply lookup_delete_eq.
  - intros path Hpath. apply lookup_delete_ne. congruence.
Qed.

(** C8 (the code departs from it).  Deleting a note that has no blob does
    not always succeed silently.  When the metadata file holds a JSON
    text that is no array, as [null] is, [deleteNote] of an id without
    blob throws ['Failed to delete note.'] on a file system that answers
    its calls, and leaves every file as it was. *)
Theorem deleteNote_of_a_missing_note_fails_on_an_index_that_is_no_array
    (id rawMetadata : string) (metadata : JSONValue) (fs : FileSystem.FS) :
  faults fs = [] ->
  FileSystem.files (data fs) !! (NOTES_DIR +:+ id +:+ ".encrypted") = None ->
  FileSystem.files (data fs) !! METADATA_FILE = Some rawMetadata ->
  JSON_parse rawMetadata = Ok metadata ->
  (forall items, metadata <> JArray items) ->
  exists fs',
    deleteNote id fs = (Throw (Error "Failed to delete note."), fs') /\
    FileSystem.files (data fs') = FileSystem.files (data fs).
Proof.
  intros Hf Hblob Hraw Hparse Hno.
  destruct (deleteNote_healthy id fs Hf) as (fs' & Hdel & _ & _ & Hfiles).
  assert (Hidx : indexValue (data fs) = metadata).
  { unfold indexValue. rewrite Hraw, Hparse. reflexivity. }
  rewrite Hidx, (keptItems_no_array id metadata Hno) in Hdel, Hfiles.
  exists fs'. split; [exact Hdel|]. rewrite Hfiles. apply delete_id. exact Hblob.
Qed.

Context {HJ : JSONLaws J}.

(** ** The index that the application writes *)

Lemma indexHolds_written (d : FileSystem.Disk) (l : list StoredNoteMetadata.t) :
  FileSystem.files d !! METADATA_FILE = Some (JSON_stringify (entries l)) ->
  indexHolds d l.
Proof.
  intros Hfile. unfold indexHolds, indexValue. rewrite Hfile, JSON_parse_stringify.
  reflexivity.
Qed.

Lemma indexHolds_files (d d' : FileSystem.Disk) (l : list StoredNoteMetadata.t) :
  FileSystem.files d' !! METADATA_FILE = FileSystem.files d !! METADATA_FILE ->
  indexHolds d l -> indexHolds d' l.
Proof. unfold indexHolds. intros Hfiles <-. apply indexValue_files. exact Hfiles. Qed.

Lemma indexHolds_inj (d : FileSystem.Disk) (l l' : list StoredNoteMetadata.t) :
  indexHolds d l -> indexHolds d l' -> l = l'.
Proof. unfold indexHolds. intros H H'. apply entries_inj. congruence. Qed.

Lemma byTimestampDesc_integers (a b : JSONValue) :
  is_Some (integerTimestamp a) -> is_Some (integerTimestamp b) ->
  byTimestampDesc a b = Ok (timestampOf b - timestampOf a).
Proof.
  unfold timestampOf, integerTimestamp, byTimestampDesc.
  intros [ta Ha] [tb Hb].
  destruct (JSON_get a "timestamp") as [[va|]|]; try discriminate.
  destruct va as [| |[za|]| | |]; try discriminate.
  destruct (JSON_get b "timestamp") as [[vb|]|]; try discriminate.
  destruct vb as [| |[zb|]| | |]; try discriminate.
  cbn [JS.bind default]. apply Number_minus_integers.
Qed.

Lemma listed_integers (d : FileSystem.Disk) (rawMetadata : string) (items : list JSONValue) :
  FileSystem.files d !! METADATA_FILE = Some rawMetadata ->
  JSON_parse rawMetadata = Ok (JArray items) ->
  Forall (fun value => is_Some (integerTimestamp value)) items ->
  listed d = newestFirst timestampOf items.
Proof.
  intros Hraw Hparse Hall. unfold listed. rewrite Hraw, Hparse. cbn [JS.bind Array_receiver].
  rewrite (Array_sort_newest timestampOf); [reflexivity|].
  intros x y Hx Hy. rewrite List.Forall_forall in Hall.
  apply byTimestampDesc_integers; apply Hall; assumption.
Qed.

Lemma listed_entries (d : FileSystem.Disk) (l : list StoredNoteMetadata.t) :
  indexHolds d l ->
  listed d = map StoredNoteMetadata.toJSON (newestFirst StoredNoteMetadata.timestamp l).
Proof.
  unfold indexHolds, indexValue, listed.
  destruct (FileSystem.files d !! METADATA_FILE) as [raw|] eqn:Hraw.
  - destruct (JSON_parse raw) as [metadata|e] eqn:Hparse.
    + intros ->. cbn [JS.bind entries Array_receiver].
      rewrite (Array_sort_newest timestampOf).
      * apply newestFirst_map. exact timestampOf_toJSON.
      * intros x y Hx Hy. apply in_map_iff in Hx as (mx & <- & _).
        apply in_map_iff in Hy as (my & <- & _).
        apply byTimestampDesc_integers; eexists; reflexivity.
    + intros H. apply (entries_inj []) in H. subst l. reflexivity.
  - intros H. apply (entries_inj []) in H. subst l. reflexivity.
Qed.

(** [deleteNote] on an index that holds entries. *)
Lemma deleteNote_entries (id : string) (fs : FileSystem.FS) (l : list StoredNoteMetadata.t) :
  faults fs = [] -> indexHolds (data fs) l ->
  exists fs',
    deleteNote id fs = (Ok tt, fs') /\ faults fs' = [] /\
    blobAbsent id (data fs') /\
    FileSystem.files (data fs') =
      <[METADATA_FILE := JSON_stringify (entries (withoutId id l))]>
        (delete (blobPath id) (FileSystem.files (data fs))) /\
    indexHolds (data fs') (withoutId id l).
Proof.
  intros Hf Hidx. destruct (deleteNote_healthy id fs Hf) as (fs' & Hdel & Hf' & Habs & Hfiles).
  unfold indexHolds in Hidx. rewrite Hidx, keptItems_entries in Hdel, Hfiles.
  exists fs'. repeat split; try assumption; try apply Habs.
  apply indexHolds_written. rewrite Hfiles. apply lookup_insert_eq.
Qed.

(** [saveNote] on an index that holds entries. *)
Lemma saveNote_entries (note : Note.t) (k : WordArray) (rnd : ExpoCrypto.RandomBytes)
    (fs : FileSystem.FS) (blob : string) (l : list StoredNoteMetadata.t) :
  faults fs = [] ->
  Crypto.encryptData (Note.content note) (Some k) rnd = Ok blob ->
  indexHolds (data fs) l ->
  exists fs',
    saveNote note (Some k) rnd fs = (Ok note, fs') /\ faults fs' = [] /\
    FileSystem.files (data fs') =
      <[METADATA_FILE := JSON_stringify (entries (upsert note l))]>
        (<[blobPath (Note.id note) := blob]> (FileSystem.files (data fs))) /\
    indexHolds (data fs') (upsert note l).
Proof.
  intros Hf Henc Hidx.
  destruct (saveNote_healthy note k rnd fs blob Hf Henc) as (fs' & Hsave & Hf' & _ & Hfiles).
  unfold indexHolds in Hidx. rewrite Hidx, upsertItems_entries in Hsave, Hfiles.
  exists fs'. repeat split; try assumption.
  apply indexHolds_written. rewrite Hfiles. apply lookup_insert_eq.
Qed.

(** C7.  With a file system that answers its calls, [getAllNoteMetadata]
    takes no key, leaves every file as it is and returns the elements of
    the array in the metadata file sorted by timestamp, most recent first,
    the timestamps being integers, as they are in the entries that
    [saveNote] writes; when the metadata file is missing, does not parse
    or holds no array it returns the empty list instead of throwing. *)
Theorem getAllNoteMetadata_sorted_newest_first (fs : FileSystem.FS) :
  faults fs = [] ->
  exists l fs',
    getAllNoteMetadata fs = (Ok l, fs') /\
    FileSystem.files (data fs') = FileSystem.files (data fs) /\
    (forall rawMetadata items,
       FileSystem.files (data fs) !! METADATA_FILE = Some rawMetadata ->
       JSON_parse rawMetadata = Ok (JArray items) ->
       Forall (fun value => is_Some (integerTimestamp value)) items ->
       Permutation items l /\
       StronglySorted (fun a b => timestampOf b <= timestampOf a) l) /\
    (forall rawMetadata metadata,
       FileSystem.files (data fs) !! METADATA_FILE = Some rawMetadata ->
       JSON_parse rawMetadata = Ok (entries metadata) ->
       exists sorted,
         l = map StoredNoteMetadata.toJSON sorted /\
         Permutation metadata sorted /\
         StronglySorted
           (fun a b => StoredNoteMetadata.timestamp b <= StoredNoteMetadata.timestamp a)
           sorted) /\
    (FileSystem.files (data fs) !! METADATA_FILE = None -> l = []) /\
    (forall rawMetadata e,
       FileSystem.files (data fs) !! METADATA_FILE = Some rawMetadata ->
       JSON_parse rawMetadata = Throw e -> l = []) /\
    (forall rawMetadata metadata,
       FileSystem.files (data fs) !! METADATA_FILE = Some rawMetadata ->
       JSON_parse rawMetadata = Ok metadata ->
       (forall items, metadata <> JArray items) -> l = []).
Proof.
  intros Hf. destruct (getAllNoteMetadata_healthy fs Hf) as (fs' & Hget & Hfiles & _).
  exists (listed (data fs)), fs'.
  split; [exact Hget|]. split; [exact Hfiles|]. split; [|split; [|split; [|split]]].
  - intros raw items Hraw Hparse Hall.
    rewrite (listed_integers _ _ _ Hraw Hparse Hall).
    split; [apply newestFirst_Permutation|apply newestFirst_sorted].
  - intros raw metadata Hraw Hparse.
    exists (newestFirst StoredNoteMetadata.timestamp metadata).
    split; [|split; [apply newestFirst_Permutation|apply newestFirst_sorted]].
    apply listed_entries. unfold indexHolds, indexValue. rewrite Hraw, Hparse. reflexivity.
  - unfold listed. intros ->. reflexivity.
  - unfold listed. intros raw e -> ->. reflexivity.
  - unfold listed. intros raw metadata -> -> Hno.
    destruct metadata; try reflexivity. exfalso. eapply Hno. reflexivity.
Qed.

End Facts.

End NoteStorageSpec.
(** * Further properties of [src/utils/noteStorage.ts] *)

Module NoteStorageProperties.

Import NoteStorage PlatformSpec NoteStorageSpec.

(** ** Lists of metadata *)

Lemma upsert_cons (note : Note.t) (m : StoredNoteMetadata.t)
    (metadata : list StoredNoteMetadata.t) :
  upsert note (m :: metadata) =
    if String.eqb (StoredNoteMetadata.id m) (Note.id note)
    then StoredNoteMetadata.mk (Note.id note) (Note.timestamp note) :: metadata
    else m :: upsert note metadata.
Proof.
  unfold upsert. cbn [indexOfId].
  destruct (String.eqb (StoredNoteMetadata.id m) (Note.id note)); [reflexivity|].
  destruct (indexOfId _ metadata); reflexivity.
Qed.

Lemma upsert_In_new (note : Note.t) (metadata : list StoredNoteMetadata.t) :
  In (StoredNoteMetadata.mk (Note.id note) (Note.timestamp note)) (upsert note metadata).
Proof.
  induction metadata as [|m metadata IH]; [left; reflexivity|].
  rewrite upsert_cons.
  destruct (String.eqb (StoredNoteMetadata.id m) (Note.id note)); [left; reflexivity|].
  right. exact IH.
Qed.

Lemma upsert_In_other (note : Note.t) (metadata : list StoredNoteMetadata.t)
    (m : StoredNoteMetadata.t) :
  StoredNoteMetadata.id m <> Note.id note ->
  In m (upsert note metadata) <-> In m metadata.
Proof.
  intros Hm. induction metadata as [|m' metadata IH].
  - cbn. split; [intros [<- | []]; contradiction Hm; reflexivity|intros []].
  - rewrite upsert_cons.
    destruct (String.eqb_spec (StoredNoteMetadata.id m') (Note.id note)) as [Heq|Hne]; cbn.
    + split; intros [<- | H]; auto.
      * contradiction Hm. reflexivity.
      * congruence.
    + rewrite IH. reflexivity.
Qed.

Lemma upsert_ids (note : Note.t) (metadata : list StoredNoteMetadata.t) (id : string) :
  In id (map StoredNoteMetadata.id (upsert note metadata)) ->
  id = Note.id note \/ In id (map StoredNoteMetadata.id metadata).
Proof.
  induction metadata as [|m metadata IH].
  - cbn. intros [<- | []]. left. reflexivity.
  - rewrite upsert_cons.
    destruct (String.eqb_spec (StoredNoteMetadata.id m) (Note.id note)) as [Heq|Hne]; cbn.
    + intros [<- | H]; auto.
    + intros [<- | H]; [auto|]. destruct (IH H); auto.
Qed.

Lemma upsert_NoDup (note : Note.t) (metadata : list StoredNoteMetadata.t) :
  List.NoDup (map StoredNoteMetadata.id metadata) ->
  List.NoDup (map StoredNoteMetadata.id (upsert note metadata)).
Proof.
  induction metadata as [|m metadata IH]; intros Hnd.
  - cbn. constructor; [intros []|constructor].
  - rewrite upsert_cons. cbn in Hnd. apply List.NoDup_cons_iff in Hnd as [Hnotin Hnd].
    destruct (String.eqb_spec (StoredNoteMetadata.id m) (Note.id note)) as [Heq|Hne]; cbn.
    + rewrite <- Heq. constructor; assumption.
    + constructor; [|apply IH; exact Hnd].
      intros Hin. apply upsert_ids in Hin as [Hin | Hin]; [congruence|contradiction].
Qed.

Lemma upsert_length (note : Note.t) (metadata : list StoredNoteMetadata.t) :
  length (upsert note metadata) =
    if existsb (fun m => String.eqb (StoredNoteMetadata.id m) (Note.id note)) metadata
    then length metadata else S (length metadata).
Proof.
  induction metadata as [|m metadata IH]; [reflexivity|].
  rewrite upsert_cons. cbn [existsb].
  destruct (String.eqb (StoredNoteMetadata.id m) (Note.id note)); cbn [orb]; [reflexivity|].
  cbn [length]. rewrite IH.
  destruct (existsb _ metadata); reflexivity.
Qed.

Lemma withoutId_ids (id : string) (metadata : list StoredNoteMetadata.t) (id' : string) :
  In id' (map StoredNoteMetadata.id (withoutId id metadata)) ->
  In id' (map StoredNoteMetadata.id metadata).
Proof.
  unfold withoutId. induction metadata as [|m metadata IH]; [intros []|].
  rewrite filter_cons. destruct (decide (StoredNoteMetadata.id m <> id)); cbn.
  - intros [<- | H]; auto.
  - auto.
Qed.

Lemma withoutId_NoDup (id : string) (metadata : list StoredNoteMetadata.t) :
  List.NoDup (map StoredNoteMetadata.id metadata) ->
  List.NoDup (map StoredNoteMetadata.id (withoutId id metadata)).
Proof.
  induction metadata as [|m metadata IH]; intros Hnd; [constructor|].
  cbn in Hnd. apply List.NoDup_cons_iff in Hnd as [Hnotin Hnd].
  unfold withoutId. rewrite filter_cons.
  destruct (decide (StoredNoteMetadata.id m <> id)); cbn.
  - constructor; [|apply IH; exact Hnd].
    intros Hin. apply Hnotin. eapply withoutId_ids. exact Hin.
  - apply IH. exact Hnd.
Qed.

Lemma withoutId_In (id : string) (metadata : list StoredNoteMetadata.t)
    (m : StoredNoteMetadata.t) :
  In m (withoutId id metadata) <-> In m metadata /\ StoredNoteMetadata.id m <> id.
Proof.
  unfold withoutId. rewrite <- !list_elem_of_In, list_elem_of_filter. tauto.
Qed.

Section Facts.

Context {L : CryptoJS} {E : ExpoFileSystem} {J : JSON}.

(** ** Paths *)

Lemma blobPath_inj (id id' : string) : blobPath id = blobPath id' -> id = id'.
Proof.
  unfold blobPath. intros H. apply String.app_inj in H.
  revert id' H. induction id as [|c id IH]; intros [|c' id'] H; cbn in H.
  - reflexivity.
  - exfalso. injection H as Hc H.
    repeat (destruct id' as [|? id']; cbn in H; [discriminate|];
            first [discriminate | injection H as _ H]).
  - exfalso. injection H as Hc H.
    repeat (destruct id as [|? id]; cbn in H; [discriminate|];
            first [discriminate | injection H as _ H]).
  - injection H as -> H. f_equal. apply IH. exact H.
Qed.

(** X11.  Two notes get the same generated id, and with it the same blob
    file, exactly when they are created at the same reading of the
    clock. *)
Theorem generated_ids_collide_only_at_equal_clock_readings (now now' : Z) :
  blobPath (generateNoteId now) = blobPath (generateNoteId now') <-> now = now'.
Proof.
  split; [|intros ->; reflexivity].
  intros H. apply blobPath_inj in H. unfold generateNoteId, JSText.Number_toString in H.
  apply (inj pretty) in H. exact H.
Qed.

(** ** Shared steps *)

Lemma loadNoteContent_healthy (id : string) (k : WordArray) (fs : FileSystem.FS) :
  faults fs = [] ->
  loadNoteContent id (Some k) fs =
    (Ok (match FileSystem.files (data fs) !! blobPath id with
         | Some blob =>
             match Crypto.decryptData blob (Some k) with
             | Ok r => r
             | Throw _ => None
             end
         | None => None
         end), fs).
Proof.
  intros Hf.
  unfold loadNoteContent, try_await, await, FileSystem.getInfoAsync, FileSystem.readAsStringAsync.
  fold (blobPath id).
  rewrite (call_healthy _ _ _ Hf). cbn [fst snd FileSystem.exists_].
  rewrite <- Hf at 1. rewrite World_eta.
  destruct (FileSystem.files (data fs) !! blobPath id) as [blob|] eqn:Hblob.
  - match goal with
    | |- context [negb (?a || ?b)] =>
        assert (Hex : a || b = true)
          by (apply orb_true_intro; right; apply bool_decide_eq_true_2; eauto);
        rewrite Hex
    end.
    cbn [negb].
    rewrite (call_healthy _ _ _ Hf). rewrite Hblob. cbn [fst snd].
    rewrite <- Hf at 1. rewrite World_eta. unfold lift.
    destruct (CryptoSpec.decryptData_never_throws blob (Some k)) as [r Hr].
    rewrite Hr. reflexivity.
  - match goal with
    | |- context [negb (?a || ?b)] =>
        assert (Hex : b = false)
          by (apply bool_decide_eq_false_2; intros [? ?]; discriminate);
        rewrite Hex, orb_false_r
    end.
    destruct (bool_decide (blobPath id ∈ FileSystem.directories (data fs))); cbn [negb].
    + rewrite (call_healthy _ _ _ Hf). rewrite Hblob. cbn [fst snd].
      unfold resolve. rewrite <- Hf at 1. rewrite World_eta. reflexivity.
    + reflexivity.
Qed.

Lemma getAllNoteMetadata_answered (fs : FileSystem.FS) :
  faults fs = [] ->
  fst (getAllNoteMetadata fs) = Ok (listed (data fs)).
Proof.
  intros Hf. destruct (getAllNoteMetadata_healthy fs Hf) as (fs' & -> & _). reflexivity.
Qed.

(** ** Errors before and after the first file-system call *)

(** X12.  With a key [loadNoteContent] never rejects and never changes
    what is stored; when the first call of the file system fails it
    returns [null]. *)
Theorem loadNoteContent_never_rejects (id : string) (k : WordArray) (fs : FileSystem.FS) :
  exists r fs',
    loadNoteContent id (Some k) fs = (Ok r, fs') /\
    data fs' = data fs /\
    (forall script, faults fs = true :: script -> r = None).
Proof.
  unfold loadNoteContent, try_await, await, FileSystem.getInfoAsync,
    FileSystem.readAsStringAsync, call.
  destruct (next_fault (faults fs)) as [[|] script1] eqn:Hnext; cbn.
  { eexists _, _. split; [reflexivity|]. split; reflexivity. }
  assert (Hrest : forall script, faults fs = true :: script -> forall r : option string, r = None).
  { intros script Hf. rewrite Hf in Hnext. discriminate. }
  destruct (negb _); cbn.
  { eexists _, _. split; [reflexivity|]. split; [reflexivity|eauto]. }
  destruct (next_fault script1) as [[|] script2]; cbn.
  { eexists _, _. split; [reflexivity|]. split; [reflexivity|eauto]. }
  destruct (FileSystem.files (data fs) !! _) as [blob|]; cbn.
  - destruct (CryptoSpec.decryptData_never_throws blob (Some k)) as [r Hr].
    unfold lift. rewrite Hr. eexists _, _. split; [reflexivity|]. split; [reflexivity|eauto].
  - eexists _, _. split; [reflexivity|]. split; [reflexivity|eauto].
Qed.

(** X13.  [saveNote] of a note with empty content fails with the error of
    the cipher, ['Encrypt data received invalid input.'], after the notes
    directory was made: no file is written, neither blob nor index. *)
Theorem saveNote_empty_content_rejects
    (note : Note.t) (k : WordArray) (rnd : ExpoCrypto.RandomBytes) (fs : FileSystem.FS) :
  faults fs = [] -> Note.content note = "" ->
  exists fs',
    saveNote note (Some k) rnd fs =
      (Throw (Error "Encrypt data received invalid input."), fs') /\
    FileSystem.files (data fs') = FileSystem.files (data fs) /\
    NOTES_DIR ∈ FileSystem.directories (data fs').
Proof.
  intros Hf Hempty. unfold saveNote. rewrite Hempty.
  unfold await at 1.
  destruct (ensureDirExists fs) as [r fs1] eqn:Hdir.
  pose proof (ensureDirExists_files _ _ _ Hdir) as Hfiles.
  revert Hdir. unfold ensureDirExists, await, FileSystem.getInfoAsync.
  rewrite (call_healthy _ _ _ Hf). cbn [fst snd FileSystem.isDirectory].
  destruct (bool_decide (NOTES_DIR ∈ FileSystem.directories (data fs))) eqn:Hin; cbn [negb].
  - unfold resolve. intros H. injection H as <- <-.
    eexists. split; [reflexivity|]. split; [reflexivity|].
    apply bool_decide_eq_true_1 in Hin. exact Hin.
  - unfold FileSystem.makeDirectoryAsync. rewrite call_healthy by reflexivity.
    cbn [fst snd data]. intros H. injection H as <- <-.
    eexists. split; [reflexivity|]. split; [reflexivity|].
    cbn. apply elem_of_union_l, elem_of_singleton. reflexivity.
Qed.

(** ** Failures in the middle of [deleteNote] and of the listing *)

(** X14.  [deleteNote] swallows a failed read of the metadata file like a
    missing file: with the directory and the blob in place and the index
    intact, a read that fails makes [deleteNote] succeed with the blob
    deleted and the index rewritten as the empty list, whatever entries
    it held. *)
Theorem deleteNote_failed_index_read_erases_index (id blob : string) (fs : FileSystem.FS) :
  NOTES_DIR ∈ FileSystem.directories (data fs) ->
  FileSystem.files (data fs) !! blobPath id = Some blob ->
  faults fs = [false; false; false; true] ->
  exists fs',
    deleteNote id fs = (Ok tt, fs') /\
    FileSystem.files (data fs') !! METADATA_FILE = Some (JSON_stringify (entries [])) /\
    FileSystem.files (data fs') !! blobPath id = None.
Proof.
  intros Hdir Hblob Hf. destruct fs as [d script]. cbn in Hdir, Hblob, Hf. subst script.
  unfold deleteNote, ensureDirExists. fold (blobPath id).
  unfold try_await, await, FileSystem.getInfoAsync, FileSystem.deleteAsync,
    FileSystem.readAsStringAsync, FileSystem.writeAsStringAsync, call, resolve, lift, reject.
  cbn [next_fault faults data fst snd FileSystem.isDirectory FileSystem.exists_].
  rewrite (bool_decide_eq_true_2 _ Hdir). cbn [negb].
  cbn [next_fault faults data fst snd FileSystem.isDirectory FileSystem.exists_].
  rewrite Hblob.
  match goal with
  | |- context [?a || bool_decide (is_Some (Some blob))] =>
      assert (Hex : a || bool_decide (is_Some (Some blob)) = true)
        by (apply orb_true_intro; right; apply bool_decide_eq_true_2; eauto);
      rewrite !Hex
  end.
  cbn [next_fault faults data fst snd FileSystem.files FileSystem.directories].
  rewrite ?Hblob, ?Hex.
  cbn [next_fault faults data fst snd FileSystem.files FileSystem.directories
       Array_receiver Array_filter].
  eexists. split; [reflexivity|]. cbn [data FileSystem.files]. split.
  - apply lookup_insert_eq.
  - rewrite lookup_insert_ne by (apply not_eq_sym, blobPath_not_metadata).
    apply lookup_delete_eq.
Qed.

(** [deleteNote] with the directory and the blob in place, when the
    fifth call of the file system, the write of the index, fails. *)
Lemma deleteNote_failed_index_write (id blob : string) (fs : FileSystem.FS) :
  NOTES_DIR ∈ FileSystem.directories (data fs) ->
  FileSystem.files (data fs) !! blobPath id = Some blob ->
  faults fs = [false; false; false; false; true] ->
  exists fs',
    deleteNote id fs = (Throw (Error "Failed to delete note."), fs') /\
    FileSystem.files (data fs') = delete (blobPath id) (FileSystem.files (data fs)).
Proof.
  intros Hdir Hblob Hf. destruct fs as [d script]. cbn in Hdir, Hblob, Hf. subst script.
  unfold deleteNote, ensureDirExists. fold (blobPath id).
  unfold try_await, await, FileSystem.getInfoAsync, FileSystem.deleteAsync,
    FileSystem.readAsStringAsync, FileSystem.writeAsStringAsync, call, resolve, lift, reject.
  cbn [next_fault faults data fst snd FileSystem.isDirectory FileSystem.exists_].
  rewrite (bool_decide_eq_true_2 _ Hdir). cbn [negb].
  cbn [next_fault faults data fst snd FileSystem.isDirectory FileSystem.exists_].
  rewrite Hblob.
  match goal with
  | |- context [?a || bool_decide (is_Some (Some blob))] =>
      assert (Hex : a || bool_decide (is_Some (Some blob)) = true)
        by (apply orb_true_intro; right; apply bool_decide_eq_true_2; eauto);
      rewrite !Hex
  end.
  cbn [next_fault faults data fst snd FileSystem.files FileSystem.directories].
  rewrite ?Hblob, ?Hex.
  cbn [next_fault faults data fst snd FileSystem.files FileSystem.directories].
  rewrite lookup_delete_ne by apply blobPath_not_metadata.
  destruct (FileSystem.files d !! METADATA_FILE) as [raw|];
    [destruct (JSON_parse raw) as [v|e]|];
    cbn [next_fault faults data fst snd FileSystem.files FileSystem.directories
         Array_receiver Array_filter];
    try (eexists; split; reflexivity).
  destruct (Array_receiver v) as [items|e]; [|eexists; split; reflexivity].
  destruct (Array_filter _ items) as [updated|e]; eexists; split; reflexivity.
Qed.

(** X15.  When the last step of [deleteNote], the write of the index,
    fails, it throws ['Failed to delete note.'] with the blob already
    deleted and the index left as it was: once the file system answers
    again, the listing still shows every entry it showed, and the content
    of the note is gone. *)
Theorem deleteNote_failed_index_write_keeps_entry
    (id blob : string) (k : WordArray) (fs : FileSystem.FS) :
  NOTES_DIR ∈ FileSystem.directories (data fs) ->
  FileSystem.files (data fs) !! blobPath id = Some blob ->
  faults fs = [false; false; false; false; true] ->
  exists fs',
    deleteNote id fs = (Throw (Error "Failed to delete note."), fs') /\
    FileSystem.files (data fs') = delete (blobPath id) (FileSystem.files (data fs)) /\
    forall later,
      data later = data fs' -> faults later = [] ->
      fst (getAllNoteMetadata later) = fst (getAllNoteMetadata (mkWorld (data fs) [])) /\
      fst (loadNoteContent id (Some k) later) = Ok None.
Proof.
  intros Hdir Hblob Hf.
  destruct (deleteNote_failed_index_write id blob fs Hdir Hblob Hf) as (fs' & Hdel & Hfiles).
  exists fs'. split; [exact Hdel|]. split; [exact Hfiles|].
  intros later Hdata Hlater. split.
  - rewrite !getAllNoteMetadata_answered by (exact Hlater || reflexivity).
    unfold listed. rewrite Hdata, Hfiles. cbn [data].
    rewrite lookup_delete_ne by apply blobPath_not_metadata. reflexivity.
  - rewrite loadNoteContent_healthy by exact Hlater. cbn [fst].
    rewrite Hdata, Hfiles, lookup_delete_eq. reflexivity.
Qed.

(** X16.  The listing rejects when the probe of the notes directory
    fails, because [ensureDirExists] runs outside the [try]; a failed read
    of the metadata file is answered with the empty list, whatever the
    file holds. *)
Theorem getAllNoteMetadata_failures (fs : FileSystem.FS) (script : list bool) :
  (faults fs = true :: script ->
   getAllNoteMetadata fs =
     (Throw (Rejected "expo-file-system"), mkWorld (data fs) script)) /\
  (NOTES_DIR ∈ FileSystem.directories (data fs) ->
   faults fs = false :: true :: script ->
   getAllNoteMetadata fs = (Ok [], mkWorld (data fs) script)).
Proof.
  split.
  - intros Hf. unfold getAllNoteMetadata, ensureDirExists, await, FileSystem.getInfoAsync, call.
    rewrite Hf. reflexivity.
  - intros Hdir Hf.
    unfold getAllNoteMetadata, ensureDirExists, try_await, await, FileSystem.getInfoAsync,
      FileSystem.readAsStringAsync, call, resolve.
    rewrite Hf. cbn [next_fault fst snd FileSystem.isDirectory].
    rewrite (bool_decide_eq_true_2 _ Hdir). cbn [negb faults next_fault].
    destruct fs as [[fl dirs] s]. reflexivity.
Qed.

(** X17.  [ensureDirExists] leaves the notes directory in place, keeps
    every file and every other directory, and, once the directory is
    there, changes nothing when it runs again. *)
Theorem ensureDirExists_makes_the_directory_once (fs : FileSystem.FS) :
  faults fs = [] ->
  exists fs',
    ensureDirExists fs = (Ok tt, fs') /\
    NOTES_DIR ∈ FileSystem.directories (data fs') /\
    FileSystem.files (data fs') = FileSystem.files (data fs) /\
    (forall dir, dir ∈ FileSystem.directories (data fs) ->
       dir ∈ FileSystem.directories (data fs')) /\
    ensureDirExists fs' = (Ok tt, fs').
Proof.
  intros Hf. destruct fs as [[fl dirs] script]. cbn in Hf. subst script.
  unfold ensureDirExists, await, FileSystem.getInfoAsync, FileSystem.makeDirectoryAsync,
    call, resolve.
  cbn [next_fault faults data fst snd FileSystem.isDirectory FileSystem.directories].
  destruct (bool_decide (NOTES_DIR ∈ dirs)) eqn:Hin; cbn [negb].
  - apply bool_decide_eq_true_1 in Hin.
    eexists. split; [reflexivity|]. split; [exact Hin|]. split; [reflexivity|].
    split; [auto|].
    cbn [next_fault faults data fst snd FileSystem.isDirectory FileSystem.directories].
    rewrite (bool_decide_eq_true_2 _ Hin). reflexivity.
  - cbn [next_fault faults data fst snd FileSystem.files FileSystem.directories].
    assert (Hnew : NOTES_DIR ∈ ({[NOTES_DIR]} ∪ dirs : gset string))
      by (apply elem_of_union_l, elem_of_singleton; reflexivity).
    eexists. split; [reflexivity|]. split; [exact Hnew|]. split; [reflexivity|].
    split; [intros dir Hd; apply elem_of_union_r; exact Hd|].
    cbn [next_fault faults data fst snd FileSystem.isDirectory FileSystem.directories].
    rewrite (bool_decide_eq_true_2 _ Hnew). reflexivity.
Qed.

(** ** [saveNote] and the index *)

(** X19.  When the metadata file is missing or does not parse, [saveNote]
    of a note whose content is not empty and has no unpaired surrogate
    starts a new index that holds the saved note only; the blobs of all
    other notes stay on disk without an entry. *)
Theorem saveNote_with_unreadable_index_starts_afresh
    {HL : CryptoJSLaws L}
    (note : Note.t) (k : WordArray) (rnd : ExpoCrypto.RandomBytes) (fs : FileSystem.FS) :
  faults fs = [] ->
  Note.content note <> "" -> JSText.well_formed (Note.content note) = true ->
  (FileSystem.files (data fs) !! METADATA_FILE = None \/
   exists rawMetadata e,
     FileSystem.files (data fs) !! METADATA_FILE = Some rawMetadata /\
     JSON_parse rawMetadata = Throw e) ->
  exists fs',
    saveNote note (Some k) rnd fs = (Ok note, fs') /\
    FileSystem.files (data fs') !! METADATA_FILE =
      Some (JSON_stringify
              (entries [StoredNoteMetadata.mk (Note.id note) (Note.timestamp note)])) /\
    (forall id, id <> Note.id note ->
       FileSystem.files (data fs') !! blobPath id = FileSystem.files (data fs) !! blobPath id).
Proof.
  intros Hf Hcontent Hwf Hindex.
  destruct (CryptoSpec.encrypt_then_decrypt (Note.content note) k rnd Hcontent Hwf)
    as (blob & _ & Henc & _).
  destruct (saveNote_healthy note k rnd fs blob Hf Henc) as (fs' & Hsave & _ & _ & Hfiles).
  assert (Hidx : indexValue (data fs) = JArray []).
  { unfold indexValue. destruct Hindex as [-> | (raw & e & -> & ->)]; reflexivity. }
  rewrite Hidx in Hsave, Hfiles. cbn in Hsave, Hfiles.
  exists fs'. split; [exact Hsave|]. rewrite Hfiles. split.
  - apply lookup_insert_eq.
  - intros id Hid.
    rewrite lookup_insert_ne by (apply not_eq_sym, blobPath_not_metadata).
    apply lookup_insert_ne. intros Heq. apply Hid. symmetry. apply blobPath_inj. exact Heq.
Qed.

Context {HJ : JSONLaws J}.

Lemma getAllNoteMetadata_entries (fs : FileSystem.FS) (l : list StoredNoteMetadata.t) :
  faults fs = [] -> indexHolds (data fs) l ->
  fst (getAllNoteMetadata fs) =
    Ok (map StoredNoteMetadata.toJSON (newestFirst StoredNoteMetadata.timestamp l)).
Proof.
  intros Hf Hidx. rewrite (getAllNoteMetadata_answered fs Hf), (listed_entries _ _ Hidx).
  reflexivity.
Qed.

(** What is left of a note after [deleteNote] on an index that holds
    entries. *)
Lemma deleteNote_removes_blob_and_entry_facts
    (id : string) (k : WordArray) (fs : FileSystem.FS) (l : list StoredNoteMetadata.t) :
  faults fs = [] -> indexHolds (data fs) l ->
  exists fs' listing,
    deleteNote id fs = (Ok tt, fs') /\
    fst (loadNoteContent id (Some k) fs') = Ok None /\
    fst (getAllNoteMetadata fs') = Ok (map StoredNoteMetadata.toJSON listing) /\
    (forall m, In m listing <-> In m l /\ StoredNoteMetadata.id m <> id).
Proof.
  intros Hf Hidx.
  destruct (deleteNote_entries id fs l Hf Hidx) as (fs' & Hdel & Hf' & Habs & Hfiles & Hidx').
  exists fs', (newestFirst StoredNoteMetadata.timestamp (withoutId id l)).
  split; [exact Hdel|]. split.
  { rewrite loadNoteContent_healthy by exact Hf'. cbn [fst].
    destruct Habs as [-> _]. reflexivity. }
  split; [apply getAllNoteMetadata_entries; assumption|].
  intros m. rewrite <- withoutId_In. split; intros Hin.
  - eapply Permutation_in; [symmetry; apply newestFirst_Permutation|exact Hin].
  - eapply Permutation_in; [apply newestFirst_Permutation|exact Hin].
Qed.

(** X31.  On a file system that answers its calls and an index that is
    missing, no JSON or an array of entries, [deleteNote] succeeds whether
    or not the note has a blob.  Afterwards the blob is gone, the metadata
    file holds the entries it held without those of the id, in their
    order, and no other file has changed; [loadNoteContent] of the id
    returns [null] under every key, the listing shows the other notes
    only, and deleting again changes no file. *)
Theorem deleteNote_removes_blob_and_entry
    (id : string) (k : WordArray) (fs : FileSystem.FS) (l : list StoredNoteMetadata.t) :
  faults fs = [] -> indexHolds (data fs) l ->
  exists fs' fs'' listing,
    deleteNote id fs = (Ok tt, fs') /\
    FileSystem.files (data fs') !! blobPath id = None /\
    FileSystem.files (data fs') !! METADATA_FILE =
      Some (JSON_stringify
              (entries (filter (fun m => StoredNoteMetadata.id m <> id) l))) /\
    (forall path,
       path <> METADATA_FILE -> path <> blobPath id ->
       FileSystem.files (data fs') !! path = FileSystem.files (data fs) !! path) /\
    fst (loadNoteContent id (Some k) fs') = Ok None /\
    fst (getAllNoteMetadata fs') = Ok (map StoredNoteMetadata.toJSON listing) /\
    (forall m, In m listing <-> In m l /\ StoredNoteMetadata.id m <> id) /\
    deleteNote id fs' = (Ok tt, fs'') /\
    FileSystem.files (data fs'') = FileSystem.files (data fs').
Proof.
  intros Hf Hidx.
  destruct (deleteNote_entries id fs l Hf Hidx) as (fs' & Hdel & Hf' & Habs & Hfiles & Hidx').
  destruct (deleteNote_entries id fs' _ Hf' Hidx') as (fs'' & Hdel' & _ & _ & Hfiles' & _).
  exists fs', fs'', (newestFirst StoredNoteMetadata.timestamp (withoutId id l)).
  split; [exact Hdel|]. split; [apply Habs|].
  split; [rewrite Hfiles; apply lookup_insert_eq|].
  split.
  { intros path Hm Hb. rewrite Hfiles, lookup_insert_ne by congruence.
    apply lookup_delete_ne. congruence. }
  split.
  { rewrite loadNoteContent_healthy by exact Hf'. cbn [fst].
    destruct Habs as [-> _]. reflexivity. }
  split; [apply getAllNoteMetadata_entries; assumption|].
  split.
  { intros m. rewrite <- withoutId_In. split; intros Hin.
    - eapply Permutation_in; [symmetry; apply newestFirst_Permutation|exact Hin].
    - eapply Permutation_in; [apply newestFirst_Permutation|exact Hin]. }
  split; [exact Hdel'|].
  rewrite Hfiles', withoutId_idempotent.
  destruct Habs as [Habs _]. rewrite (delete_id _ _ Habs).
  apply insert_id. rewrite Hfiles. apply lookup_insert_eq.
Qed.

Context {HL : CryptoJSLaws L}.

(** The blob of a note whose content is not empty and has no unpaired
    surrogate. *)
Lemma content_blob (note : Note.t) (k : WordArray) (rnd : ExpoCrypto.RandomBytes) :
  Note.content note <> "" -> JSText.well_formed (Note.content note) = true ->
  exists blob, Crypto.encryptData (Note.content note) (Some k) rnd = Ok blob.
Proof.
  intros Hcontent Hwf.
  destruct (CryptoSpec.encrypt_then_decrypt (Note.content note) k rnd Hcontent Hwf)
    as (blob & _ & Henc & _).
  exists blob. exact Henc.
Qed.

(** X20.  On an index that is missing, no JSON or an array of entries,
    [saveNote] of a note whose content is not empty and has no unpaired
    surrogate succeeds, and afterwards the listing shows the saved note
    with its new timestamp; the entries of all other notes are the ones
    listed before; and the listing has one entry more than before exactly
    when no entry had the id of the note. *)
Theorem saveNote_then_getAllNoteMetadata
    (note : Note.t) (k : WordArray) (rnd : ExpoCrypto.RandomBytes) (fs : FileSystem.FS)
    (l : list StoredNoteMetadata.t) :
  faults fs = [] ->
  Note.content note <> "" -> JSText.well_formed (Note.content note) = true ->
  indexHolds (data fs) l ->
  exists fs' before after,
    fst (getAllNoteMetadata fs) = Ok (map StoredNoteMetadata.toJSON before) /\
    saveNote note (Some k) rnd fs = (Ok note, fs') /\
    fst (getAllNoteMetadata fs') = Ok (map StoredNoteMetadata.toJSON after) /\
    In (StoredNoteMetadata.mk (Note.id note) (Note.timestamp note)) after /\
    (forall m, StoredNoteMetadata.id m <> Note.id note -> In m after <-> In m before) /\
    length after =
      (if existsb (fun m => String.eqb (StoredNoteMetadata.id m) (Note.id note)) before
       then length before else S (length before)).
Proof.
  intros Hf Hcontent Hwf Hidx.
  destruct (content_blob note k rnd Hcontent Hwf) as [blob Henc].
  destruct (saveNote_entries note k rnd fs blob l Hf Henc Hidx)
    as (fs' & Hsave & Hf' & _ & Hidx').
  exists fs', (newestFirst StoredNoteMetadata.timestamp l),
         (newestFirst StoredNoteMetadata.timestamp (upsert note l)).
  split; [apply getAllNoteMetadata_entries; assumption|].
  split; [exact Hsave|].
  split; [apply getAllNoteMetadata_entries; assumption|].
  pose proof (newestFirst_Permutation StoredNoteMetadata.timestamp l) as Hbefore.
  pose proof (newestFirst_Permutation StoredNoteMetadata.timestamp (upsert note l)) as Hafter.
  split; [eapply Permutation_in; [exact Hafter|apply upsert_In_new]|].
  split.
  - intros m Hm. split; intros Hin.
    + eapply Permutation_in; [exact Hbefore|].
      apply (upsert_In_other note _ m Hm).
      eapply Permutation_in; [symmetry; exact Hafter|exact Hin].
    + eapply Permutation_in; [exact Hafter|].
      apply (upsert_In_other note _ m Hm).
      eapply Permutation_in; [symmetry; exact Hbefore|exact Hin].
  - rewrite <- (Permutation_length Hafter), <- (Permutation_length Hbefore), upsert_length.
    assert (Hex : existsb (fun m => String.eqb (StoredNoteMetadata.id m) (Note.id note)) l =
                  existsb (fun m => String.eqb (StoredNoteMetadata.id m) (Note.id note))
                    (newestFirst StoredNoteMetadata.timestamp l)).
    { apply eq_true_iff_eq. rewrite !existsb_exists.
      split; intros (m & Hin & Hm); exists m; (split; [|exact Hm]).
      - eapply Permutation_in; [exact Hbefore|exact Hin].
      - eapply Permutation_in; [symmetry; exact Hbefore|exact Hin]. }
    rewrite Hex. reflexivity.
Qed.

(** X21.  Saving and deleting keep the ids of the index distinct: when the
    metadata file holds entries no two of which have the same id, so it
    does after [saveNote] of a note whose content is not empty and has no
    unpaired surrogate, and after [deleteNote]. *)
Theorem index_ids_stay_distinct
    (note : Note.t) (k : WordArray) (rnd : ExpoCrypto.RandomBytes) (id : string)
    (fs : FileSystem.FS) (l : list StoredNoteMetadata.t) :
  faults fs = [] ->
  Note.content note <> "" -> JSText.well_formed (Note.content note) = true ->
  indexHolds (data fs) l ->
  List.NoDup (map StoredNoteMetadata.id l) ->
  (exists fs' l',
     saveNote note (Some k) rnd fs = (Ok note, fs') /\
     indexHolds (data fs') l' /\
     List.NoDup (map StoredNoteMetadata.id l')) /\
  (exists fs' l',
     deleteNote id fs = (Ok tt, fs') /\
     indexHolds (data fs') l' /\
     List.NoDup (map StoredNoteMetadata.id l')).
Proof.
  intros Hf Hcontent Hwf Hidx Hnd. split.
  - destruct (content_blob note k rnd Hcontent Hwf) as [blob Henc].
    destruct (saveNote_entries note k rnd fs blob l Hf Henc Hidx)
      as (fs' & Hsave & _ & _ & Hidx').
    exists fs', (upsert note l). split; [exact Hsave|]. split; [exact Hidx'|].
    apply upsert_NoDup. exact Hnd.
  - destruct (deleteNote_entries id fs l Hf Hidx) as (fs' & Hdel & _ & _ & _ & Hidx').
    exists fs', (withoutId id l). split; [exact Hdel|]. split; [exact Hidx'|].
    apply withoutId_NoDup. exact Hnd.
Qed.

(** X22.  On an index that is missing, no JSON or an array of entries, a
    note saved with content that is not empty and has no unpaired
    surrogate is read back under the same key exactly as it was saved,
    unless the ciphertext of its blob starts with the OpenSSL marker
    ['Salted__']; and saving it changes what no other note reads back. *)
Theorem saveNote_then_loadNoteContent_roundtrip
    (note : Note.t) (k : WordArray) (rnd : ExpoCrypto.RandomBytes) (fs : FileSystem.FS)
    (l : list StoredNoteMetadata.t) :
  faults fs = [] ->
  Note.content note <> "" -> JSText.well_formed (Note.content note) = true ->
  indexHolds (data fs) l ->
  exists fs' ciphertext,
    saveNote note (Some k) rnd fs = (Ok note, fs') /\
    AES_encrypt (Note.content note) k (mkCfg (Crypto.drawn_iv rnd) CBC Pkcs7) = Ok ciphertext /\
    (OpenSSL_salted ciphertext = false ->
     fst (loadNoteContent (Note.id note) (Some k) fs') = Ok (Some (Note.content note))) /\
    (forall id k', id <> Note.id note ->
       fst (loadNoteContent id (Some k') fs') = fst (loadNoteContent id (Some k') fs)).
Proof.
  intros Hf Hcontent Hwf Hidx.
  destruct (CryptoSpec.encrypt_then_decrypt (Note.content note) k rnd Hcontent Hwf)
    as (blob & ciphertext & Henc & Haes & _ & _ & Hdec).
  destruct (saveNote_entries note k rnd fs blob l Hf Henc Hidx)
    as (fs' & Hsave & Hf' & Hfiles & _).
  exists fs', ciphertext. split; [exact Hsave|]. split; [exact Haes|]. split.
  - intros Hsalted. rewrite loadNoteContent_healthy by exact Hf'. cbn [fst].
    rewrite Hfiles, lookup_insert_ne by (apply not_eq_sym, blobPath_not_metadata).
    rewrite lookup_insert_eq, (Hdec Hsalted). reflexivity.
  - intros id k' Hid. rewrite !loadNoteContent_healthy by assumption. cbn [fst].
    rewrite Hfiles, lookup_insert_ne by (apply not_eq_sym, blobPath_not_metadata).
    rewrite lookup_insert_ne; [reflexivity|].
    intros Heq. apply Hid. symmetry. apply blobPath_inj. exact Heq.
Qed.

End Facts.

End NoteStorageProperties.
(** * Properties of the screens and of the key context *)

Module ScreenProperties.

Import UI PlatformSpec.

(** ** [trim] *)

Lemma trim_nonempty (s : string) : JSText.trim s <> "" -> s <> "".
Proof. intros H ->. apply H. reflexivity. Qed.

Section Facts.

Context {L : CryptoJS} {E : ExpoFileSystem} {J : JSON}.

(** ** [CryptoContext] *)

(** X23.  [clearAllCryptoData] erases the master password and the key of
    the session and announces that all notes have been deleted, but it
    leaves the file system as it is: every blob and the index are still
    on the device. *)
Theorem clearAllCryptoData_keeps_every_note_file {S : Type} (w : World S) :
  faults (secureStore w) = [] ->
  exists w',
    CryptoContext.clearAllCryptoData w = (Ok tt, w') /\
    events w' =
      events w ++
      [Alert "Data Cleared"
         "Master password and all notes have been permanently deleted from this device. You will need to set a new master password on next launch."] /\
    keyContext w' = mkKeyContext None false /\
    fst (Crypto.hasMasterPassword (secureStore w')) = Ok false /\
    fileSystem w' = fileSystem w.
Proof.
  intros Hf.
  destruct (CryptoSpec.clearMasterPassword_unsets "" (secureStore w) Hf)
    as (st' & Hclear & _ & Hhas & _).
  unfold CryptoContext.clearAllCryptoData, try_await, await, onSecureStore.
  rewrite Hclear. cbn.
  eexists. split; [reflexivity|]. cbn. rewrite Hhas. repeat split.
Qed.

(** ** [LoginScreen] *)

(** X24.  [checkFirstLaunch] never shows its alert, since
    [hasMasterPassword] never rejects.  It ends the loading state and
    decides between the two forms; when the read of the secure store
    fails it decides for the form that sets a new master password. *)
Theorem checkFirstLaunch_never_alerts (w : World LoginScreen.State) :
  exists w' firstTime,
    LoginScreen.checkFirstLaunch w = (Ok tt, w') /\
    events w' = events w /\
    LoginScreen.isFirstLaunch (screen w') = Some firstTime /\
    LoginScreen.loading (screen w') = false /\
    (forall script, faults (secureStore w) = true :: script -> firstTime = true) /\
    (firstTime = false ->
     exists s, data (secureStore w) !! Crypto.SECURE_STORE_SALT_KEY = Some s /\ s <> "").
Proof.
  unfold LoginScreen.checkFirstLaunch, finally, try_await, await, onSecureStore, setScreen.
  rewrite CryptoProperties.hasMasterPassword_any. cbn.
  eexists _, _. split; [reflexivity|]. cbn. split; [reflexivity|]. split; [reflexivity|].
  split; [reflexivity|].
  split.
  - intros script Hf. rewrite Hf. reflexivity.
  - destruct (fst (next_fault (faults (secureStore w)))); [discriminate|].
    destruct (data (secureStore w) !! Crypto.SECURE_STORE_SALT_KEY) as [s|]; [|discriminate].
    intros Ht. exists s. split; [reflexivity|].
    apply CryptoSpec.truthy_true. destruct (truthy s); [reflexivity|discriminate].
Qed.

(** X25.  [handleLogin] never rejects, never writes to the secure store
    and never touches the file system.  Either it puts a key into the
    context and replaces the screen by the home screen, and then the key
    is one that [verifyMasterPassword] returned for the typed password; or
    it leaves the context and the navigator alone and shows an error
    message.  Unless the password field was empty the loading state is
    over afterwards. *)
Theorem handleLogin_never_rejects (w : World LoginScreen.State) :
  exists w',
    LoginScreen.handleLogin w = (Ok tt, w') /\
    data (secureStore w') = data (secureStore w) /\
    fileSystem w' = fileSystem w /\
    ((exists key,
        fst (Crypto.verifyMasterPassword (LoginScreen.password (screen w)) (secureStore w))
          = Ok (Some key) /\
        keyContext w' = mkKeyContext (Some key) true /\
        events w' = events w ++ [Dispatch (Navigation.replace Navigation.Home)] /\
        LoginScreen.error (screen w') = None)
     \/
     (keyContext w' = keyContext w /\ events w' = events w /\
      exists message, LoginScreen.error (screen w') = Some message)) /\
    (LoginScreen.password (screen w) <> "" -> LoginScreen.loading (screen w') = false).
Proof.
  destruct w as [st fs kc s ev]. unfold LoginScreen.handleLogin, await, getScreen.
  cbn [screen]. destruct (truthy (LoginScreen.password s)) eqn:Hp; cbn [negb].
  2: { apply CryptoSpec.truthy_false in Hp.
       eexists. split; [reflexivity|]. cbn. split; [reflexivity|]. split; [reflexivity|].
       split; [right; eauto|]. intros H. contradiction. }
  unfold finally, try_await, await, onSecureStore, setScreen, CryptoContext.setEncryptionKey,
    setKeyContext, navigation_replace, emit, await.
  cbn [secureStore fileSystem keyContext screen events].
  destruct (Crypto.verifyMasterPassword (LoginScreen.password s) st) as [r st'] eqn:Hv.
  pose proof (CryptoProperties.verifyMasterPassword_data _ _ _ _ Hv) as Hdata.
  destruct r as [[key|]|e]; cbn;
    (eexists; split; [reflexivity|]; cbn; split; [exact Hdata|]; split; [reflexivity|];
     split; [|reflexivity]).
  - left. exists key. repeat split.
  - right. eauto.
  - right. eauto.
Qed.

(** ** [NoteEditorScreen] *)

(** The note that [autoSave] hands to [saveNote]. *)
Lemma autoSave_healthy (k : WordArray) (currentNoteId : option string) (now : nat -> Z)
    (rnd : ExpoCrypto.RandomBytes) (w : World NoteEditorScreen.State)
    (note : Note.t) (fs' : FileSystem.FS) :
  JSText.trim (NoteEditorScreen.content (screen w)) <> "" ->
  note =
    match NoteEditorScreen.given currentNoteId with
    | Some id => Note.mk id (NoteEditorScreen.content (screen w)) (now 0%nat)
    | None =>
        Note.mk (NoteStorage.generateNoteId (now 0%nat))
          (NoteEditorScreen.content (screen w)) (now 1%nat)
    end ->
  NoteStorage.saveNote note (Some k) rnd (fileSystem w) = (Ok note, fs') ->
  NoteEditorScreen.autoSave true (Some k) currentNoteId now rnd w =
    (Ok tt,
     mkWorld (secureStore w) fs' (keyContext w)
       (NoteEditorScreen.setIsSaving false (screen w)) (events w)).
Proof.
  intros Hblank -> Hsave. destruct w as [st fs kc s ev]. cbn [screen fileSystem] in *.
  unfold NoteEditorScreen.autoSave, await at 1, getScreen. cbn [screen].
  apply String.eqb_neq in Hblank. rewrite Hblank. cbn [negb].
  unfold finally, try_await, await, onFileSystem, setScreen, resolve.
  cbn [secureStore fileSystem keyContext screen events].
  destruct (NoteEditorScreen.given currentNoteId) as [id|];
    cbn [secureStore fileSystem keyContext screen events NoteEditorScreen.content
         NoteEditorScreen.setIsSaving];
    rewrite Hsave; reflexivity.
Qed.

(** ** [HomeScreen] *)

Lemma getAllNoteMetadata_files (fs fs' : FileSystem.FS)
    (r : Result (list JSONValue)) :
  NoteStorage.getAllNoteMetadata fs = (r, fs') ->
  FileSystem.files (data fs') = FileSystem.files (data fs).
Proof.
  destruct r as [l|e]; [intros H; apply NoteStorageSpec.getAllNoteMetadata_inv in H; tauto|].
  unfold NoteStorage.getAllNoteMetadata, await at 1.
  destruct (NoteStorage.ensureDirExists fs) as [[u|e'] fs1] eqn:Hdir.
  - unfold try_await, await, FileSystem.readAsStringAsync, call, lift, resolve.
    destruct (next_fault (faults fs1)) as [[|] script]; cbn; [discriminate|].
    destruct (FileSystem.files (data fs1) !! NoteStorage.METADATA_FILE) as [raw|]; cbn;
      [|discriminate].
    destruct (JSON_parse raw) as [metadata|e']; cbn; [|discriminate].
    destruct (Array_receiver metadata) as [items|e']; cbn; [|discriminate].
    destruct (Array_sort NoteStorage.byTimestampDesc items); discriminate.
  - intros H. injection H as _ <-. eapply NoteStorageSpec.ensureDirExists_files. exact Hdir.
Qed.

(** X26.  [loadNotes] never rejects, changes no file and always ends the
    loading and the refreshing state.  Without authentication it empties
    the list and replaces the screen by the login screen without a call
    of the file system; otherwise it shows what [getAllNoteMetadata]
    returns, and when that rejects it keeps the list it had and shows an
    alert. *)
Theorem loadNotes_never_rejects (isAuthenticated : bool) (w : World HomeScreen.State) :
  exists w',
    HomeScreen.loadNotes isAuthenticated w = (Ok tt, w') /\
    HomeScreen.loading (screen w') = false /\
    HomeScreen.refreshing (screen w') = false /\
    FileSystem.files (data (fileSystem w')) = FileSystem.files (data (fileSystem w)) /\
    (isAuthenticated = false ->
     fileSystem w' = fileSystem w /\ HomeScreen.notes (screen w') = [] /\
     events w' = events w ++ [Dispatch (Navigation.replace Navigation.Login)]) /\
    (isAuthenticated = true ->
     (exists l,
        fst (NoteStorage.getAllNoteMetadata (fileSystem w)) = Ok l /\
        HomeScreen.notes (screen w') = l /\ events w' = events w)
     \/
     (exists e,
        fst (NoteStorage.getAllNoteMetadata (fileSystem w)) = Throw e /\
        HomeScreen.notes (screen w') = HomeScreen.notes (screen w) /\
        events w' =
          events w ++ [Alert "Error" "Failed to load notes. Please restart the app."])).
Proof.
  destruct w as [st fs kc s ev].
  unfold HomeScreen.loadNotes, finally, try_await, await, onFileSystem, setScreen,
    navigation_replace, Alert_alert, emit.
  cbn [secureStore fileSystem keyContext screen events].
  destruct isAuthenticated; cbn [negb].
  - destruct (NoteStorage.getAllNoteMetadata fs) as [[l|e] fs'] eqn:Hget;
      pose proof (getAllNoteMetadata_files _ _ _ Hget) as Hfiles;
      cbn -[NoteStorage.getAllNoteMetadata]; rewrite ?Hget; cbn;
      (eexists; split; [reflexivity|]; cbn; split; [reflexivity|]; split; [reflexivity|];
       split; [exact Hfiles|]; split; [discriminate|]; intros _).
    + left. exists l. repeat split.
    + right. exists e. repeat split.
  - cbn. eexists. split; [reflexivity|]. cbn. repeat split; discriminate.
Qed.

Context {HJ : JSONLaws J}.

Context {HL : CryptoJSLaws L}.

(** X27.  The editor saves on losing the focus exactly what it holds.
    When the text is blank nothing is written, deleted or shown, so a
    note whose text was emptied keeps its earlier content on the device.
    Otherwise, the text having no unpaired surrogate and the index being
    missing, no JSON or an array of entries, the note is saved under its
    id with the text as typed, not trimmed, and the first reading of the
    clock as timestamp; and unless the ciphertext of the blob starts with
    the OpenSSL marker ['Salted__'], a later opening of the note shows
    this text and no alert. *)
Theorem autoSave_saves_the_text_as_typed
    (k : WordArray) (id : string) (now : nat -> Z) (rnd : ExpoCrypto.RandomBytes)
    (w : World NoteEditorScreen.State) (l : list StoredNoteMetadata.t) :
  faults (fileSystem w) = [] -> id <> "" ->
  (JSText.trim (NoteEditorScreen.content (screen w)) = "" ->
   NoteEditorScreen.autoSave true (Some k) (Some id) now rnd w = (Ok tt, w)) /\
  (JSText.trim (NoteEditorScreen.content (screen w)) <> "" ->
   JSText.well_formed (NoteEditorScreen.content (screen w)) = true ->
   NoteStorage.indexHolds (data (fileSystem w)) l ->
   exists w1 l1 ciphertext,
     NoteEditorScreen.autoSave true (Some k) (Some id) now rnd w = (Ok tt, w1) /\
     events w1 = events w /\
     NoteEditorScreen.isSaving (screen w1) = false /\
     NoteStorage.indexHolds (data (fileSystem w1)) l1 /\
     In (StoredNoteMetadata.mk id (now 0%nat)) l1 /\
     AES_encrypt (NoteEditorScreen.content (screen w)) k
       (mkCfg (Crypto.drawn_iv rnd) CBC Pkcs7) = Ok ciphertext /\
     (OpenSSL_salted ciphertext = false ->
      forall w2,
        fileSystem w2 = fileSystem w1 ->
        exists w3,
          NoteEditorScreen.fetchOrCreateNote (Some id) true (Some k) w2 = (Ok tt, w3) /\
          NoteEditorScreen.content (screen w3) = NoteEditorScreen.content (screen w) /\
          NoteEditorScreen.currentNoteId (screen w3) = Some id /\
          NoteEditorScreen.loading (screen w3) = false /\
          events w3 = events w2)).
Proof.
  intros Hf Hid. split.
  - intros Hblank. unfold NoteEditorScreen.autoSave, await, getScreen.
    rewrite Hblank. reflexivity.
  - intros Hblank Hwf Hidx.
    set (note := Note.mk id (NoteEditorScreen.content (screen w)) (now 0%nat)).
    destruct (CryptoSpec.encrypt_then_decrypt (Note.content note) k rnd
                (trim_nonempty _ Hblank) Hwf)
      as (blob & ciphertext & Henc & Haes & _ & _ & Hdec).
    destruct (NoteStorageSpec.saveNote_entries note k rnd (fileSystem w) blob l Hf Henc Hidx)
      as (fs' & Hsave & Hf' & Hfiles & Hidx').
    assert (Hgiven : NoteEditorScreen.given (Some id) = Some id).
    { cbn. apply CryptoSpec.truthy_true in Hid. rewrite Hid. reflexivity. }
    eexists _, (NoteStorage.upsert note l), ciphertext. split.
    { apply (autoSave_healthy k (Some id) now rnd w note fs' Hblank);
        [rewrite Hgiven; reflexivity|exact Hsave]. }
    cbn [events screen fileSystem NoteEditorScreen.setIsSaving NoteEditorScreen.isSaving].
    split; [reflexivity|]. split; [reflexivity|].
    split; [exact Hidx'|].
    split; [apply (NoteStorageProperties.upsert_In_new note)|].
    split; [exact Haes|].
    intros Hsalted w2 Hfs. destruct w2 as [st2 fs2 kc2 s2 ev2]. cbn [fileSystem] in Hfs. subst fs2.
    unfold NoteEditorScreen.fetchOrCreateNote. rewrite Hgiven.
    unfold finally, try_await, await, onFileSystem, setScreen.
    cbn [secureStore fileSystem keyContext screen events].
    assert (Hload : NoteStorage.loadNoteContent id (Some k) fs'
                    = (Ok (Some (NoteEditorScreen.content (screen w))), fs')).
    { rewrite NoteStorageProperties.loadNoteContent_healthy by exact Hf'.
      rewrite Hfiles.
      rewrite lookup_insert_ne by (apply not_eq_sym, NoteStorageSpec.blobPath_not_metadata).
      cbn [Note.id note]. rewrite lookup_insert_eq, (Hdec Hsalted). reflexivity. }
    rewrite Hload.
    eexists. split; [reflexivity|]. cbn. repeat split.
Qed.

(** X28.  [autoSave] does not record the id under which it saved a new
    note.  Run twice on a screen without a note id, at different readings
    of the clock, with a text that is not blank and has no unpaired
    surrogate and an index that is missing, no JSON or an array of
    entries, it saves the text as two notes, each under an id made from
    the clock: the index holds two entries, and each of the two blobs
    decrypts to the text unless its ciphertext starts with the OpenSSL
    marker ['Salted__']. *)
Theorem autoSave_of_a_new_note_adds_a_note_each_time
    (k : WordArray) (now now' : nat -> Z) (rnd rnd' : ExpoCrypto.RandomBytes)
    (w : World NoteEditorScreen.State) (l : list StoredNoteMetadata.t) :
  faults (fileSystem w) = [] ->
  JSText.trim (NoteEditorScreen.content (screen w)) <> "" ->
  JSText.well_formed (NoteEditorScreen.content (screen w)) = true ->
  NoteStorage.indexHolds (data (fileSystem w)) l ->
  now 0%nat <> now' 0%nat ->
  exists w1 w2 l2 ciphertext ciphertext',
    NoteEditorScreen.autoSave true (Some k) None now rnd w = (Ok tt, w1) /\
    NoteEditorScreen.currentNoteId (screen w1) = NoteEditorScreen.currentNoteId (screen w) /\
    NoteEditorScreen.autoSave true (Some k) None now' rnd' w1 = (Ok tt, w2) /\
    NoteStorage.generateNoteId (now 0%nat) <> NoteStorage.generateNoteId (now' 0%nat) /\
    NoteStorage.indexHolds (data (fileSystem w2)) l2 /\
    In (StoredNoteMetadata.mk (NoteStorage.generateNoteId (now 0%nat)) (now 1%nat)) l2 /\
    In (StoredNoteMetadata.mk (NoteStorage.generateNoteId (now' 0%nat)) (now' 1%nat)) l2 /\
    AES_encrypt (NoteEditorScreen.content (screen w)) k
      (mkCfg (Crypto.drawn_iv rnd) CBC Pkcs7) = Ok ciphertext /\
    AES_encrypt (NoteEditorScreen.content (screen w)) k
      (mkCfg (Crypto.drawn_iv rnd') CBC Pkcs7) = Ok ciphertext' /\
    (OpenSSL_salted ciphertext = false ->
     fst (NoteStorage.loadNoteContent (NoteStorage.generateNoteId (now 0%nat)) (Some k)
            (fileSystem w2)) = Ok (Some (NoteEditorScreen.content (screen w)))) /\
    (OpenSSL_salted ciphertext' = false ->
     fst (NoteStorage.loadNoteContent (NoteStorage.generateNoteId (now' 0%nat)) (Some k)
            (fileSystem w2)) = Ok (Some (NoteEditorScreen.content (screen w)))).
Proof.
  intros Hf Hblank Hwf Hidx Hnow.
  pose proof (trim_nonempty _ Hblank) as Hcontent.
  set (c := NoteEditorScreen.content (screen w)) in *.
  set (note1 := Note.mk (NoteStorage.generateNoteId (now 0%nat)) c (now 1%nat)).
  set (note2 := Note.mk (NoteStorage.generateNoteId (now' 0%nat)) c (now' 1%nat)).
  assert (Hids : NoteStorage.generateNoteId (now 0%nat) <> NoteStorage.generateNoteId (now' 0%nat)).
  { unfold NoteStorage.generateNoteId, JSText.Number_toString. intros H.
    apply (inj pretty) in H. contradiction. }
  destruct (CryptoSpec.encrypt_then_decrypt c k rnd Hcontent Hwf)
    as (blob1 & ct1 & Henc1 & Haes1 & _ & _ & Hdec1).
  destruct (CryptoSpec.encrypt_then_decrypt c k rnd' Hcontent Hwf)
    as (blob2 & ct2 & Henc2 & Haes2 & _ & _ & Hdec2).
  destruct (NoteStorageSpec.saveNote_entries note1 k rnd (fileSystem w) blob1 l Hf Henc1 Hidx)
    as (fs1 & Hsave1 & Hf1 & Hfiles1 & Hidx1).
  destruct (NoteStorageSpec.saveNote_entries note2 k rnd' fs1 blob2 _ Hf1 Henc2 Hidx1)
    as (fs2 & Hsave2 & Hf2 & Hfiles2 & Hidx2).
  eexists _, _, (NoteStorage.upsert note2 (NoteStorage.upsert note1 l)), ct1, ct2. split.
  { apply (autoSave_healthy k None now rnd w note1 fs1 Hblank); [reflexivity|exact Hsave1]. }
  cbn [screen NoteEditorScreen.setIsSaving NoteEditorScreen.currentNoteId].
  split; [reflexivity|]. split.
  { apply (autoSave_healthy k None now' rnd' _ note2 fs2); [exact Hblank|reflexivity|exact Hsave2]. }
  cbn [fileSystem]. split; [exact Hids|]. split; [exact Hidx2|].
  split.
  { apply (NoteStorageProperties.upsert_In_other note2); [exact Hids|].
    apply (NoteStorageProperties.upsert_In_new note1). }
  split; [apply (NoteStorageProperties.upsert_In_new note2)|].
  split; [exact Haes1|]. split; [exact Haes2|].
  rewrite !NoteStorageProperties.loadNoteContent_healthy by exact Hf2. cbn [fst].
  rewrite Hfiles2, Hfiles1. cbn [Note.id Note.content note1 note2].
  split.
  - intros Hsalted.
    rewrite lookup_insert_ne by (apply not_eq_sym, NoteStorageSpec.blobPath_not_metadata).
    rewrite lookup_insert_ne
      by (intros H; apply NoteStorageProperties.blobPath_inj in H; apply Hids; symmetry; exact H).
    rewrite lookup_insert_ne by (apply not_eq_sym, NoteStorageSpec.blobPath_not_metadata).
    rewrite lookup_insert_eq, (Hdec1 Hsalted). reflexivity.
  - intros Hsalted.
    rewrite lookup_insert_ne by (apply not_eq_sym, NoteStorageSpec.blobPath_not_metadata).
    rewrite lookup_insert_eq, (Hdec2 Hsalted). reflexivity.
Qed.

(** X29.  After [handleSetMasterPassword] went through with a password
    that has no unpaired surrogate, the key of the session is in the
    context and the home screen replaces the login screen; and when the
    app is started again on the same secure store, [handleLogin] with the
    same password puts the same key into the context, unless the
    ciphertext of the stored probe starts with the OpenSSL marker
    ['Salted__']. *)
Theorem handleLogin_after_handleSetMasterPassword
    (rndSalt : RandomInts) (rndIv : ExpoCrypto.RandomBytes) (w : World LoginScreen.State) :
  faults (secureStore w) = [] ->
  LoginScreen.password (screen w) <> "" ->
  JSText.well_formed (LoginScreen.password (screen w)) = true ->
  LoginScreen.confirmPassword (screen w) = LoginScreen.password (screen w) ->
  exists w1 key ciphertext,
    LoginScreen.handleSetMasterPassword rndSalt rndIv w = (Ok tt, w1) /\
    keyContext w1 = mkKeyContext (Some key) true /\
    events w1 = events w ++ [Dispatch (Navigation.replace Navigation.Home)] /\
    LoginScreen.loading (screen w1) = false /\
    LoginScreen.error (screen w1) = None /\
    AES_encrypt Crypto.TEST_PLAIN_TEXT key (mkCfg (Crypto.drawn_iv rndIv) CBC Pkcs7)
      = Ok ciphertext /\
    (OpenSSL_salted ciphertext = false ->
     forall w2,
       secureStore w2 = secureStore w1 ->
       LoginScreen.password (screen w2) = LoginScreen.password (screen w) ->
       exists w3,
         LoginScreen.handleLogin w2 = (Ok tt, w3) /\
         keyContext w3 = mkKeyContext (Some key) true /\
         events w3 = events w2 ++ [Dispatch (Navigation.replace Navigation.Home)]).
Proof.
  intros Hf Hp Hwf Hconfirm. destruct w as [st fs kc s ev]. cbn [secureStore screen] in *.
  destruct (CryptoSpec.setMasterPassword_healthy (LoginScreen.password s) rndSalt rndIv st
              [] [] Hp Hwf) as (key & probe & Hkey & Hprobe & Hset);
    [rewrite Hf; reflexivity|reflexivity|].
  destruct (CryptoSpec.encryptData_Ok_inv _ _ _ _ Hprobe)
    as (_ & key' & ciphertext & Hkey' & Haes & _).
  injection Hkey' as <-.
  unfold LoginScreen.handleSetMasterPassword, await at 1, getScreen. cbn [screen].
  rewrite Hconfirm. pose proof Hp as Hp'. apply CryptoSpec.truthy_true in Hp'.
  rewrite Hp', String.eqb_refl. cbn [negb orb].
  unfold finally, try_await, await, onSecureStore, setScreen, CryptoContext.setEncryptionKey,
    setKeyContext, navigation_replace, emit, await.
  cbn [secureStore fileSystem keyContext screen events].
  rewrite Hset. cbn.
  eexists _, key, ciphertext. split; [reflexivity|]. cbn.
  split; [reflexivity|]. split; [reflexivity|].
  split; [reflexivity|]. split; [reflexivity|]. split; [exact Haes|].
  intros Hsalted w2 Hst Hp2. destruct w2 as [st2 fs2 kc2 s2 ev2]. cbn [secureStore screen] in *.
  unfold LoginScreen.handleLogin, await at 1, getScreen. cbn [screen].
  rewrite Hp2, Hp'. cbn [negb].
  unfold finally, try_await, await, onSecureStore, setScreen, CryptoContext.setEncryptionKey,
    setKeyContext, navigation_replace, emit, await.
  cbn [secureStore fileSystem keyContext screen events LoginScreen.password
       LoginScreen.setError LoginScreen.setLoading].
  rewrite (CryptoSpec.verify_after_set _ _ _ _ _ st2 _ _ Hset Haes Hsalted)
    by (subst st2; reflexivity).
  cbn. eexists. split; [reflexivity|]. split; reflexivity.
Qed.

(** X30.  The handler of the button [Delete] of the editor never rejects.
    With a key and the id of the note of the screen it calls [deleteNote]
    and ends the loading state: when [deleteNote] returns it says that the
    note is deleted and goes back, and when [deleteNote] throws it stays
    and shows an alert; the file system is left as [deleteNote] left it.
    On a file system that answers and an index that is missing, no JSON
    or an array of entries the note is deleted: afterwards it cannot be
    loaded and the listing shows the other notes only.  On a screen
    without a note id nothing is deleted. *)
Theorem handleDelete_onPress_outcomes
    (k : WordArray) (id : string) (w : World NoteEditorScreen.State) :
  id <> "" ->
  (forall isAuthenticated encryptionKey,
     exists w', NoteEditorScreen.handleDelete_onPress isAuthenticated encryptionKey w
                = (Ok tt, w')) /\
  (NoteEditorScreen.currentNoteId (screen w) = Some id ->
   exists w',
     NoteEditorScreen.handleDelete_onPress true (Some k) w = (Ok tt, w') /\
     NoteEditorScreen.loading (screen w') = false /\
     fileSystem w' = snd (NoteStorage.deleteNote id (fileSystem w)) /\
     events w' =
       events w ++
       match fst (NoteStorage.deleteNote id (fileSystem w)) with
       | Ok _ => [Alert "Deleted" "Note successfully deleted."; Dispatch Navigation.goBack]
       | Throw _ => [Alert "Error" "Failed to delete note. Please try again."]
       end) /\
  (NoteEditorScreen.currentNoteId (screen w) = Some id ->
   faults (fileSystem w) = [] ->
   forall l, NoteStorage.indexHolds (data (fileSystem w)) l ->
   exists w' listing,
     NoteEditorScreen.handleDelete_onPress true (Some k) w = (Ok tt, w') /\
     events w' =
       events w ++ [Alert "Deleted" "Note successfully deleted."; Dispatch Navigation.goBack] /\
     fst (NoteStorage.loadNoteContent id (Some k) (fileSystem w')) = Ok None /\
     fst (NoteStorage.getAllNoteMetadata (fileSystem w'))
       = Ok (map StoredNoteMetadata.toJSON listing) /\
     (forall m, In m listing <-> In m l /\ StoredNoteMetadata.id m <> id)) /\
  (NoteEditorScreen.currentNoteId (screen w) = None ->
   exists w',
     NoteEditorScreen.handleDelete_onPress true (Some k) w = (Ok tt, w') /\
     events w' =
       events w ++
       [Alert "Error" "Cannot delete note without proper authentication or note ID."] /\
     fileSystem w' = fileSystem w).
Proof.
  intros Hid. apply CryptoSpec.truthy_true in Hid.
  destruct w as [st fs kc s ev]. cbn [screen fileSystem events].
  assert (Hrun : forall id',
    exists w',
      finally
        (try_await
           (await! _ := setScreen (NoteEditorScreen.setLoading true) in
            await! _ := onFileSystem (NoteStorage.deleteNote id') in
            await! _ := Alert_alert "Deleted" "Note successfully deleted." in
            navigation_goBack)
           (fun e => Alert_alert "Error" "Failed to delete note. Please try again."))
        (setScreen (NoteEditorScreen.setLoading false)) (mkWorld st fs kc s ev)
      = (Ok tt, w') /\
      NoteEditorScreen.loading (screen w') = false /\
      fileSystem w' = snd (NoteStorage.deleteNote id' fs) /\
      events w' =
        ev ++
        match fst (NoteStorage.deleteNote id' fs) with
        | Ok _ => [Alert "Deleted" "Note successfully deleted."; Dispatch Navigation.goBack]
        | Throw _ => [Alert "Error" "Failed to delete note. Please try again."]
        end).
  { intros id'.
    unfold finally, try_await, await, onFileSystem, setScreen, navigation_goBack,
      Alert_alert, emit.
    cbn [secureStore fileSystem keyContext screen events].
    destruct (NoteStorage.deleteNote id' fs) as [[[]|e] fs'];
      cbn [secureStore fileSystem keyContext screen events fst snd];
      (eexists; split; [reflexivity|]);
      cbn [secureStore fileSystem keyContext screen events NoteEditorScreen.loading
           NoteEditorScreen.setLoading];
      repeat split; rewrite <- ?app_assoc; reflexivity. }
  unfold NoteEditorScreen.handleDelete_onPress.
  split; [|split; [|split]].
  - intros isAuthenticated encryptionKey. unfold await at 1, getScreen. cbn [screen].
    destruct isAuthenticated, encryptionKey as [key|],
      (NoteEditorScreen.given (NoteEditorScreen.currentNoteId s)) as [id'|];
      try (eexists; reflexivity).
    destruct (Hrun id') as (w' & Hw' & _). exists w'. exact Hw'.
  - intros Hcur. unfold await at 1, getScreen. cbn [screen]. rewrite Hcur.
    cbn [NoteEditorScreen.given]. rewrite Hid. apply Hrun.
  - intros Hcur Hf l Hidx. unfold await at 1, getScreen. cbn [screen]. rewrite Hcur.
    cbn [NoteEditorScreen.given]. rewrite Hid.
    destruct (Hrun id) as (w' & Hw' & _ & Hfs & Hev).
    destruct (NoteStorageProperties.deleteNote_removes_blob_and_entry_facts id k fs l Hf Hidx)
      as (fs' & listing & Hdel & Hload & Hget & Hlisting).
    rewrite Hdel in Hfs, Hev. cbn [fst snd] in Hfs, Hev.
    exists w', listing. split; [exact Hw'|]. split; [exact Hev|]. rewrite Hfs.
    split; [exact Hload|]. split; [exact Hget|]. exact Hlisting.
  - intros Hcur. unfold await at 1, getScreen. cbn [screen]. rewrite Hcur.
    cbn. eexists. split; [reflexivity|]. split; reflexivity.
Qed.

End Facts.

End ScreenProperties.

(** * The block cipher is a permutation *)

Module AESSpec.

Import AES.

Lemma xor_byte_cancel (a b : ascii) : xor_byte (xor_byte a b) b = a.
Proof. destruct a, b; simpl; f_equal; btauto. Qed.

Lemma xor_column_cancel (x y : Column) : xor_column (xor_column x y) y = x.
Proof.
  destruct x as [[[x0 x1] x2] x3], y as [[[y0 y1] y2] y3]. simpl.
  rewrite !xor_byte_cancel. reflexivity.
Qed.

Lemma xor_block_cancel (x y : Block) : xor_block (xor_block x y) y = x.
Proof.
  destruct x as [[[x0 x1] x2] x3], y as [[[y0 y1] y2] y3]. simpl.
  rewrite !xor_column_cancel. reflexivity.
Qed.

Lemma inv_sbox_sbox (a : ascii) : inv_sbox (sbox a) = a.
Proof. destruct a as [[] [] [] [] [] [] [] []]; reflexivity. Qed.

Lemma inv_sub_bytes_sub_bytes (s : Block) : inv_sub_bytes (sub_bytes s) = s.
Proof.
  destruct s as [[[[[[a0 a1] a2] a3] [[[b0 b1] b2] b3]] [[[c0 c1] c2] c3]] [[[d0 d1] d2] d3]].
  unfold inv_sub_bytes, sub_bytes, map_block, map_column.
  rewrite !inv_sbox_sbox. reflexivity.
Qed.

Lemma inv_shift_rows_shift_rows (s : Block) : inv_shift_rows (shift_rows s) = s.
Proof.
  destruct s as [[[[[[a0 a1] a2] a3] [[[b0 b1] b2] b3]] [[[c0 c1] c2] c3]] [[[d0 d1] d2] d3]].
  reflexivity.
Qed.

Lemma inv_mix_column_mix_column (x : Column) : inv_mix_column (mix_column x) = x.
Proof.
  destruct x as [[[a0 a1] a2] a3]. destruct a0, a1, a2, a3.
  cbv [inv_mix_column mix_column mul3 mul9 mul11 mul13 mul14 xtime xor_byte].
  repeat (f_equal; try btauto).
Qed.

Lemma inv_mix_columns_mix_columns (s : Block) : inv_mix_columns (mix_columns s) = s.
Proof.
  destruct s as [[[c0 c1] c2] c3]. unfold inv_mix_columns, mix_columns, map_block.
  rewrite !inv_mix_column_mix_column. reflexivity.
Qed.

Lemma undo_step_apply_step (s : Block) (step : Step) :
  undo_step (apply_step s step) step = s.
Proof.
  destruct step; simpl.
  - apply xor_block_cancel.
  - apply inv_sub_bytes_sub_bytes.
  - apply inv_shift_rows_shift_rows.
  - apply inv_mix_columns_mix_columns.
Qed.

Lemma undo_steps_apply_steps (l : list Step) (s : Block) :
  fold_left undo_step (rev l) (fold_left apply_step l s) = s.
Proof.
  revert s. induction l as [|step l IH]; intros s; [reflexivity|].
  cbn [rev fold_left]. rewrite fold_left_app, IH. cbn [fold_left].
  apply undo_step_apply_step.
Qed.

Lemma decryptBlock_encryptBlock (key : list Column) (s : Block) :
  decryptBlock key (encryptBlock key s) = s.
Proof. apply undo_steps_apply_steps. Qed.

(** FIPS 197, appendices C.1 and C.3. *)
Example fips197_aes128 :
  encryptBlock (counting_key 4) fips_plaintext =
  (column_of_nats 105 196 224 216, column_of_nats 106 123 4 48,
   column_of_nats 216 205 183 128, column_of_nats 112 180 197 90).
Proof. vm_compute. reflexivity. Qed.

Example fips197_aes256 :
  encryptBlock (counting_key 8) fips_plaintext =
  (column_of_nats 142 162 183 202, column_of_nats 81 103 69 191,
   column_of_nats 234 252 73 144, column_of_nats 75 73 96 137).
Proof. vm_compute. reflexivity. Qed.

End AESSpec.

(** * The reference implementation satisfies the laws *)

Module ReferenceSpec.

Import Reference.

(** ** Bytes and words *)

Lemma Z_of_byte_range (a : ascii) : 0 <= Z_of_byte a < 256.
Proof. unfold Z_of_byte. pose proof (N_ascii_bounded a). lia. Qed.

Lemma byte_of_Z_of_byte (a : ascii) : byte_of_Z (Z_of_byte a) = a.
Proof.
  unfold byte_of_Z. pose proof (Z_of_byte_range a).
  rewrite Z.mod_small by lia. unfold Z_of_byte. rewrite N2Z.id.
  apply ascii_N_embedding.
Qed.

Lemma Z_of_byte_of_Z (z : Z) : Z_of_byte (byte_of_Z z) = z mod 256.
Proof.
  unfold byte_of_Z, Z_of_byte. pose proof (Z.mod_pos_bound z 256 ltac:(lia)).
  rewrite N_ascii_embedding by lia. lia.
Qed.

Lemma word_of_bytes_range (a b c d : ascii) : 0 <= word_of_bytes a b c d < 2 ^ 32.
Proof.
  unfold word_of_bytes.
  pose proof (Z_of_byte_range a). pose proof (Z_of_byte_range b).
  pose proof (Z_of_byte_range c). pose proof (Z_of_byte_range d). lia.
Qed.

Lemma byte_of_Z_eq (z : Z) (a : ascii) : z mod 256 = Z_of_byte a -> byte_of_Z z = a.
Proof.
  intros Hz. unfold byte_of_Z. rewrite Hz. unfold Z_of_byte. rewrite N2Z.id.
  apply ascii_N_embedding.
Qed.

Lemma bytes_of_word_of_bytes (a b c d : ascii) :
  bytes_of_word (word_of_bytes a b c d) = [a; b; c; d].
Proof.
  unfold bytes_of_word, word_of_bytes.
  pose proof (Z_of_byte_range a). pose proof (Z_of_byte_range b).
  pose proof (Z_of_byte_range c). pose proof (Z_of_byte_range d).
  change (2 ^ 24) with 16777216. change (2 ^ 16) with 65536. change (2 ^ 8) with 256.
  repeat f_equal; apply byte_of_Z_eq; Z.div_mod_to_equations; lia.
Qed.

Lemma word_of_bytes_of_word (x : Z) :
  0 <= x < 2 ^ 32 ->
  word_of_bytes (byte_of_Z (x / 2 ^ 24)) (byte_of_Z (x / 2 ^ 16))
                (byte_of_Z (x / 2 ^ 8)) (byte_of_Z x) = x.
Proof.
  intros Hx. unfold word_of_bytes. rewrite !Z_of_byte_of_Z.
  change (2 ^ 32) with 4294967296 in Hx.
  change (2 ^ 24) with 16777216. change (2 ^ 16) with 65536. change (2 ^ 8) with 256.
  Z.div_mod_to_equations. lia.
Qed.

Lemma words_of_bytes_of_words (ws : list Z) :
  Forall (fun x => 0 <= x < 2 ^ 32) ws ->
  words_of_bytes (flat_map bytes_of_word ws) = ws.
Proof.
  induction 1 as [|x ws Hx Hws IH]; [reflexivity|].
  cbn [flat_map bytes_of_word app words_of_bytes].
  rewrite IH, (word_of_bytes_of_word x Hx). reflexivity.
Qed.

Lemma length_bytes_of_words (ws : list Z) :
  length (flat_map bytes_of_word ws) = (4 * length ws)%nat.
Proof. induction ws as [|x ws IH]; simpl; [reflexivity|]. rewrite IH. lia. Qed.

Lemma bytes_of_words_of_bytes (n : nat) (l : list ascii) :
  length l = (4 * n)%nat -> flat_map bytes_of_word (words_of_bytes l) = l.
Proof.
  revert l. induction n as [|n IH]; intros l Hl.
  - destruct l; [reflexivity|discriminate].
  - destruct l as [|a [|b [|c [|d l]]]]; try (simpl in Hl; lia).
    cbn [words_of_bytes flat_map]. rewrite bytes_of_word_of_bytes.
    cbn [app]. rewrite IH; [reflexivity|]. simpl in Hl. lia.
Qed.

Lemma WordArray_bytes_canonical (w : WordArray) :
  canonical w -> WordArray_bytes w = flat_map bytes_of_word (words w).
Proof.
  intros [Hsig _]. unfold WordArray_bytes. apply take_ge.
  rewrite length_bytes_of_words. lia.
Qed.

Lemma WordArray_of_bytes_bytes (w : WordArray) :
  canonical w -> WordArray_of_bytes (WordArray_bytes w) = w.
Proof.
  intros Hw. rewrite (WordArray_bytes_canonical w Hw). destruct Hw as [Hsig Hrange].
  unfold WordArray_of_bytes. rewrite (words_of_bytes_of_words _ Hrange).
  rewrite length_bytes_of_words. destruct w as [ws sb]. simpl in *. f_equal. lia.
Qed.

Lemma WordArray_bytes_nonempty (w : WordArray) :
  canonical w -> 0 < sigBytes w -> WordArray_bytes w <> [].
Proof.
  intros Hw Hsig. rewrite (WordArray_bytes_canonical w Hw). destruct Hw as [Hlen _].
  destruct (words w) as [|x ws]; simpl in *; [lia|discriminate].
Qed.

(** ** Hexadecimal *)

Lemma free_of_eqb (c : ascii) (s : string) :
  free_of c s <-> forallb (fun c' => negb (Ascii.eqb c' c)) (list_ascii_of_string s) = true.
Proof.
  induction s as [|c' s IH]; simpl; [tauto|].
  rewrite andb_true_iff, negb_true_iff, Ascii.eqb_neq, IH. tauto.
Qed.

Lemma hex_byte (a : ascii) :
  ascii_of_N (hex_pair (hex_digit (N_of_ascii a / 16))
                (Some (hex_digit (N_of_ascii a mod 16)))) = a.
Proof. destruct a as [[] [] [] [] [] [] [] []]; reflexivity. Qed.

Lemma hex_digits_not_colon (a : ascii) :
  hex_digit (N_of_ascii a / 16) <> ":"%char /\ hex_digit (N_of_ascii a mod 16) <> ":"%char.
Proof.
  rewrite <- !Ascii.eqb_neq.
  destruct a as [[] [] [] [] [] [] [] []]; split; reflexivity.
Qed.

Lemma hex_decode_encode (l : list ascii) : hex_decode (hex_encode l) = l.
Proof.
  induction l as [|a l IH]; [reflexivity|].
  cbn [hex_encode hex_decode]. rewrite hex_byte, IH. reflexivity.
Qed.

Lemma hex_encode_free (l : list ascii) : free_of ":" (hex_encode l).
Proof.
  induction l as [|a l IH]; [exact I|].
  destruct (hex_digits_not_colon a) as [Hhi Hlo]. cbn [hex_encode free_of]. auto.
Qed.

Lemma hex_encode_nonempty (l : list ascii) : l <> [] -> hex_encode l <> "".
Proof. destruct l; [congruence|discriminate]. Qed.

(** ** Base64 *)

Lemma base64_value_char (v : Z) : base64_value (base64_char v) = v mod 64.
Proof.
  unfold base64_char. pose proof (Z.mod_pos_bound v 64 ltac:(lia)) as Hv.
  rewrite <- (Z2Nat.id (v mod 64)) at 2 by lia.
  assert (Hn : (Z.to_nat (v mod 64) < 64)%nat) by lia.
  generalize dependent (Z.to_nat (v mod 64)). intros n Hn.
  do 64 (destruct n as [|n]; [reflexivity|]). lia.
Qed.

Lemma base64_char_plain (v : Z) :
  Ascii.eqb (base64_char v) "=" = false /\ Ascii.eqb (base64_char v) ":" = false.
Proof.
  unfold base64_char. pose proof (Z.mod_pos_bound v 64 ltac:(lia)) as Hv.
  assert (Hn : (Z.to_nat (v mod 64) < 64)%nat) by lia.
  generalize dependent (Z.to_nat (v mod 64)). intros n Hn.
  do 64 (destruct n as [|n]; [split; reflexivity|]). lia.
Qed.

Lemma base64_group_full (a b c : ascii) :
  let n := base64_group a b c in
  let n' := (((n / 2 ^ 18) mod 64 * 64 + (n / 2 ^ 12) mod 64) * 64 + (n / 2 ^ 6) mod 64) * 64
            + n mod 64 in
  byte_of_Z (n' / 2 ^ 16) = a /\ byte_of_Z (n' / 2 ^ 8) = b /\ byte_of_Z n' = c.
Proof.
  intros n n'. subst n n'. unfold base64_group.
  pose proof (Z_of_byte_range a). pose proof (Z_of_byte_range b).
  pose proof (Z_of_byte_range c).
  change (2 ^ 18) with 262144. change (2 ^ 16) with 65536. change (2 ^ 12) with 4096.
  change (2 ^ 8) with 256. change (2 ^ 6) with 64.
  repeat split; apply byte_of_Z_eq; Z.div_mod_to_equations; lia.
Qed.

Lemma base64_group_two (a b : ascii) :
  let n := base64_group a b zero in
  let n' := (((n / 2 ^ 18) mod 64 * 64 + (n / 2 ^ 12) mod 64) * 64 + (n / 2 ^ 6) mod 64) * 64 in
  byte_of_Z (n' / 2 ^ 16) = a /\ byte_of_Z (n' / 2 ^ 8) = b.
Proof.
  intros n n'. subst n n'. unfold base64_group. change (Z_of_byte zero) with 0.
  pose proof (Z_of_byte_range a). pose proof (Z_of_byte_range b).
  change (2 ^ 18) with 262144. change (2 ^ 16) with 65536. change (2 ^ 12) with 4096.
  change (2 ^ 8) with 256. change (2 ^ 6) with 64.
  repeat split; apply byte_of_Z_eq; Z.div_mod_to_equations; lia.
Qed.

Lemma base64_group_one (a : ascii) :
  let n := base64_group a zero zero in
  let n' := (((n / 2 ^ 18) mod 64 * 64 + (n / 2 ^ 12) mod 64) * 64) * 64 in
  byte_of_Z (n' / 2 ^ 16) = a.
Proof.
  intros n n'. subst n n'. unfold base64_group. change (Z_of_byte zero) with 0.
  pose proof (Z_of_byte_range a).
  change (2 ^ 18) with 262144. change (2 ^ 16) with 65536. change (2 ^ 12) with 4096.
  apply byte_of_Z_eq; Z.div_mod_to_equations; lia.
Qed.

Lemma list_ind3 {A} (P : list A -> Prop) :
  P [] -> (forall a, P [a]) -> (forall a b, P [a; b]) ->
  (forall a b c l, P l -> P (a :: b :: c :: l)) ->
  forall l, P l.
Proof.
  intros H0 H1 H2 H3.
  assert (Hall : forall l, P l /\ (forall a, P (a :: l)) /\ (forall a b, P (a :: b :: l))).
  { induction l as [|x l (IH0 & IH1 & IH2)]; auto. }
  intros l. apply Hall.
Qed.

Lemma base64_decode_encode (l : list ascii) : base64_decode (base64_encode l) = l.
Proof.
  unfold base64_decode.
  induction l as [|a|a b|a b c l IH] using list_ind3.
  - reflexivity.
  - cbn [base64_encode base64_values].
    rewrite !(proj1 (base64_char_plain _)). cbn [base64_values Ascii.eqb Bool.eqb].
    cbn [base64_bytes]. rewrite !base64_value_char. f_equal. apply base64_group_one.
  - cbn [base64_encode base64_values].
    rewrite !(proj1 (base64_char_plain _)). cbn [base64_values Ascii.eqb Bool.eqb].
    cbn [base64_bytes]. rewrite !base64_value_char.
    destruct (base64_group_two a b) as [Ha Hb].
    f_equal; [exact Ha|]. f_equal. exact Hb.
  - cbn [base64_encode base64_values].
    rewrite !(proj1 (base64_char_plain _)).
    cbn [base64_bytes]. rewrite !base64_value_char, IH.
    destruct (base64_group_full a b c) as (Ha & Hb & Hc).
    f_equal; [exact Ha|]. f_equal; [exact Hb|]. f_equal. exact Hc.
Qed.

Lemma base64_encode_free (l : list ascii) : free_of ":" (base64_encode l).
Proof.
  induction l as [|a|a b|a b c l IH] using list_ind3; cbn [base64_encode free_of];
    repeat split; try exact IH; try discriminate;
    apply Ascii.eqb_neq, base64_char_plain.
Qed.

Lemma base64_encode_nonempty (l : list ascii) : l <> [] -> base64_encode l <> "".
Proof. destruct l as [|a [|b [|c l]]]; [congruence|discriminate..]. Qed.

(** ** Blocks, padding and the mode *)

Lemma chunk_unchunk (blocks : list AES.Block) : chunk (unchunk blocks) = blocks.
Proof.
  induction blocks as [|s blocks IH]; [reflexivity|].
  destruct s as [[[[[[a0 a1] a2] a3] [[[b0 b1] b2] b3]] [[[c0 c1] c2] c3]] [[[d0 d1] d2] d3]].
  cbn [unchunk flat_map bytes_of_block app chunk]. fold (unchunk blocks).
  rewrite IH. reflexivity.
Qed.

Lemma unchunk_chunk (n : nat) (l : list ascii) :
  length l = (16 * n)%nat -> unchunk (chunk l) = l /\ length (chunk l) = n.
Proof.
  revert l. induction n as [|n IH]; intros l Hl.
  - destruct l; [split; reflexivity|discriminate].
  - do 16 (destruct l as [|? l]; [simpl in Hl; lia|]).
    cbn [chunk unchunk flat_map bytes_of_block app length]. fold (unchunk (chunk l)).
    destruct (IH l) as [Hu Hc]; [simpl in Hl; lia|]. rewrite Hu, Hc. split; reflexivity.
Qed.

Lemma length_unchunk (blocks : list AES.Block) :
  length (unchunk blocks) = (16 * length blocks)%nat.
Proof.
  induction blocks as [|s blocks IH]; [reflexivity|].
  destruct s as [[[[[[a0 a1] a2] a3] [[[b0 b1] b2] b3]] [[[c0 c1] c2] c3]] [[[d0 d1] d2] d3]].
  cbn [unchunk flat_map bytes_of_block app length]. fold (unchunk blocks). lia.
Qed.

Lemma pkcs7_pad_length (l : list ascii) :
  length (pkcs7_pad l) = (16 * (length l / 16 + 1))%nat.
Proof.
  unfold pkcs7_pad. rewrite length_app, repeat_length.
  pose proof (Nat.div_mod_eq (length l) 16).
  pose proof (Nat.mod_upper_bound (length l) 16). lia.
Qed.

Lemma pkcs7_pad_last (l : list ascii) :
  Z_of_byte (List.last (pkcs7_pad l) zero) = Z.of_nat (length (pkcs7_pad l)) - Z.of_nat (length l).
Proof.
  unfold pkcs7_pad. rewrite length_app, repeat_length.
  pose proof (Nat.mod_upper_bound (length l) 16 ltac:(lia)) as Hm.
  set (n := (16 - length l mod 16)%nat). assert (Hn : (1 <= n <= 16)%nat) by lia.
  destruct n as [|n]; [lia|].
  replace (repeat (ascii_of_nat (S n)) (S n))
    with (repeat (ascii_of_nat (S n)) n ++ [ascii_of_nat (S n)])
    by (rewrite <- repeat_cons; reflexivity).
  rewrite app_assoc, last_last. unfold Z_of_byte, ascii_of_nat.
  rewrite N_ascii_embedding by lia. lia.
Qed.

Lemma pkcs7_pad_take (l : list ascii) : take (length l) (pkcs7_pad l) = l.
Proof. unfold pkcs7_pad. rewrite take_app_length. reflexivity. Qed.

Section Mode.

Variables encryptBlock decryptBlock : AES.Block -> AES.Block.
Hypothesis decrypt_encrypt : forall s, decryptBlock (encryptBlock s) = s.

Lemma cbc_decrypt_encrypt (prev : AES.Block) (plain : list AES.Block) :
  cbc_decrypt decryptBlock prev (cbc_encrypt encryptBlock prev plain) = plain.
Proof.
  revert prev. induction plain as [|p plain IH]; intros prev; [reflexivity|].
  cbn [cbc_encrypt cbc_decrypt]. rewrite decrypt_encrypt, AESSpec.xor_block_cancel, IH.
  reflexivity.
Qed.

Lemma length_cbc_encrypt (prev : AES.Block) (plain : list AES.Block) :
  length (cbc_encrypt encryptBlock prev plain) = length plain.
Proof.
  revert prev. induction plain as [|p plain IH]; intros prev; [reflexivity|].
  cbn [cbc_encrypt length]. rewrite IH. reflexivity.
Qed.

End Mode.

(** ** The laws *)

Lemma aes_encrypt_Ok (data : string) (key : WordArray) (cfg : CipherCfg) (ciphertext : string) :
  aes_encrypt data key cfg = Ok ciphertext ->
  JSText.well_formed data = true /\
  ciphertext =
    base64_encode
      (unchunk
         (cbc_encrypt (AES.encryptBlock (key_columns key)) (iv_block (iv cfg))
            (chunk (pkcs7_pad (list_ascii_of_string data))))).
Proof.
  unfold aes_encrypt. destruct (JSText.well_formed data); [|discriminate].
  intros H. injection H as <-. split; reflexivity.
Qed.

Lemma aes_encrypt_nonempty (data : string) (key : WordArray) (cfg : CipherCfg)
    (ciphertext : string) :
  aes_encrypt data key cfg = Ok ciphertext ->
  ciphertext <> "" /\ free_of ":" ciphertext.
Proof.
  intros Henc. apply aes_encrypt_Ok in Henc as [_ ->].
  split; [|apply base64_encode_free].
  apply base64_encode_nonempty. intros Hnil.
  apply (f_equal (@length ascii)) in Hnil.
  rewrite length_unchunk, length_cbc_encrypt in Hnil.
  destruct (unchunk_chunk _ _ (pkcs7_pad_length (list_ascii_of_string data))) as [_ Hlen].
  rewrite Hlen in Hnil. simpl in Hnil. lia.
Qed.

Lemma length_list_ascii_of_string (s : string) :
  length (list_ascii_of_string s) = String.length s.
Proof. induction s as [|c s IH]; simpl; congruence. Qed.

Lemma aes_decrypt_aes_encrypt (data : string) (key : WordArray) (cfg : CipherCfg)
    (ciphertext : string) :
  aes_encrypt data key cfg = Ok ciphertext ->
  salted (words_of_bytes (base64_decode ciphertext)) = false ->
  data <> "" ->
  exists w, aes_decrypt ciphertext key cfg = Ok w /\
            words w <> [] /\ 0 < sigBytes w /\
            utf8_stringify w = Ok data.
Proof.
  intros Henc Hsalted Hd. apply aes_encrypt_Ok in Henc as [Hwf ->].
  unfold aes_decrypt. rewrite Hsalted.
  set (bytes := list_ascii_of_string data).
  rewrite base64_decode_encode, chunk_unchunk.
  rewrite (cbc_decrypt_encrypt _ _ (AESSpec.decryptBlock_encryptBlock (key_columns key))).
  destruct (unchunk_chunk _ _ (pkcs7_pad_length bytes)) as [Hplain _]. rewrite Hplain.
  eexists. split; [reflexivity|].
  assert (Hlen : (0 < length bytes)%nat).
  { subst bytes. destruct data; [congruence|simpl; lia]. }
  cbn [words sigBytes]. rewrite pkcs7_pad_last.
  replace (Z.of_nat (length (pkcs7_pad bytes))
           - (Z.of_nat (length (pkcs7_pad bytes)) - Z.of_nat (length bytes)))
    with (Z.of_nat (length bytes)) by lia.
  split; [|split; [lia|]].
  - pose proof (pkcs7_pad_length bytes) as Hpad.
    destruct (pkcs7_pad bytes) as [|a [|b [|c [|d l]]]]; simpl in Hpad; try lia.
    discriminate.
  - unfold utf8_stringify, WordArray_bytes. cbn [words sigBytes]. rewrite Nat2Z.id.
    rewrite (bytes_of_words_of_bytes (4 * (length bytes / 16 + 1)))
      by (rewrite pkcs7_pad_length; lia).
    rewrite pkcs7_pad_take. subst bytes. rewrite string_of_list_ascii_of_string, Hwf.
    reflexivity.
Qed.

Lemma lib_laws : CryptoJSLaws Reference.lib.
Proof.
  constructor; unfold OpenSSL_salted;
    cbn [PBKDF2 AES_encrypt AES_decrypt Hex_stringify Hex_parse
         Base64_stringify Base64_parse Utf8_stringify Reference.lib].
  - intros password salt keySize iterations Hwf. unfold pbkdf2. rewrite Hwf.
    eexists. split; reflexivity.
  - intros w Hw. rewrite hex_decode_encode. apply WordArray_of_bytes_bytes, Hw.
  - intros w. apply hex_encode_free.
  - intros w Hw Hsig. apply hex_encode_nonempty, WordArray_bytes_nonempty; assumption.
  - intros w Hw. rewrite base64_decode_encode. apply WordArray_of_bytes_bytes, Hw.
  - intros w Hw Hsig. apply base64_encode_nonempty, WordArray_bytes_nonempty; assumption.
  - intros data key cfg Hwf. unfold aes_encrypt. rewrite Hwf. eexists. reflexivity.
  - apply aes_encrypt_nonempty.
  - intros data key cfg ciphertext Henc Hsalted Hd.
    apply (aes_decrypt_aes_encrypt data key cfg ciphertext Henc Hsalted Hd).
Qed.

(** *** JSON texts: an array of entries is read back as it was written *)

Lemma escape_cons (c : ascii) (s : string) :
  escape (String c s) = escape (String c "") +:+ escape s.
Proof.
  cbn [escape].
  repeat match goal with |- context [if ?b then _ else _] => destruct b end; reflexivity.
Qed.

Lemma append_String (a : ascii) (x y : string) : String a x +:+ y = String a (x +:+ y).
Proof. reflexivity. Qed.

Lemma append_empty (y : string) : "" +:+ y = y.
Proof. reflexivity. Qed.

Lemma append_assoc (x y z : string) : (x +:+ y) +:+ z = x +:+ (y +:+ z).
Proof.
  induction x as [|a x IH]; [reflexivity|]. rewrite !append_String, IH. reflexivity.
Qed.

Lemma code_unit_control (c : ascii) :
  JSText.between 0 31 c = true ->
  code_unit "0" "0" (hex_digit (N_of_ascii c / 16)) (hex_digit (N_of_ascii c mod 16))
    = Some (N_of_ascii c) /\
  ((55296 <=? N_of_ascii c) && (N_of_ascii c <=? 56319))%N = false /\
  utf8_bytes (N_of_ascii c) = String c "".
Proof.
  destruct c as [[] [] [] [] [] [] [] []]; intros H;
    first [discriminate H | repeat split; reflexivity].
Qed.

Lemma parse_chars_plain (c : ascii) (text : string) :
  Ascii.eqb c quote = false -> Ascii.eqb c backslash = false ->
  JSText.between 0 31 c = false ->
  parse_chars (String c text) =
    match parse_chars text with
    | Some (s, rest) => Some (String c s, rest)
    | None => None
    end.
Proof. intros H1 H2 H3. cbn [parse_chars]. rewrite H1, H2, H3. reflexivity. Qed.

Lemma parse_chars_unicode (h1 h2 h3 h4 : ascii) (high : N) (text : string) :
  code_unit h1 h2 h3 h4 = Some high ->
  ((55296 <=? high) && (high <=? 56319))%N = false ->
  parse_chars (String backslash (String "u" (String h1 (String h2 (String h3 (String h4 text))))))
  = match parse_chars text with
    | Some (s, rest) => Some (utf8_bytes high +:+ s, rest)
    | None => None
    end.
Proof.
  intros Hcode Hrange. cbn [parse_chars].
  change (Ascii.eqb backslash quote) with false.
  change (Ascii.eqb backslash backslash) with true.
  change (Ascii.eqb "u" quote) with false.
  change (Ascii.eqb "u" backslash) with false.
  change (Ascii.eqb "u" "/") with false.
  change (Ascii.eqb "u" "b") with false.
  change (Ascii.eqb "u" "f") with false.
  change (Ascii.eqb "u" "n") with false.
  change (Ascii.eqb "u" "r") with false.
  change (Ascii.eqb "u" "t") with false.
  change (Ascii.eqb "u" "u") with true.
  cbv iota. rewrite Hcode, Hrange. reflexivity.
Qed.

Lemma parse_chars_escaped (c : ascii) (text : string) :
  parse_chars (escape (String c "") +:+ text) =
    match parse_chars text with
    | Some (s, rest) => Some (String c s, rest)
    | None => None
    end.
Proof.
  cbn [escape].
  destruct (Ascii.eqb c quote) eqn:H1; [apply Ascii.eqb_eq in H1; subst c; reflexivity|].
  destruct (Ascii.eqb c backslash) eqn:H2; [apply Ascii.eqb_eq in H2; subst c; reflexivity|].
  destruct (Ascii.eqb c "008") eqn:H3; [apply Ascii.eqb_eq in H3; subst c; reflexivity|].
  destruct (Ascii.eqb c "012") eqn:H4; [apply Ascii.eqb_eq in H4; subst c; reflexivity|].
  destruct (Ascii.eqb c "010") eqn:H5; [apply Ascii.eqb_eq in H5; subst c; reflexivity|].
  destruct (Ascii.eqb c "013") eqn:H6; [apply Ascii.eqb_eq in H6; subst c; reflexivity|].
  destruct (Ascii.eqb c "009") eqn:H7; [apply Ascii.eqb_eq in H7; subst c; reflexivity|].
  destruct (JSText.between 0 31 c) eqn:H8.
  - destruct (code_unit_control c H8) as (Hcode & Hrange & Hbytes).
    rewrite !append_String, append_empty.
    rewrite (parse_chars_unicode _ _ _ _ _ _ Hcode Hrange), Hbytes.
    destruct (parse_chars text) as [[s rest]|]; reflexivity.
  - rewrite append_String, append_empty. apply parse_chars_plain; assumption.
Qed.

Lemma parse_chars_escape (s rest : string) :
  parse_chars (escape s +:+ String quote rest) = Some (s, rest).
Proof.
  induction s as [|c s IH]; [reflexivity|].
  rewrite escape_cons, append_assoc, parse_chars_escaped, IH. reflexivity.
Qed.

(** *** The decimal digits of a number *)


Lemma all_digits_append (a b : string) :
  all_digits (a +:+ b) = all_digits a && all_digits b.
Proof.
  induction a as [|c a IH]; [reflexivity|].
  rewrite append_String. cbn [all_digits]. rewrite IH, andb_assoc. reflexivity.
Qed.

Lemma digits_value_append (acc : N) (a b : string) :
  digits_value acc (a +:+ b) = digits_value (digits_value acc a) b.
Proof.
  revert acc. induction a as [|c a IH]; intros acc; [reflexivity|].
  rewrite append_String. cbn [digits_value]. apply IH.
Qed.

Lemma pretty_N_char_digit (d : N) :
  (d < 10)%N ->
  is_digit (pretty_N_char d) = true /\ (N_of_ascii (pretty_N_char d) - 48 = d)%N.
Proof.
  intros Hd.
  assert (d = 0 \/ d = 1 \/ d = 2 \/ d = 3 \/ d = 4 \/ d = 5 \/ d = 6 \/ d = 7
          \/ d = 8 \/ d = 9)%N as Hcases by lia.
  repeat (destruct Hcases as [->|Hcases]; [split; reflexivity|]).
  subst d. split; reflexivity.
Qed.

Lemma pretty_N_go_append (x : N) (s : string) :
  pretty_N_go x s = pretty_N_go x "" +:+ s.
Proof.
  revert s. induction (N.lt_wf_0 x) as [x _ IH]. intros s.
  destruct (N.eq_dec x 0%N) as [->|Hx]; [reflexivity|].
  rewrite (pretty_N_go_step x s), (pretty_N_go_step x "") by lia.
  assert (x / 10 < x)%N as Hlt by (apply N.div_lt; lia).
  rewrite (IH _ Hlt (String _ s)), (IH _ Hlt (String _ "")).
  rewrite append_assoc. reflexivity.
Qed.

Lemma pretty_N_go_digits (x : N) :
  all_digits (pretty_N_go x "") = true /\ digits_value 0 (pretty_N_go x "") = x.
Proof.
  induction (N.lt_wf_0 x) as [x _ IH].
  destruct (N.eq_dec x 0%N) as [->|Hx]; [split; reflexivity|].
  rewrite (pretty_N_go_step x "") by lia. rewrite pretty_N_go_append.
  destruct (IH (x / 10)%N) as [Hall Hvalue]; [apply N.div_lt; lia|].
  destruct (pretty_N_char_digit (x mod 10)) as [Hdigit Hchar];
    [apply N.mod_lt; lia|].
  split.
  - rewrite all_digits_append, Hall. cbn [all_digits]. rewrite Hdigit. reflexivity.
  - rewrite digits_value_append, Hvalue. cbn [digits_value]. rewrite Hchar.
    pose proof (N.div_mod x 10). lia.
Qed.

Lemma pretty_N_digits (n : N) :
  all_digits (pretty n) = true /\ digits_value 0 (pretty n) = n /\ pretty n <> "".
Proof.
  assert (all_digits (pretty n) = true /\ digits_value 0 (pretty n) = n) as [Hall Hvalue].
  { unfold pretty, pretty_N. destruct (decide (n = 0%N)) as [->|Hn].
    - split; reflexivity.
    - apply pretty_N_go_digits. }
  split; [exact Hall|]. split; [exact Hvalue|].
  intros Hempty. rewrite Hempty in Hvalue. cbn in Hvalue. subst n. discriminate Hempty.
Qed.

(** A character that is no digit ends the digits. *)
Lemma digits_append (ds rest : string) (c : ascii) :
  all_digits ds = true -> is_digit c = false ->
  digits (ds +:+ String c rest) = (ds, String c rest).
Proof.
  intros Hall Hc. induction ds as [|d ds IH].
  - rewrite append_empty. cbn [digits]. rewrite Hc. reflexivity.
  - cbn [all_digits] in Hall. apply andb_true_iff in Hall as [Hd Hall].
    rewrite append_String. cbn [digits]. rewrite Hd, (IH Hall). reflexivity.
Qed.

Lemma digit_is_no (c d : ascii) :
  is_digit c = true -> is_digit d = false -> Ascii.eqb c d = false.
Proof.
  intros Hc Hd. destruct (Ascii.eqb_spec c d) as [->|_]; [congruence|reflexivity].
Qed.

Lemma parse_number_unsigned (n : N) (rest : string) :
  parse_number (pretty n +:+ String "}" rest) = Some (Integer (Z.of_N n), String "}" rest).
Proof.
  destruct (pretty_N_digits n) as (Hall & Hvalue & Hnonempty).
  unfold parse_number.
  destruct (pretty n) as [|c ds] eqn:Hpretty; [contradiction|].
  rewrite append_String.
  assert (Ascii.eqb c "-" = false) as ->.
  { apply digit_is_no; [|reflexivity]. cbn [all_digits] in Hall.
    apply andb_true_iff in Hall. apply Hall. }
  rewrite <- append_String, (digits_append _ _ _ Hall) by reflexivity.
  rewrite Hvalue, Hpretty, String.eqb_refl. reflexivity.
Qed.

Lemma parse_number_negative (n : N) (rest : string) :
  parse_number (String "-" (pretty n +:+ String "}" rest))
  = Some (Integer (- Z.of_N n), String "}" rest).
Proof.
  destruct (pretty_N_digits n) as (Hall & Hvalue & Hnonempty).
  unfold parse_number.
  change (Ascii.eqb "-" "-") with true. cbv iota.
  rewrite (digits_append _ _ _ Hall) by reflexivity.
  rewrite Hvalue, String.eqb_refl. reflexivity.
Qed.

Lemma parse_number_pretty (z : Z) (rest : string) :
  parse_number (pretty z +:+ String "}" rest) = Some (Integer z, String "}" rest).
Proof.
  destruct z as [|p|p].
  - reflexivity.
  - apply (parse_number_unsigned (N.pos p)).
  - apply (parse_number_negative (N.pos p)).
Qed.

(** *** Values *)

Lemma parse_value_number (fuel : nat) (c : ascii) (rest : string) :
  Ascii.eqb c "-" || is_digit c = true ->
  parse_value (S fuel) (String c rest)
  = match parse_number (String c rest) with
    | Some (n, rest') => Some (JNumber n, rest')
    | None => None
    end.
Proof.
  intros Hc.
  assert (forall d, Ascii.eqb d "-" || is_digit d = false -> Ascii.eqb c d = false) as Hno.
  { intros d Hd. destruct (Ascii.eqb_spec c d) as [->|_]; [congruence|reflexivity]. }
  cbn [parse_value skip_space]. unfold is_space.
  rewrite !Hno by reflexivity. cbn [orb].
  unfold quote. rewrite !Hno by reflexivity. rewrite Hc. reflexivity.
Qed.

Lemma parse_value_pretty (fuel : nat) (z : Z) (rest : string) :
  parse_value (S fuel) (pretty z +:+ String "}" rest)
  = Some (JNumber (Integer z), String "}" rest).
Proof.
  pose proof (parse_number_pretty z rest) as Hnumber.
  destruct (pretty z +:+ String "}" rest) as [|c text] eqn:Htext; [discriminate Hnumber|].
  rewrite parse_value_number, Hnumber; [reflexivity|].
  destruct z as [|p|p].
  - injection Htext as <- _. reflexivity.
  - destruct (pretty_N_digits (N.pos p)) as (Hall & _ & Hnonempty).
    change (pretty (Z.pos p)) with (pretty (N.pos p)) in Htext.
    destruct (pretty (N.pos p)) as [|d ds]; [contradiction|].
    rewrite append_String in Htext. injection Htext as <- _.
    cbn [all_digits] in Hall. apply andb_true_iff in Hall as [-> _].
    apply orb_true_r.
  - injection Htext as <- _. reflexivity.
Qed.

Ltac flatten_append :=
  unfold quoted;
  repeat (rewrite append_String || rewrite append_empty || rewrite append_assoc).

Lemma parse_value_string (fuel : nat) (s rest : string) :
  parse_value (S fuel) (String quote (escape s +:+ String quote rest))
  = Some (JString s, rest).
Proof.
  cbn [parse_value skip_space]. change (is_space quote) with false. cbv iota.
  change (Ascii.eqb quote "[") with false.
  change (Ascii.eqb quote "{") with false.
  change (Ascii.eqb quote quote) with true. cbv iota.
  rewrite parse_chars_escape. reflexivity.
Qed.

Lemma parse_value_object (fuel : nat) (text : string) :
  parse_value (S fuel) (String "{" (String quote text))
  = match parse_members fuel [] (String quote text) with
    | Some (fields, rest) => Some (JObject fields, rest)
    | None => None
    end.
Proof. reflexivity. Qed.

Lemma parse_members_equation (fuel : nat) (fields : list (string * JSONValue))
    (key text : string) :
  parse_members (S fuel) fields (String quote (escape key +:+ String quote (String ":" text)))
  = match parse_value fuel text with
    | Some (value, rest3) =>
        let fields' := set_field key value fields in
        match skip_space rest3 with
        | String c rest4 =>
            if Ascii.eqb c "," then parse_members fuel fields' rest4
            else if Ascii.eqb c "}" then Some (fields', rest4)
            else None
        | EmptyString => None
        end
    | None => None
    end.
Proof.
  cbn [parse_members skip_space]. change (is_space quote) with false. cbv iota.
  change (Ascii.eqb quote quote) with true. cbv iota.
  rewrite parse_chars_escape. reflexivity.
Qed.

(** *** Entries *)

Lemma json_stringify_toJSON (m : StoredNoteMetadata.t) (rest : string) :
  json_stringify (StoredNoteMetadata.toJSON m) +:+ rest
  = String "{" (String quote (escape "id" +:+ String quote (String ":"
      (String quote (escape (StoredNoteMetadata.id m) +:+ String quote (String ","
         (String quote (escape "timestamp" +:+ String quote (String ":"
            (pretty (StoredNoteMetadata.timestamp m) +:+ String "}" rest)))))))))).
Proof.
  unfold StoredNoteMetadata.toJSON.
  cbn [json_stringify map String.concat fst snd].
  flatten_append. reflexivity.
Qed.

Lemma parse_value_toJSON (fuel : nat) (m : StoredNoteMetadata.t) (rest : string) :
  parse_value (4 + fuel) (json_stringify (StoredNoteMetadata.toJSON m) +:+ rest)
  = Some (StoredNoteMetadata.toJSON m, rest).
Proof.
  rewrite json_stringify_toJSON.
  change (4 + fuel)%nat with (S (S (S (S fuel)))).
  rewrite parse_value_object, parse_members_equation, parse_value_string.
  change (skip_space (String "," ?x)) with (String "," x).
  cbv zeta iota. change (Ascii.eqb "," ",") with true. cbv iota.
  rewrite parse_members_equation, parse_value_pretty.
  reflexivity.
Qed.


Lemma elements_cons (m m' : StoredNoteMetadata.t) (metadata : list StoredNoteMetadata.t) :
  elements (m :: m' :: metadata)
  = json_stringify (StoredNoteMetadata.toJSON m) +:+ String "," (elements (m' :: metadata)).
Proof. reflexivity. Qed.

Lemma parse_elements_entries (metadata : list StoredNoteMetadata.t) :
  forall (m : StoredNoteMetadata.t) (fuel : nat) (rest : string),
    parse_elements (length metadata + 5 + fuel) (elements (m :: metadata) +:+ String "]" rest)
    = Some (map StoredNoteMetadata.toJSON (m :: metadata), rest).
Proof.
  induction metadata as [|m' metadata IH]; intros m fuel rest.
  - change (elements [m]) with (json_stringify (StoredNoteMetadata.toJSON m)).
    change (length [] + 5 + fuel)%nat with (S (4 + fuel)).
    cbn [parse_elements]. rewrite parse_value_toJSON. reflexivity.
  - rewrite elements_cons, append_assoc, append_String.
    change (length (m' :: metadata) + 5 + fuel)%nat
      with (S (length metadata + 5 + fuel)).
    cbn [parse_elements].
    replace (length metadata + 5 + fuel)%nat with (4 + (length metadata + 1 + fuel))%nat
      by lia.
    rewrite parse_value_toJSON.
    change (skip_space (String "," ?x)) with (String "," x).
    cbv iota. change (Ascii.eqb "," ",") with true. cbv iota.
    replace (4 + (length metadata + 1 + fuel))%nat with (length metadata + 5 + fuel)%nat
      by lia.
    rewrite IH. reflexivity.
Qed.

Lemma length_append (a b : string) :
  String.length (a +:+ b) = (String.length a + String.length b)%nat.
Proof.
  induction a as [|c a IH]; [reflexivity|].
  rewrite append_String. cbn [String.length]. rewrite IH. reflexivity.
Qed.

Lemma append_empty_r (s : string) : s +:+ "" = s.
Proof. induction s as [|c s IH]; [reflexivity|]. rewrite append_String, IH. reflexivity. Qed.

Lemma length_json_stringify_toJSON (m : StoredNoteMetadata.t) :
  (5 <= String.length (json_stringify (StoredNoteMetadata.toJSON m)))%nat.
Proof.
  rewrite <- (append_empty_r (json_stringify _)).
  rewrite json_stringify_toJSON. cbn [String.length].
  rewrite length_append. cbn [String.length]. lia.
Qed.

Lemma length_elements (m : StoredNoteMetadata.t) (metadata : list StoredNoteMetadata.t) :
  (length metadata + 5 <= String.length (elements (m :: metadata)))%nat.
Proof.
  revert m. induction metadata as [|m' metadata IH]; intros m.
  - apply length_json_stringify_toJSON.
  - rewrite elements_cons, length_append. cbn [String.length length].
    specialize (IH m'). lia.
Qed.

Lemma elements_head (m : StoredNoteMetadata.t) (metadata : list StoredNoteMetadata.t)
    (rest : string) :
  exists text, elements (m :: metadata) +:+ rest = String "{" text.
Proof.
  destruct metadata as [|m' metadata].
  - change (elements [m]) with (json_stringify (StoredNoteMetadata.toJSON m)).
    rewrite json_stringify_toJSON. eexists. reflexivity.
  - rewrite elements_cons, append_assoc, json_stringify_toJSON. eexists. reflexivity.
Qed.

Lemma parse_value_array (fuel : nat) (text : string) :
  parse_value (S fuel) (String "[" (String "{" text))
  = match parse_elements fuel (String "{" text) with
    | Some (items, rest) => Some (JArray items, rest)
    | None => None
    end.
Proof. reflexivity. Qed.

Lemma json_parse_stringify (metadata : list StoredNoteMetadata.t) :
  json_parse (json_stringify (entries metadata)) = Ok (entries metadata).
Proof.
  destruct metadata as [|m metadata]; [reflexivity|].
  unfold entries, json_parse.
  change (json_stringify (JArray (map StoredNoteMetadata.toJSON (m :: metadata))))
    with (String "[" (elements (m :: metadata) +:+ String "]" "")).
  cbn [String.length]. rewrite length_append. cbn [String.length].
  pose proof (length_elements m metadata) as Hlength.
  set (size := String.length (elements (m :: metadata))) in *.
  replace (S (size + 1)) with (length metadata + 5 + (size - length metadata - 3))%nat
    by lia.
  pose proof (parse_elements_entries metadata m (size - length metadata - 3) "") as Hparse.
  destruct (elements_head m metadata (String "]" "")) as [text Htext].
  rewrite Htext in Hparse |- *.
  rewrite parse_value_array, Hparse. reflexivity.
Qed.

Lemma json_laws : JSONLaws Reference.json.
Proof.
  constructor.
  - apply json_parse_stringify.
  - reflexivity.
Qed.

End ReferenceSpec.

(** * The program on the reference implementation

    Runs of the program with the reference libraries: the inputs on which
    the claims of the specification fail as they are written, and instances
    of the theorems above. *)

Module Scenarios.

Import Crypto NoteStorage Inputs.

#[local] Existing Instance Reference.lib.
#[local] Existing Instance Reference.json.
#[local] Existing Instance Reference.fileSystem.

(** ** Where the claims fail *)

(** C1 fails at the empty plaintext: [encryptData] throws, and no blob at
    all decrypts to the empty string.  It fails as well at a plaintext
    whose ciphertext starts with the bytes of ['Salted__']: the library
    leaves the first sixteen bytes of such a ciphertext out when it
    decrypts, and other text comes back. *)
Lemma roundtrip_fails_on_empty_plaintext :
  encryptData "" (Some sessionKey) (nonce 3)
    = Throw (Error "Encrypt data received invalid input.") /\
  (forall blob, decryptData blob (Some sessionKey) <> Ok (Some "")) /\
  encryptData saltedPlaintext (Some countingKey) (nonce 3) = Ok saltedBlob /\
  decryptData saltedBlob (Some countingKey) = Ok (Some "Cq|gut").
Proof.
  split; [reflexivity|]. split.
  - intros blob H. apply CryptoSpec.decryptData_Some in H as [Hne _]. congruence.
  - split; vm_compute; reflexivity.
Qed.

(** C5 fails at the empty plaintext: two calls with distinct nonces return
    no blob. *)
Lemma empty_plaintext_yields_no_blob :
  ExpoCrypto.getRandomBytes (nonce 3) IV_SIZE <> ExpoCrypto.getRandomBytes (nonce 4) IV_SIZE /\
  encryptData "" (Some sessionKey) (nonce 3)
    = Throw (Error "Encrypt data received invalid input.") /\
  encryptData "" (Some sessionKey) (nonce 4)
    = Throw (Error "Encrypt data received invalid input.").
Proof. split; [vm_compute; discriminate|split; reflexivity]. Qed.

(** C2 fails: a blob whose nonce has the wrong length (4 bytes) is not
    answered with [null] but with garbled plaintext; and the blob of
    ["Hello"] under one key is answered under another key with the text
    ["TkU"], the last byte of the block that AES returns being taken for
    the length of the padding. *)
Lemma decryptData_returns_garbled_plaintext :
  encryptData message (Some sessionKey) (nonce 3) = Ok messageBlob /\
  decryptData
    "00000003:p4ZnWPT1NGW5nRJWgB3/SpCYdRWBLCVdFWpzlV/mJXPUnOq3UnlflTfiXpUR4kjT"
    (Some sessionKey)
    = Ok (Some "Meet me4at Qhe Yld bridge at noon.") /\
  encryptData "Hello" (Some countingKey) (nonce 3) = Ok helloBlob /\
  decryptData helloBlob (Some countingKey) = Ok (Some "Hello") /\
  decryptData helloBlob (Some otherKey) = Ok (Some "TkU").
Proof. repeat split; vm_compute; reflexivity. Qed.

(** C3 fails: when the probe write fails the salt stays persisted with no
    probe, and [hasMasterPassword] answers [true]. *)
Lemma salt_persisted_without_probe :
  fst (setMasterPassword "Secret1" saltSource (nonce 3) (mkWorld ∅ [false; true]))
    = Throw (Error "Failed to secure internal test data for password verification.") /\
  data storeAfterFailedProbeWrite !! SECURE_STORE_SALT_KEY = Some "AAAAKgdbzT8Ot5pUFhNnaQ==" /\
  data storeAfterFailedProbeWrite !! TEST_DATA_KEY = None /\
  fst (hasMasterPassword storeAfterFailedProbeWrite) = Ok true /\
  fst (verifyMasterPassword "Secret1" storeAfterFailedProbeWrite) = Ok None.
Proof. repeat split; vm_compute; reflexivity. Qed.

(** C6 fails: [deriveKey] returns a key for the empty password, and for a
    salt of four bytes. *)
Lemma deriveKey_accepts_empty_password_and_short_salt :
  (exists key,
     deriveKey "" (generateSalt saltSource) = Ok key /\ sigBytes key = 32) /\
  (exists key,
     deriveKey "Secret1" (mkWordArray [1] 4) = Ok key /\ sigBytes key = 32).
Proof. split; eexists; split; reflexivity. Qed.

(** ** Instances of the theorems *)

Lemma roundtrip_of_message :
  exists blob,
    encryptData message (Some sessionKey) (nonce 3) = Ok blob /\
    blob = Hex_stringify (drawn_iv (nonce 3)) +:+ ":" +:+
           "p4ZnWPT1NGW5nRJWgB3/SpCYdRWBLCVdFWpzlV/mJXPUnOq3UnlflTfiXpUR4kjT" /\
    decryptData blob (Some sessionKey) = Ok (Some message).
Proof.
  destruct (CryptoSpec.decrypt_encrypt_roundtrip
              (L := Reference.lib) (HL := ReferenceSpec.lib_laws)
              message sessionKey (nonce 3) ltac:(discriminate) eq_refl)
    as (blob & ciphertext & Hblob & Hciphertext & Hlayout & Hdecrypt).
  vm_compute in Hciphertext. injection Hciphertext as <-.
  exists blob. split; [exact Hblob|]. split; [exact Hlayout|].
  apply Hdecrypt. vm_compute. reflexivity.
Defined.

Lemma two_blobs_of_message :
  exists blob1 blob2,
    encryptData message (Some sessionKey) (nonce 3) = Ok blob1 /\
    encryptData message (Some sessionKey) (nonce 4) = Ok blob2 /\
    blob1 <> blob2 /\
    decryptData blob1 (Some sessionKey) = Ok (Some message) /\
    decryptData blob2 (Some sessionKey) = Ok (Some message).
Proof.
  destruct (CryptoSpec.distinct_nonces_distinct_blobs_same_plaintext
              (L := Reference.lib) (HL := ReferenceSpec.lib_laws)
              message sessionKey (nonce 3) (nonce 4)
              ltac:(discriminate) eq_refl ltac:(vm_compute; discriminate))
    as (blob1 & blob2 & ciphertext1 & ciphertext2 & Hblob1 & Hblob2 & Hdistinct
        & Hciphertext1 & Hciphertext2 & Hdecrypt1 & Hdecrypt2).
  vm_compute in Hciphertext1. injection Hciphertext1 as <-.
  vm_compute in Hciphertext2. injection Hciphertext2 as <-.
  exists blob1, blob2. split; [exact Hblob1|]. split; [exact Hblob2|].
  split; [exact Hdistinct|].
  split; [apply Hdecrypt1|apply Hdecrypt2]; vm_compute; reflexivity.
Defined.

Lemma failed_writes_of_setMasterPassword :
  setMasterPassword "Secret1" saltSource (nonce 3) (mkWorld ∅ [true])
    = (Throw (Error "Failed to store critical encryption data."), mkWorld ∅ []) /\
  setMasterPassword "Secret1" saltSource (nonce 3) (mkWorld ∅ [false; true])
    = (Throw (Error "Failed to secure internal test data for password verification."),
       mkWorld (<[SECURE_STORE_SALT_KEY := Base64_stringify (generateSalt saltSource)]> ∅) []) /\
  setMasterPassword unpairedSurrogate saltSource (nonce 3) (mkWorld ∅ [false])
    = (Throw (Rejected "URIError"),
       mkWorld (<[SECURE_STORE_SALT_KEY := Base64_stringify (generateSalt saltSource)]> ∅) []).
Proof.
  split; [|split].
  - exact (proj1 (CryptoSpec.setMasterPassword_write_failure
                    (L := Reference.lib) (HL := ReferenceSpec.lib_laws)
                    "Secret1" saltSource (nonce 3) (mkWorld ∅ [true]) []
                    ltac:(discriminate)) eq_refl).
  - exact (proj1 (proj2 (CryptoSpec.setMasterPassword_write_failure
                           (L := Reference.lib) (HL := ReferenceSpec.lib_laws)
                           "Secret1" saltSource (nonce 3) (mkWorld ∅ [false; true]) []
                           ltac:(discriminate))) eq_refl eq_refl).
  - exact (proj2 (proj2 (CryptoSpec.setMasterPassword_write_failure
                           (L := Reference.lib) (HL := ReferenceSpec.lib_laws)
                           unpairedSurrogate saltSource (nonce 3) (mkWorld ∅ [false]) []
                           ltac:(discriminate))) (Rejected "URIError") eq_refl eq_refl).
Defined.


Lemma listing_of_disk :
  exists l fs',
    getAllNoteMetadata disk = (Ok l, fs') /\
    FileSystem.files (data fs') = FileSystem.files (data disk) /\
    l = map StoredNoteMetadata.toJSON [entry "n3" 3000; entry "n2" 2000; entry "n1" 1000].
Proof.
  destruct (NoteStorageSpec.getAllNoteMetadata_sorted_newest_first
              (E := Reference.fileSystem) (J := Reference.json)
              (HJ := ReferenceSpec.json_laws) disk eq_refl)
    as (l & fs' & Hlisting & Hfiles & _).
  exists l, fs'. split; [exact Hlisting|]. split; [exact Hfiles|].
  vm_compute in Hlisting. injection Hlisting as <- _. reflexivity.
Defined.

Lemma deleting_n1_from_a_null_index :
  exists fs',
    deleteNote "n1" diskWithNullIndex = (Throw (Error "Failed to delete note."), fs') /\
    FileSystem.files (data fs') !! METADATA_FILE = Some "null" /\
    FileSystem.files (data diskWithNullIndex) !! (NOTES_DIR +:+ "n1" +:+ ".encrypted")
      = Some messageBlob /\
    FileSystem.files (data fs') !! (NOTES_DIR +:+ "n1" +:+ ".encrypted") = None.
Proof.
  destruct (NoteStorageSpec.deleteNote_fails_on_an_index_that_is_no_array
              (E := Reference.fileSystem) (J := Reference.json)
              "n1" "null" JNull diskWithNullIndex
              eq_refl eq_refl eq_refl ltac:(intros items; discriminate))
    as (fs' & Hdelete & Hindex & Hblob & _).
  exists fs'. split; [exact Hdelete|]. split; [exact Hindex|].
  split; [reflexivity|exact Hblob].
Defined.

Lemma deleting_a_missing_note_from_a_null_index :
  exists fs',
    deleteNote "n9" diskWithNullIndex = (Throw (Error "Failed to delete note."), fs') /\
    FileSystem.files (data fs') = FileSystem.files (data diskWithNullIndex).
Proof.
  exact (NoteStorageSpec.deleteNote_of_a_missing_note_fails_on_an_index_that_is_no_array
           (E := Reference.fileSystem) (J := Reference.json)
           "n9" "null" JNull diskWithNullIndex
           eq_refl eq_refl eq_refl eq_refl ltac:(intros items; discriminate)).
Defined.

(** ** Runs *)

Example listing_is_newest_first :
  fst (getAllNoteMetadata disk)
  = Ok (map StoredNoteMetadata.toJSON [entry "n3" 3000; entry "n2" 2000; entry "n1" 1000]).
Proof. vm_compute. reflexivity. Qed.

Example listing_of_broken_index_is_empty :
  fst (getAllNoteMetadata diskWithBrokenIndex) = Ok [] /\
  fst (getAllNoteMetadata diskWithNullIndex) = Ok [].
Proof. split; vm_compute; reflexivity. Qed.

Example delete_with_broken_index_forgets_the_other_notes :
  let after := snd (deleteNote "n9" diskWithBrokenIndex) in
  fst (deleteNote "n9" diskWithBrokenIndex) = Ok tt /\
  FileSystem.files (data after) !! METADATA_FILE = Some "[]" /\
  FileSystem.files (data after) !! (NOTES_DIR +:+ "n1.encrypted") = Some messageBlob /\
  fst (getAllNoteMetadata after) = Ok [].
Proof. vm_compute. repeat split; reflexivity. Qed.

(** [saveNote] calls [findIndex] outside its [try]: on an index that is no
    array it rejects with the [TypeError] of the engine after the blob has
    been written. *)
Example save_on_a_null_index_rejects_after_the_blob_is_written :
  let after := snd (saveNote hello (Some sessionKey) (nonce 7) diskWithNullIndex) in
  fst (saveNote hello (Some sessionKey) (nonce 7) diskWithNullIndex)
    = Throw (Rejected "TypeError") /\
  FileSystem.files (data after) !! METADATA_FILE = Some "null" /\
  is_Some (FileSystem.files (data after) !! (NOTES_DIR +:+ "n4.encrypted")).
Proof. vm_compute. repeat split. eexists. reflexivity. Qed.

(** What [JSON.parse] makes of texts that are no array of entries. *)
Example texts_of_JSON :
  JSON_parse (JSON_stringify (entries [entry "n1" 1000; entry "n2" (-5)]))
    = Ok (entries [entry "n1" 1000; entry "n2" (-5)]) /\
  JSON_parse "null" = Ok JNull /\
  JSON_parse " [1, 2.5e3 ,true ] " =
    Ok (JArray [JNumber (Integer 1); JNumber (Fraction "2.5e3"); JBool true]) /\
  JSON_parse "{}" = Ok (JObject []) /\
  JSON_parse "[{" = Throw (Rejected "SyntaxError") /\
  JSON_parse "01" = Throw (Rejected "SyntaxError") /\
  JSON_parse "[1,]" = Throw (Rejected "SyntaxError").
Proof. repeat split; vm_compute; reflexivity. Qed.

(** The scenario of the specification: set the password, save a note, log
    in again and read the note back; a wrong password is turned away. *)
Example set_save_login_load :
  let store := storeAfterSet in
  let saved :=
    snd (saveNote (Note.mk "n1" "Hello" 1000) (Some sessionKey) (nonce 7)
           (mkWorld (FileSystem.mkDisk ∅ ∅) [])) in
  fst (verifyMasterPassword "Secret1" store) = Ok (Some sessionKey) /\
  fst (loadNoteContent "n1" (Some sessionKey) saved) = Ok (Some "Hello") /\
  fst (getAllNoteMetadata saved) = Ok [StoredNoteMetadata.toJSON (entry "n1" 1000)] /\
  fst (verifyMasterPassword "Wrong" store) = Ok None.
Proof. vm_compute. repeat split; reflexivity. Qed.

End Scenarios.

(** * Instances of the further properties *)

Module Runs.

Import Crypto NoteStorage Inputs.

#[local] Existing Instance Reference.lib.
#[local] Existing Instance Reference.json.
#[local] Existing Instance Reference.fileSystem.

(** ** The cipher and the password verifier *)

Lemma layout_of_a_blob :
  exists blob ivString ciphertext,
    encryptData message (Some sessionKey) (nonce 3) = Ok blob /\
    blob = ivString +:+ ":" +:+ ciphertext /\
    split ":" blob = [ivString; ciphertext] /\
    ivString <> "" /\ ciphertext <> "" /\
    Hex_parse ivString =
      WordArray_create (Array_from (ExpoCrypto.getRandomBytes (nonce 3) IV_SIZE)) /\
    length (words (Hex_parse ivString)) = 16%nat /\
    sigBytes (Hex_parse ivString) = 64 /\
    Forall (fun w => 0 <= w < 256) (words (Hex_parse ivString)).
Proof.
  destruct (CryptoProperties.encryptData_blob_layout
              (L := Reference.lib) (HL := ReferenceSpec.lib_laws)
              message (Some sessionKey) (nonce 3)) as [Hlayout Hreturned].
  destruct (Hreturned ltac:(discriminate) eq_refl ltac:(discriminate)) as [blob Hblob].
  destruct (Hlayout blob Hblob) as (ivString & ciphertext & Hparts).
  exists blob, ivString, ciphertext. split; [exact Hblob|exact Hparts].
Defined.

Lemma blob_with_a_tail :
  decryptData ("00ff" +:+ ":" +:+ "QUJD" +:+ ":" +:+ "anything") (Some sessionKey) =
  decryptData ("00ff" +:+ ":" +:+ "QUJD") (Some sessionKey).
Proof.
  exact (CryptoProperties.decryptData_ignores_a_third_part
           (L := Reference.lib) "00ff" "QUJD" "anything" (Some sessionKey)
           ltac:(cbn; repeat split; discriminate) ltac:(cbn; repeat split; discriminate)).
Defined.

Lemma verified_key_of_Secret1 :
  verifyMasterPassword "Secret1" storeAfterSet = (Ok (Some sessionKey), storeAfterSet) /\
  exists s stored,
    data storeAfterSet !! SECURE_STORE_SALT_KEY = Some s /\ s <> "" /\
    data storeAfterSet !! TEST_DATA_KEY = Some stored /\
    PBKDF2 "Secret1" (Base64_parse s) KEY_SIZE PBKDF2_ITERATIONS = Ok sessionKey /\
    decryptData stored (Some sessionKey) = Ok (Some TEST_PLAIN_TEXT).
Proof.
  assert (Hverify : verifyMasterPassword "Secret1" storeAfterSet
                    = (Ok (Some sessionKey), storeAfterSet))
    by (vm_compute; reflexivity).
  split; [exact Hverify|].
  destruct (CryptoProperties.verifyMasterPassword_returns_only_a_verified_key
              (L := Reference.lib) "Secret1" storeAfterSet storeAfterSet (Ok (Some sessionKey))
              Hverify) as [_ Hkey].
  destruct (Hkey sessionKey eq_refl) as [_ Hprobe]. exact Hprobe.
Defined.

Lemma failed_reads_of_a_login :
  verifyMasterPassword "Secret1" (storeWithFaults [true])
    = (Ok None, storeWithFaults []) /\
  verifyMasterPassword "Secret1" (storeWithFaults [false; true])
    = (Throw (Rejected "expo-secure-store"), storeWithFaults []) /\
  verifyMasterPassword unpairedSurrogate (storeWithFaults [false; true])
    = (Throw (Rejected "URIError"), storeWithFaults [true]).
Proof.
  split; [|split].
  - exact (proj1 (CryptoProperties.verifyMasterPassword_read_failures
                    (L := Reference.lib) "Secret1"
                    (Base64_stringify (generateSalt saltSource)) (storeWithFaults [true]) []
                    ltac:(discriminate) ltac:(vm_compute; reflexivity)
                    ltac:(vm_compute; discriminate)) eq_refl).
  - exact (proj2 (CryptoProperties.verifyMasterPassword_read_failures
                    (L := Reference.lib) "Secret1"
                    (Base64_stringify (generateSalt saltSource))
                    (storeWithFaults [false; true]) []
                    ltac:(discriminate) ltac:(vm_compute; reflexivity)
                    ltac:(vm_compute; discriminate)) eq_refl).
  - exact (proj2 (CryptoProperties.verifyMasterPassword_read_failures
                    (L := Reference.lib) unpairedSurrogate
                    (Base64_stringify (generateSalt saltSource))
                    (storeWithFaults [false; true]) []
                    ltac:(discriminate) ltac:(vm_compute; reflexivity)
                    ltac:(vm_compute; discriminate)) eq_refl).
Defined.

Lemma lock_out_after_a_failed_probe_write :
  exists st',
    setMasterPassword "Secret1" saltSource (nonce 3) (mkWorld ∅ [false; true])
      = (Throw (Error "Failed to secure internal test data for password verification."),
         st') /\
    hasMasterPassword st' = (Ok true, st') /\
    (forall password',
       exists r, verifyMasterPassword password' st' = (r, st') /\
                 (r = Ok None \/ exists e', r = Throw e') /\
                 (JSText.well_formed password' = true -> r = Ok None)).
Proof.
  destruct (CryptoProperties.failed_probe_write_locks_out
              (L := Reference.lib) (HL := ReferenceSpec.lib_laws)
              "Secret1" saltSource (nonce 3) (mkWorld ∅ [false; true])
              ltac:(discriminate) eq_refl eq_refl)
    as (e & st' & Hset & Herror & Hlater).
  destruct (Herror eq_refl) as [-> Hfaults].
  destruct (Hlater st' eq_refl Hfaults) as [Hhas Hverify].
  exists st'. split; [exact Hset|]. split; [exact Hhas|exact Hverify].
Defined.

Lemma a_second_setMasterPassword :
  exists key probe st',
    setMasterPassword "Other" saltSource (nonce 5) storeAfterSet = (Ok key, st') /\
    PBKDF2 "Other" (generateSalt saltSource) KEY_SIZE PBKDF2_ITERATIONS = Ok key /\
    sigBytes key = 32 /\
    encryptData TEST_PLAIN_TEXT (Some key) (nonce 5) = Ok probe /\
    data st' !! SECURE_STORE_SALT_KEY = Some (Base64_stringify (generateSalt saltSource)) /\
    data st' !! TEST_DATA_KEY = Some probe /\
    (forall slot, slot <> SECURE_STORE_SALT_KEY -> slot <> TEST_DATA_KEY ->
       data st' !! slot = data storeAfterSet !! slot) /\
    hasMasterPassword st' = (Ok true, st').
Proof.
  exact (CryptoProperties.setMasterPassword_replaces_any_stored_password
           (L := Reference.lib) (HL := ReferenceSpec.lib_laws)
           "Other" saltSource (nonce 5) storeAfterSet
           ltac:(discriminate) eq_refl ltac:(vm_compute; reflexivity)).
Defined.

Lemma clearing_the_store_after_set :
  exists st',
    clearMasterPassword storeAfterSet = (Ok tt, st') /\
    data st' !! SECURE_STORE_SALT_KEY = None /\
    data st' !! TEST_DATA_KEY = None /\
    (forall key, key <> SECURE_STORE_SALT_KEY -> key <> TEST_DATA_KEY ->
       data st' !! key = data storeAfterSet !! key) /\
    hasMasterPassword st' = (Ok false, st') /\
    (forall password, verifyMasterPassword password st' = (Ok None, st')).
Proof.
  exact (CryptoProperties.clearMasterPassword_erases_the_password
           (L := Reference.lib) storeAfterSet ltac:(vm_compute; reflexivity)).
Defined.

Lemma salt_through_the_store :
  exists st',
    storeSalt (generateSalt saltSource) emptyStore = (Ok tt, st') /\
    getStoredSalt st' = (Ok (Some (generateSalt saltSource)), st').
Proof.
  exact (CryptoProperties.getStoredSalt_after_storeSalt
           (L := Reference.lib) (HL := ReferenceSpec.lib_laws)
           saltSource emptyStore eq_refl).
Defined.

(** ** The note repository *)

Lemma index_of_disk : indexHolds (data disk) diskEntries.
Proof. vm_compute. reflexivity. Qed.

Lemma saving_hello :
  exists fs',
    saveNote hello (Some sessionKey) (nonce 7) disk = (Ok hello, fs') /\
    fst (loadNoteContent "n4" (Some sessionKey) fs') = Ok (Some "Hello") /\
    (forall id k', id <> "n4" ->
       fst (loadNoteContent id (Some k') fs') = fst (loadNoteContent id (Some k') disk)).
Proof.
  destruct (NoteStorageProperties.saveNote_then_loadNoteContent_roundtrip
              (L := Reference.lib) (E := Reference.fileSystem) (J := Reference.json)
              (HJ := ReferenceSpec.json_laws) (HL := ReferenceSpec.lib_laws)
              hello sessionKey (nonce 7) disk diskEntries
              eq_refl ltac:(discriminate) eq_refl index_of_disk)
    as (fs' & ciphertext & Hsave & Hciphertext & Hload & Hothers).
  vm_compute in Hciphertext. injection Hciphertext as <-.
  exists fs'. split; [exact Hsave|]. split; [|exact Hothers].
  apply Hload. vm_compute. reflexivity.
Defined.

Lemma listing_after_saving_hello :
  exists fs' before after,
    fst (getAllNoteMetadata disk) = Ok (map StoredNoteMetadata.toJSON before) /\
    saveNote hello (Some sessionKey) (nonce 7) disk = (Ok hello, fs') /\
    fst (getAllNoteMetadata fs') = Ok (map StoredNoteMetadata.toJSON after) /\
    In (entry "n4" 4000) after /\
    (forall m, StoredNoteMetadata.id m <> "n4" -> In m after <-> In m before) /\
    length after =
      (if existsb (fun m => String.eqb (StoredNoteMetadata.id m) "n4") before
       then length before else S (length before)).
Proof.
  exact (NoteStorageProperties.saveNote_then_getAllNoteMetadata
           (L := Reference.lib) (E := Reference.fileSystem) (J := Reference.json)
           (HJ := ReferenceSpec.json_laws) (HL := ReferenceSpec.lib_laws)
           hello sessionKey (nonce 7) disk diskEntries
           eq_refl ltac:(discriminate) eq_refl index_of_disk).
Defined.

Lemma distinct_ids_on_disk :
  (exists fs' l',
     saveNote hello (Some sessionKey) (nonce 7) disk = (Ok hello, fs') /\
     indexHolds (data fs') l' /\
     List.NoDup (map StoredNoteMetadata.id l')) /\
  (exists fs' l',
     deleteNote "n2" disk = (Ok tt, fs') /\
     indexHolds (data fs') l' /\
     List.NoDup (map StoredNoteMetadata.id l')).
Proof.
  apply (NoteStorageProperties.index_ids_stay_distinct
           (L := Reference.lib) (E := Reference.fileSystem) (J := Reference.json)
           (HJ := ReferenceSpec.json_laws) (HL := ReferenceSpec.lib_laws)
           hello sessionKey (nonce 7) "n2" disk diskEntries
           eq_refl ltac:(discriminate) eq_refl index_of_disk).
  repeat constructor; cbn; intros H; repeat destruct H as [H | H]; discriminate || exact H.
Defined.

Lemma saving_a_note_without_text :
  exists fs',
    saveNote (Note.mk "n5" "" 5000) (Some sessionKey) (nonce 7) emptyDisk =
      (Throw (Error "Encrypt data received invalid input."), fs') /\
    FileSystem.files (data fs') = FileSystem.files (data emptyDisk) /\
    NOTES_DIR ∈ FileSystem.directories (data fs').
Proof.
  exact (NoteStorageProperties.saveNote_empty_content_rejects
           (L := Reference.lib) (E := Reference.fileSystem) (J := Reference.json)
           (Note.mk "n5" "" 5000) sessionKey (nonce 7) emptyDisk eq_refl eq_refl).
Defined.

Lemma saving_hello_on_a_broken_index :
  exists fs',
    saveNote hello (Some sessionKey) (nonce 7) diskWithBrokenIndex = (Ok hello, fs') /\
    FileSystem.files (data fs') !! METADATA_FILE
      = Some (JSON_stringify (entries [entry "n4" 4000])) /\
    (forall id, id <> "n4" ->
       FileSystem.files (data fs') !! blobPath id =
       FileSystem.files (data diskWithBrokenIndex) !! blobPath id).
Proof.
  apply (NoteStorageProperties.saveNote_with_unreadable_index_starts_afresh
           (L := Reference.lib) (E := Reference.fileSystem) (J := Reference.json)
           (HL := ReferenceSpec.lib_laws)
           hello sessionKey (nonce 7) diskWithBrokenIndex
           eq_refl ltac:(discriminate) eq_refl).
  right. exists "[{", (Rejected "SyntaxError"). split; reflexivity.
Defined.

Lemma delete_with_a_failed_index_read :
  exists fs',
    deleteNote "n2" (diskWithFaults [false; false; false; true]) = (Ok tt, fs') /\
    FileSystem.files (data fs') !! METADATA_FILE = Some (JSON_stringify (entries [])) /\
    FileSystem.files (data fs') !! blobPath "n2" = None.
Proof.
  exact (NoteStorageProperties.deleteNote_failed_index_read_erases_index
           (E := Reference.fileSystem) (J := Reference.json)
           "n2" messageBlob (diskWithFaults [false; false; false; true])
           ltac:(vm_compute; reflexivity) eq_refl eq_refl).
Defined.

Lemma delete_with_a_failed_index_write :
  exists fs',
    deleteNote "n2" (diskWithFaults [false; false; false; false; true])
      = (Throw (Error "Failed to delete note."), fs') /\
    FileSystem.files (data fs') = delete (blobPath "n2") (FileSystem.files (data disk)) /\
    fst (getAllNoteMetadata (mkWorld (data fs') [])) = fst (getAllNoteMetadata disk) /\
    fst (loadNoteContent "n2" (Some sessionKey) (mkWorld (data fs') [])) = Ok None.
Proof.
  destruct (NoteStorageProperties.deleteNote_failed_index_write_keeps_entry
              (L := Reference.lib) (E := Reference.fileSystem) (J := Reference.json)
              "n2" messageBlob sessionKey (diskWithFaults [false; false; false; false; true])
              ltac:(vm_compute; reflexivity) eq_refl eq_refl)
    as (fs' & Hdelete & Hfiles & Hlater).
  exists fs'. split; [exact Hdelete|]. split; [exact Hfiles|].
  exact (Hlater (mkWorld (data fs') []) eq_refl eq_refl).
Defined.

Lemma the_notes_directory_is_made_once :
  exists fs',
    ensureDirExists emptyDisk = (Ok tt, fs') /\
    NOTES_DIR ∈ FileSystem.directories (data fs') /\
    FileSystem.files (data fs') = FileSystem.files (data emptyDisk) /\
    (forall dir, dir ∈ FileSystem.directories (data emptyDisk) ->
       dir ∈ FileSystem.directories (data fs')) /\
    ensureDirExists fs' = (Ok tt, fs').
Proof.
  exact (NoteStorageProperties.ensureDirExists_makes_the_directory_once
           (E := Reference.fileSystem) emptyDisk eq_refl).
Defined.

Lemma deleting_n2_from_disk :
  exists fs' fs'' listing,
    deleteNote "n2" disk = (Ok tt, fs') /\
    FileSystem.files (data fs') !! blobPath "n2" = None /\
    FileSystem.files (data fs') !! METADATA_FILE =
      Some (JSON_stringify (entries [entry "n1" 1000; entry "n3" 3000])) /\
    (forall path,
       path <> METADATA_FILE -> path <> blobPath "n2" ->
       FileSystem.files (data fs') !! path = FileSystem.files (data disk) !! path) /\
    fst (loadNoteContent "n2" (Some sessionKey) fs') = Ok None /\
    fst (getAllNoteMetadata fs') = Ok (map StoredNoteMetadata.toJSON listing) /\
    (forall m, In m listing <-> In m diskEntries /\ StoredNoteMetadata.id m <> "n2") /\
    deleteNote "n2" fs' = (Ok tt, fs'') /\
    FileSystem.files (data fs'') = FileSystem.files (data fs').
Proof.
  exact (NoteStorageProperties.deleteNote_removes_blob_and_entry
           (L := Reference.lib) (E := Reference.fileSystem) (J := Reference.json)
           (HJ := ReferenceSpec.json_laws)
           "n2" sessionKey disk diskEntries eq_refl index_of_disk).
Defined.

(** ** The screens *)

Lemma clearing_all_data_at_home :
  exists w',
    CryptoContext.clearAllCryptoData home = (Ok tt, w') /\
    UI.events w' =
      UI.events home ++
      [UI.Alert "Data Cleared"
         "Master password and all notes have been permanently deleted from this device. You will need to set a new master password on next launch."] /\
    UI.keyContext w' = UI.mkKeyContext None false /\
    fst (hasMasterPassword (UI.secureStore w')) = Ok false /\
    UI.fileSystem w' = disk.
Proof.
  exact (ScreenProperties.clearAllCryptoData_keeps_every_note_file
           (L := Reference.lib) home ltac:(vm_compute; reflexivity)).
Defined.

Lemma leaving_the_editor_of_n1 :
  NoteEditorScreen.autoSave true (Some sessionKey) (Some "n1") (clock 5000) (nonce 7)
    (editor (Some "n1") "   " disk) = (Ok tt, editor (Some "n1") "   " disk) /\
  exists w1 l1,
    NoteEditorScreen.autoSave true (Some sessionKey) (Some "n1") (clock 5000) (nonce 7)
      (editor (Some "n1") " Hello " disk) = (Ok tt, w1) /\
    indexHolds (data (UI.fileSystem w1)) l1 /\
    In (entry "n1" 5000) l1 /\
    exists w3,
      NoteEditorScreen.fetchOrCreateNote (Some "n1") true (Some sessionKey)
        (editor None "" (UI.fileSystem w1)) = (Ok tt, w3) /\
      NoteEditorScreen.content (UI.screen w3) = " Hello ".
Proof.
  split.
  - exact (proj1 (ScreenProperties.autoSave_saves_the_text_as_typed
                    (L := Reference.lib) (E := Reference.fileSystem) (J := Reference.json)
                    (HJ := ReferenceSpec.json_laws) (HL := ReferenceSpec.lib_laws)
                    sessionKey "n1" (clock 5000) (nonce 7) (editor (Some "n1") "   " disk)
                    diskEntries eq_refl ltac:(discriminate)) ltac:(vm_compute; reflexivity)).
  - destruct (proj2 (ScreenProperties.autoSave_saves_the_text_as_typed
                       (L := Reference.lib) (E := Reference.fileSystem) (J := Reference.json)
                       (HJ := ReferenceSpec.json_laws) (HL := ReferenceSpec.lib_laws)
                       sessionKey "n1" (clock 5000) (nonce 7)
                       (editor (Some "n1") " Hello " disk) diskEntries
                       eq_refl ltac:(discriminate))
                ltac:(vm_compute; discriminate) ltac:(vm_compute; reflexivity) index_of_disk)
      as (w1 & l1 & ciphertext & Hsave & _ & _ & Hindex & Hin & Hciphertext & Hopen).
    vm_compute in Hciphertext. injection Hciphertext as <-.
    exists w1, l1. split; [exact Hsave|]. split; [exact Hindex|]. split; [exact Hin|].
    destruct (Hopen ltac:(vm_compute; reflexivity) (editor None "" (UI.fileSystem w1)) eq_refl)
      as (w3 & Hfetch & Hcontent & _).
    exists w3. split; [exact Hfetch|exact Hcontent].
Defined.

Lemma leaving_a_new_note_twice :
  exists w1 w2 l2,
    NoteEditorScreen.autoSave true (Some sessionKey) None (clock 5000) (nonce 7)
      (editor None "Hello" emptyDisk) = (Ok tt, w1) /\
    NoteEditorScreen.autoSave true (Some sessionKey) None (clock 6000) (nonce 8) w1
      = (Ok tt, w2) /\
    indexHolds (data (UI.fileSystem w2)) l2 /\
    In (entry "5000" 5001) l2 /\
    In (entry "6000" 6001) l2 /\
    fst (loadNoteContent "5000" (Some sessionKey) (UI.fileSystem w2)) = Ok (Some "Hello") /\
    fst (loadNoteContent "6000" (Some sessionKey) (UI.fileSystem w2)) = Ok (Some "Hello").
Proof.
  destruct (ScreenProperties.autoSave_of_a_new_note_adds_a_note_each_time
              (L := Reference.lib) (E := Reference.fileSystem) (J := Reference.json)
              (HJ := ReferenceSpec.json_laws) (HL := ReferenceSpec.lib_laws)
              sessionKey (clock 5000) (clock 6000) (nonce 7) (nonce 8)
              (editor None "Hello" emptyDisk) []
              eq_refl ltac:(vm_compute; discriminate) ltac:(vm_compute; reflexivity)
              ltac:(vm_compute; reflexivity) ltac:(discriminate))
    as (w1 & w2 & l2 & ciphertext & ciphertext' & Hfirst & _ & Hsecond & _ & Hindex
        & Hin1 & Hin2 & Hciphertext & Hciphertext' & Hload & Hload').
  vm_compute in Hciphertext. injection Hciphertext as <-.
  vm_compute in Hciphertext'. injection Hciphertext' as <-.
  exists w1, w2, l2. split; [exact Hfirst|]. split; [exact Hsecond|].
  split; [exact Hindex|]. split; [exact Hin1|]. split; [exact Hin2|].
  split; [apply Hload|apply Hload']; vm_compute; reflexivity.
Defined.

Lemma first_launch_and_next_login :
  exists w1,
    LoginScreen.handleSetMasterPassword saltSource (nonce 3)
      (loginScreen "Secret1" "Secret1" emptyStore) = (Ok tt, w1) /\
    UI.keyContext w1 = UI.mkKeyContext (Some sessionKey) true /\
    UI.events w1 = [UI.Dispatch (Navigation.replace Navigation.Home)] /\
    exists w3,
      LoginScreen.handleLogin (loginScreen "Secret1" "" (UI.secureStore w1)) = (Ok tt, w3) /\
      UI.keyContext w3 = UI.mkKeyContext (Some sessionKey) true.
Proof.
  destruct (ScreenProperties.handleLogin_after_handleSetMasterPassword
              (L := Reference.lib) (HL := ReferenceSpec.lib_laws)
              saltSource (nonce 3) (loginScreen "Secret1" "Secret1" emptyStore)
              eq_refl ltac:(discriminate) eq_refl eq_refl)
    as (w1 & key & ciphertext & Hset & Hkey & Hevents & _ & _ & Hciphertext & Hlogin).
  assert (key = sessionKey) as ->.
  { pose proof Hset as Hrun. vm_compute in Hrun. injection Hrun as <-.
    vm_compute in Hkey. injection Hkey as <-. vm_compute. reflexivity. }
  vm_compute in Hciphertext. injection Hciphertext as <-.
  exists w1. split; [exact Hset|]. split; [exact Hkey|]. split; [exact Hevents|].
  destruct (Hlogin ltac:(vm_compute; reflexivity)
              (loginScreen "Secret1" "" (UI.secureStore w1)) eq_refl eq_refl)
    as (w3 & Hlog & Hkey3 & _).
  exists w3. split; [exact Hlog|exact Hkey3].
Defined.

Lemma deleting_n2_in_the_editor :
  exists w' listing,
    NoteEditorScreen.handleDelete_onPress true (Some sessionKey)
      (editor (Some "n2") message disk) = (Ok tt, w') /\
    UI.events w' =
      [UI.Alert "Deleted" "Note successfully deleted."; UI.Dispatch Navigation.goBack] /\
    fst (loadNoteContent "n2" (Some sessionKey) (UI.fileSystem w')) = Ok None /\
    fst (getAllNoteMetadata (UI.fileSystem w')) = Ok (map StoredNoteMetadata.toJSON listing) /\
    (forall m, In m listing <-> In m diskEntries /\ StoredNoteMetadata.id m <> "n2").
Proof.
  exact (proj1 (proj2 (proj2 (ScreenProperties.handleDelete_onPress_outcomes
                                (L := Reference.lib) (E := Reference.fileSystem)
                                (J := Reference.json) (HJ := ReferenceSpec.json_laws)
                                sessionKey "n2" (editor (Some "n2") message disk)
                                ltac:(discriminate))))
           eq_refl eq_refl diskEntries index_of_disk).
Defined.

End Runs.
